(** * x-ai-trends-digest: the trend fetcher pipeline and the article digest

    A shallow embedding of [scripts/fetch_x_trends.py] (query building,
    item building, time-window filter, deduplication, ranking, truncation,
    and the control flow of [main]) and of the digest derivation of
    [scripts/publish_wechat_article.py], followed by the properties the
    specification states about them.

    Python values are modelled as follows.
    - [str] is a list of Unicode code points ([pystr]); [len], slicing,
      comparison and substring search are those of the code-point list.
    - a dictionary entry read with [.get] is an [option]: [None] stands for
      a missing key as well as for the value [None], which [.get] cannot
      tell apart.
    - [int] is [Z].
    - an exception is a value of [exn]; code that can raise returns a
      [result].
    - library functions whose tables are not part of this repository
      ([str.lower], [datetime.fromisoformat], [datetime.isoformat],
      [html.unescape]) are fields of a class, so every theorem holds for
      whatever the interpreter provides. *)

From Stdlib Require Import ZArith List String Ascii Bool Lia Permutation Sorted.
From Stdlib Require DecimalString.
From stdpp Require Import gmap list sorting.

Local Open Scope Z_scope.
#[local] Set Warnings "-clear-no-such-hyp".

(* ===================================================================== *)
(** * Python primitives *)
(* ===================================================================== *)

Module Py.

(** A Python [str]: its code points. *)
Definition pystr := list N.

(** An ASCII literal of the source. *)
Definition str (s : string) : pystr := map N_of_ascii (list_ascii_of_string s).

(** Truthiness of an optional string: [None] and [""] are falsy. *)
Definition truthy (v : option pystr) : bool :=
  match v with
  | Some (_ :: _) => true
  | _ => false
  end.

(** [a or b]. *)
Definition py_or (a b : option pystr) : option pystr :=
  if truthy a then a else b.

(** [str.isspace] on one code point, the set [str.strip()] removes. *)
Definition isspace (c : N) : bool :=
  (((9 <=? c) && (c <=? 13)) || ((28 <=? c) && (c <=? 32)) || (c =? 133)
   || (c =? 160) || (c =? 5760) || ((8192 <=? c) && (c <=? 8202))
   || (c =? 8232) || (c =? 8233) || (c =? 8239) || (c =? 8287)
   || (c =? 12288))%N.

Fixpoint drop_while (p : N -> bool) (s : pystr) : pystr :=
  match s with
  | [] => []
  | c :: rest => if p c then drop_while p rest else s
  end.

(** [s.lstrip()], [s.rstrip()], [s.strip()]. *)
Definition lstrip (s : pystr) : pystr := drop_while isspace s.

Definition rstrip (s : pystr) : pystr := rev (drop_while isspace (rev s)).
Definition strip (s : pystr) : pystr := rstrip (lstrip s).

(** [s.lstrip(chars)] for a one-character [chars]. *)
Definition lstrip_char (c : N) (s : pystr) : pystr := drop_while (N.eqb c) s.

(** [s.startswith(p)]. *)
Fixpoint startswith (p s : pystr) : bool :=
  match p, s with
  | [], _ => true
  | _ :: _, [] => false
  | a :: p', b :: s' => (a =? b)%N && startswith p' s'
  end.

(** [needle in hay]. *)
Fixpoint contains (needle hay : pystr) : bool :=
  startswith needle hay
  || match hay with
     | [] => false
     | _ :: rest => contains needle rest
     end.

(** The scan of [s.replace(old, new)] for a non-empty [old]: [skip] counts
    the characters of a match still to be passed over. *)
Fixpoint replace_scan (old new s : pystr) (skip : nat) : pystr :=
  match s with
  | [] => []
  | c :: rest =>
      match skip with
      | S k => replace_scan old new rest k
      | O =>
          if startswith old s
          then new ++ replace_scan old new rest (Nat.pred (length old))
          else c :: replace_scan old new rest O
      end
  end.

(** [s.replace(old, new)]; an empty [old] matches between all characters. *)
Definition replace (old new s : pystr) : pystr :=
  match old with
  | [] => new ++ flat_map (fun c => c :: new) s
  | _ :: _ => replace_scan old new s O
  end.

(** [s.split(sep, 1)] for a one-character [sep] that occurs in [s]: the
    text before the first [sep] and the text after it; [None] when [sep]
    does not occur. *)
Fixpoint split_once (sep : N) (s : pystr) : option (pystr * pystr) :=
  match s with
  | [] => None
  | c :: rest =>
      if (c =? sep)%N then Some ([], rest)
      else match split_once sep rest with
           | Some (a, b) => Some (c :: a, b)
           | None => None
           end
  end.

(** [a < b] on strings: lexicographic on code points. *)
Fixpoint str_ltb (a b : pystr) : bool :=
  match a, b with
  | _, [] => false
  | [], _ :: _ => true
  | x :: a', y :: b' => (x <? y)%N || ((x =? y)%N && str_ltb a' b')
  end.

(** [sep.join(parts)]. *)
Fixpoint join (sep : pystr) (parts : list pystr) : pystr :=
  match parts with
  | [] => []
  | [p] => p
  | p :: rest => p ++ sep ++ join sep rest
  end.

(** [l[:n]] for an integer [n]: a negative bound counts from the end. *)
Definition slice_to {A} (l : list A) (n : Z) : list A :=
  if 0 <=? n then take (Z.to_nat n) l
  else take (length l - Z.to_nat (- n))%nat l.

(** [str(n)] for an integer. *)
Definition str_of_int (n : Z) : pystr :=
  str (DecimalString.NilZero.string_of_int (Z.to_int n)).

(** Exceptions: the class and [str(exc)]. *)
Inductive exn_class :=
  | TypeError | ValueError | OverflowError | RuntimeError | OtherException.

Record exn := Exn { exn_kind : exn_class; exn_str : pystr }.

Inductive result (A : Type) :=
  | Ok (a : A)
  | Raise (e : exn).
Arguments Ok {A} a.
Arguments Raise {A} e.

(** Sequencing of code that can raise, with stdpp's [x ← r; k] notation. *)
#[global] Instance result_bind : MBind result := fun A B k r =>
  match r with
  | Ok a => k a
  | Raise e => Raise e
  end.

#[global] Instance result_ret : MRet result := fun A a => Ok a.

(** [l.sort(key=key, reverse=True)]: the stable sort into descending key
    order; entries with equal keys keep their order.  [ltb] is [<] on keys.
    An entry is inserted in front of the first one whose key is not
    greater. *)
Section Sort.
Context {A K : Type} (key : A -> K) (ltb : K -> K -> bool).

Fixpoint insert_desc (x : A) (l : list A) : list A :=
  match l with
  | [] => [x]
  | y :: ys =>
      if ltb (key x) (key y) then y :: insert_desc x ys else x :: l
  end.

Definition sort_desc (l : list A) : list A := foldr insert_desc [] l.

End Sort.

(** [v or ""]. *)
Definition or_empty (v : option pystr) : pystr :=
  match v with
  | Some s => s
  | None => []
  end.

(** [not s] for a string. *)
Definition is_empty (s : pystr) : bool :=
  match s with
  | [] => true
  | _ :: _ => false
  end.

(** [<] on a tuple [(int, str)]. *)
Definition pair_ltb (a b : Z * pystr) : bool :=
  (a.1 <? b.1) || ((a.1 =? b.1) && str_ltb a.2 b.2).

End Py.

(* ===================================================================== *)
(** * scripts/fetch_x_trends.py *)
(* ===================================================================== *)

Module Fetcher.
Import Py.

(** ** Library functions and time *)

(** A [datetime]: microseconds since 0001-01-01T00:00:00, of the UTC
    instant for an offset-aware value and of the wall clock for an
    offset-naive one. *)
Record datetime := { dt_us : Z; dt_aware : bool }.

(** What the interpreter provides: [str.lower], [datetime.fromisoformat]
    ([None] when it raises [ValueError]) and [datetime.isoformat] of a UTC
    instant. *)
Class Runtime := {
  lower : pystr -> pystr;
  fromisoformat : pystr -> option datetime;
  isoformat : Z -> pystr
}.

(** One past [datetime.max], in microseconds (9999-12-31 is day 3652059). *)
Definition MAX_US : Z := 3652059 * 86400000000.

(** The message of the [OverflowError] that [timedelta(hours=h)] or the
    subtraction raises: the days of the [timedelta] do not fit a C [int],
    or they exceed 999999999 in magnitude, or the [timedelta] can be built
    and the date leaves the years 1..9999. *)
Definition overflow_message (h : Z) : pystr :=
  let days := h / 24 in
  if (days <? -2147483648) || (2147483647 <? days)
  then str "Python int too large to convert to C int"
  else if (days <? -999999999) || (999999999 <? days)
  then str "days=" ++ str_of_int days ++ str "; must have magnitude <= 999999999"
  else str "date value out of range".

(** [datetime.now(timezone.utc) - timedelta(hours=h)], for an instant
    [now] of the clock: [OverflowError] when the result leaves the years
    1..9999, which includes every [timedelta] too large to build. *)
Definition utc_minus_hours (now h : Z) : result Z :=
  let c := now - h * 3600000000 in
  if (0 <=? c) && (c <? MAX_US) then Ok c
  else Raise (Exn OverflowError (overflow_message h)).

(** [dt >= cutoff] for an offset-aware [cutoff]. *)
Definition dt_ge_aware (dt : datetime) (cutoff : Z) : result bool :=
  if dt_aware dt then Ok (cutoff <=? dt_us dt)
  else Raise (Exn TypeError
                (str "can't compare offset-naive and offset-aware datetimes")).

(** ** Data *)

(** [public_metrics]: a count is [None] when its key is missing. *)
Record metrics := {
  like_count : option Z;
  retweet_count : option Z;
  reply_count : option Z;
  quote_count : option Z
}.

Definition no_metrics : metrics :=
  {| like_count := None; retweet_count := None;
     reply_count := None; quote_count := None |}.

(** The item dictionary. *)
Record item := {
  i_id : option pystr;
  i_text : option pystr;
  i_author : option pystr;
  i_username : option pystr;
  i_url : option pystr;
  i_created_at : option pystr;
  i_metrics : metrics;
  i_engagement_score : Z;
  i_source : option pystr
}.

(** A tweet and a user of the API payload. *)
Record tweet := {
  t_id : option pystr;
  t_text : option pystr;
  t_author_id : option pystr;
  t_created_at : option pystr;
  t_public_metrics : option metrics
}.

Record user := {
  u_id : option pystr;
  u_username : option pystr;
  u_name : option pystr
}.

(** The API payload: [data], [includes.users] and [errors]. *)
Record payload := {
  p_data : option (list tweet);
  p_users : list user;
  p_errors : list pystr
}.

(** An entry of the feed list. *)
Record feed := { f_label : pystr; f_url : pystr }.

(** ** Configuration lists *)

(** The loop of [_load_keywords] and [_load_accounts] over the lines. *)
Fixpoint load_lines (lines : list pystr) : list pystr :=
  match lines with
  | [] => []
  | line :: rest =>
      let line := strip line in
      if is_empty line || startswith (str "#") line then load_lines rest
      else line :: load_lines rest
  end.

(** A file is the list of its lines, [None] when it does not exist. *)
Definition _load_keywords (file : option (list pystr)) : list pystr :=
  match file with
  | Some lines => load_lines lines
  | None => []
  end.

Definition _load_exclude_keywords `{Runtime} (file : option (list pystr))
  : list pystr :=
  map lower (_load_keywords file).

Definition _load_accounts (file : option (list pystr)) : list pystr :=
  match file with
  | Some lines => load_lines lines
  | None => []
  end.

Fixpoint load_feed_lines (lines : list pystr) : list feed :=
  match lines with
  | [] => []
  | line :: rest =>
      let raw := strip line in
      if is_empty raw || startswith (str "#") raw then load_feed_lines rest
      else
        let entry :=
          match split_once 124 raw with
          | Some (label, url) => {| f_label := strip label; f_url := strip url |}
          | None => {| f_label := []; f_url := raw |}
          end in
        entry :: load_feed_lines rest
  end.

Definition _load_feeds (file : option (list pystr)) : list feed :=
  match file with
  | Some lines => load_feed_lines lines
  | None => []
  end.

Definition _normalize_account (raw : pystr) : pystr :=
  replace (str " ") [] (lstrip_char 64 (strip raw)).

(** ** The query *)

Definition _quote_keyword (keyword : pystr) : pystr :=
  let cleaned := strip (replace [34%N] [] keyword) in
  if is_empty cleaned then []
  else [34%N] ++ cleaned ++ [34%N].

Definition _build_query (keywords : list pystr) : pystr :=
  let quoted :=
    map _quote_keyword
        (List.filter (fun k => negb (is_empty (strip k))) keywords) in
  let quoted := List.filter (fun q => negb (is_empty q)) quoted in
  if bool_decide (quoted = []) then []
  else
    let clause := join (str " OR ") quoted in
    str "(" ++ clause ++ str ") -is:retweet -is:reply".

Definition _start_time_iso `{Runtime} (now since_hours : Z) : result pystr :=
  start ← utc_minus_hours now since_hours;
  Ok (replace (str "+00:00") (str "Z")
        (isoformat (start - start mod 1000000))).

(** ** Keywords mode: items of the API payload *)

(** [f"{v}"] of an optional string: [None] prints as ["None"]. *)
Definition fmt (v : option pystr) : pystr :=
  match v with
  | Some s => s
  | None => str "None"
  end.

(** [{u.get("id"): u for u in users}]: a later user replaces an earlier
    one with the same id. *)
Definition users_by_id (users : list user) : gmap (option pystr) user :=
  foldl (fun m u => <[u_id u := u]> m) ∅ users.

(** [metrics.get(name, 0)]. *)
Definition count (c : option Z) : Z := default 0 c.

Definition engagement_of (m : metrics) : Z :=
  count (like_count m) + count (retweet_count m)
  + count (reply_count m) + count (quote_count m).

(** The body of the loop of [_build_items] for one tweet. *)
Definition build_item (users : gmap (option pystr) user) (tw : tweet) : item :=
  let metrics := default no_metrics (t_public_metrics tw) in
  let engagement := engagement_of metrics in
  let user := users !! t_author_id tw in
  let username := user ≫= u_username in
  let url :=
    if truthy username
    then str "https://x.com/" ++ fmt username ++ str "/status/" ++ fmt (t_id tw)
    else str "https://x.com/i/web/status/" ++ fmt (t_id tw) in
  {| i_id := t_id tw;
     i_text := t_text tw;
     i_author := py_or (py_or (user ≫= u_name) username) (Some (str "unknown"));
     i_username := username;
     i_url := Some url;
     i_created_at := t_created_at tw;
     i_metrics := metrics;
     i_engagement_score := engagement;
     i_source := None |}.

(** The items in payload order, before [items.sort]. *)
Definition built_items (p : payload) : list item :=
  map (build_item (users_by_id (p_users p))) (default [] (p_data p)).

(** The sort key [(i["engagement_score"], i.get("created_at") or "")]. *)
Definition keywords_key (i : item) : Z * pystr :=
  (i_engagement_score i, or_empty (i_created_at i)).

Definition _build_items (p : payload) : list item :=
  sort_desc keywords_key pair_ltb (built_items p).

(** ** Filters *)

Fixpoint filter_since_loop `{Runtime} (cutoff : Z) (items : list item)
  : result (list item) :=
  match items with
  | [] => Ok []
  | it :: rest =>
      let created_at := i_created_at it in
      if negb (truthy created_at) then filter_since_loop cutoff rest
      else
        match fromisoformat
                (replace (str "Z") (str "+00:00") (or_empty created_at)) with
        | None => filter_since_loop cutoff rest
        | Some created_dt =>
            keep ← dt_ge_aware created_dt cutoff;
            filtered ← filter_since_loop cutoff rest;
            Ok (if keep : bool then it :: filtered else filtered)
        end
  end.

Definition _filter_since `{Runtime} (now : Z) (items : list item)
  (since_hours : Z) : result (list item) :=
  cutoff ← utc_minus_hours now since_hours;
  filter_since_loop cutoff items.

(** The deduplication key [item.get("url") or item.get("id") or
    item.get("text")]. *)
Definition dedupe_key (it : item) : option pystr :=
  py_or (py_or (i_url it) (i_id it)) (i_text it).

(** One iteration of the loop of [_dedupe] on the state [(seen, deduped)]. *)
Definition dedupe_step (st : gset (option pystr) * list item) (it : item)
  : gset (option pystr) * list item :=
  let key := dedupe_key it in
  if negb (truthy key) || bool_decide (key ∈ st.1) then st
  else ({[key]} ∪ st.1, st.2 ++ [it]).

Definition _dedupe (items : list item) : list item :=
  (foldl dedupe_step (∅, []) items).2.

Definition _filter_excluded `{Runtime} (items : list item)
  (exclude_keywords : list pystr) : list item :=
  if bool_decide (exclude_keywords = []) then items
  else
    List.filter
      (fun it =>
         let text := lower (or_empty (i_text it)) in
         negb (existsb (fun k => contains k text) exclude_keywords))
      items.

(** ** Feeds mode: the source weight *)

Definition official_keywords : list pystr :=
  [str "openai"; str "anthropic"; str "deepmind"; str "google";
   str "microsoft"; str "cohere"; str "hugging face"].

Definition _source_weight `{Runtime} (it : item) : Z :=
  let source :=
    lower (or_empty (py_or (i_source it) (i_author it))) in
  if contains (str "karpathy") source then 3
  else if existsb (fun key => contains key source) official_keywords then 2
  else if contains (str "arxiv") source then 0
  else 1.

(** The sort keys of the accounts and feeds modes. *)
Definition accounts_key (i : item) : pystr :=
  or_empty (i_created_at i).

Definition feeds_key `{Runtime} (i : item) : Z * pystr :=
  (_source_weight i, or_empty (i_created_at i)).

(** ** One invocation *)

Inductive mode := Auto | Keywords | Accounts | Feeds.

(** The parsed command line (the file options are represented by the
    contents of the files, below). *)
Record args := {
  since_hours : Z;
  limit : Z;
  feed_timeout : Z;
  max_feeds : Z;
  arg_mode : mode
}.

(** What [_fetch_recent] does: a payload, or one of the exceptions [main]
    handles, or another exception. *)
Inductive api_outcome :=
  | ApiPayload (p : payload)
  | HTTPError (code : Z) (body : pystr)
  | URLError (reason : pystr)
  | TimeoutError
  | ApiRaise (e : exn).

(** The environment of one invocation: the command line, [X_BEARER_TOKEN],
    the four list files, the clock, and the network and XML layer
    ([_fetch_recent], [_fetch_url], [_parse_rss_items], [_parse_feed],
    [_resolve_youtube_feed]) as functions of their arguments. *)
Record world := {
  w_args : args;
  w_token : option pystr;
  w_keywords_file : option (list pystr);
  w_accounts_file : option (list pystr);
  w_feeds_file : option (list pystr);
  w_exclude_keywords_file : option (list pystr);
  w_now : Z;
  _fetch_recent : pystr -> pystr -> pystr -> Z -> api_outcome;
  _fetch_url : pystr -> Z -> result pystr;
  _parse_rss_items : pystr -> pystr -> result (list item);
  _parse_feed : pystr -> pystr -> result (list item);
  _resolve_youtube_feed : pystr -> Z -> result pystr
}.

(** The [details] entry of an error object. *)
Inductive details :=
  | NoDetails
  | DetailsBody (body : pystr)
  | DetailsErrors (errors : list pystr).

(** The success object; [b_errors] is printed when it is not empty,
    [b_notice] when it is set; [b_query], [b_start_time], [b_accounts] and
    [b_feeds] are the entries of the mode. *)
Record batch := {
  b_mode : pystr;
  b_query : option pystr;
  b_start_time : option pystr;
  b_accounts : option (list pystr);
  b_feeds : option (list pystr);
  b_limit : Z;
  b_fetched : nat;
  b_items : list item;
  b_errors : list (pystr * pystr);
  b_notice : option pystr
}.

(** The JSON object printed on standard output. *)
Inductive output :=
  | OutError (error : pystr) (d : details)
  | OutBatch (b : batch).

(** How the process ends: the exit code with what was printed, or an
    exception nothing catches. *)
Inductive outcome :=
  | Exit (code : Z) (out : output)
  | Uncaught (e : exn).

Definition NITTER_RSS (username : pystr) : pystr :=
  str "https://nitter.net/" ++ username ++ str "/rss".

Definition NITTER_RSS_FALLBACK (username : pystr) : pystr :=
  str "https://r.jina.ai/http://r.jina.ai/https://nitter.net/"
  ++ username ++ str "/rss".

Definition _fetch_account_feed (w : world) (username : pystr) (timeout : Z)
  : result (list item) :=
  match (body ← _fetch_url w (NITTER_RSS username) timeout;
         _parse_rss_items w body username) with
  | Ok items => Ok items
  | Raise _ =>
      body ← _fetch_url w (NITTER_RSS_FALLBACK username) timeout;
      _parse_rss_items w body username
  end.

Definition _fetch_feed (w : world) (f : feed) (timeout : Z)
  : result (list item * pystr) :=
  let label := if is_empty (f_label f) then f_url f else f_label f in
  let url := f_url f in
  url ← (if negb (is_empty url)
            && (startswith (str "youtube:") url || startswith (str "yt:") url
                || contains (str "youtube.com/@") url)
         then _resolve_youtube_feed w url timeout
         else Ok url);
  body ← _fetch_url w url timeout;
  items ← _parse_feed w body label;
  Ok (items, label).

Definition notice_for (limited : list item) : option pystr :=
  match limited with
  | [] => Some (str "No results returned for this time window.")
  | _ :: _ => None
  end.

(** [items[: max(args.limit, 0)]]. *)
Definition truncate (items : list item) (limit : Z) : list item :=
  slice_to items (Z.max limit 0).

Section Main.
Context `{Runtime}.

(** What the keywords branch does with the outcome of [_fetch_recent]. *)
Definition keywords_finish (w : world) (query start_time : pystr)
  (r : api_outcome) : outcome :=
  match r with
  | HTTPError code body =>
      Exit 3 (OutError
                (str "X API request failed with status "
                 ++ str_of_int code ++ str ".")
                (DetailsBody body))
  | URLError reason =>
      Exit 3 (OutError
                (str "Network error contacting X API: " ++ reason ++ str ".")
                NoDetails)
  | TimeoutError =>
      Exit 3 (OutError (str "Timed out contacting X API.") NoDetails)
  | ApiRaise e => Uncaught e
  | ApiPayload p =>
      if negb (bool_decide (p_errors p = []))
      then Exit 3 (OutError (str "X API returned errors.")
                            (DetailsErrors (p_errors p)))
      else
        let items := _build_items p in
        let limited := truncate items (limit (w_args w)) in
        Exit 0 (OutBatch
                  {| b_mode := str "keywords";
                     b_query := Some query;
                     b_start_time := Some start_time;
                     b_accounts := None;
                     b_feeds := None;
                     b_limit := limit (w_args w);
                     b_fetched := length items;
                     b_items := limited;
                     b_errors := [];
                     b_notice := notice_for limited |})
  end.

(** The keywords branch of [main] once the query is known to be
    non-empty: the start time, the number of candidates, the request. *)
Definition main_keywords (w : world) (token query : pystr) : outcome :=
  match _start_time_iso (w_now w) (since_hours (w_args w)) with
  | Raise e => Uncaught e
  | Ok start_time =>
      let max_results := Z.max 50 (limit (w_args w) * 5) in
      let max_results := Z.min 100 max_results in
      keywords_finish w query start_time
        (_fetch_recent w query start_time token max_results)
  end.

(** The loop of the accounts branch on the state [(items, errors)]. *)
Definition accounts_step (w : world) (st : list item * list (pystr * pystr))
  (handle : pystr) : list item * list (pystr * pystr) :=
  match _fetch_account_feed w handle (feed_timeout (w_args w)) with
  | Ok fetched => (st.1 ++ fetched, st.2)
  | Raise exc => (st.1, st.2 ++ [(handle, exn_str exc)])
  end.

(** The tail of the accounts branch, from the gathered items on. *)
Definition accounts_finish (w : world) (normalized : list pystr)
  (items : list item) (errors : list (pystr * pystr)) : outcome :=
  let exclude_keywords := _load_exclude_keywords (w_exclude_keywords_file w) in
  let items := _filter_excluded items exclude_keywords in
  match _filter_since (w_now w) items (since_hours (w_args w)) with
  | Raise e => Uncaught e
  | Ok items =>
      let items := _dedupe items in
      let items := sort_desc accounts_key str_ltb items in
      let limited := truncate items (limit (w_args w)) in
      Exit 0 (OutBatch
                {| b_mode := str "accounts";
                   b_query := None;
                   b_start_time := None;
                   b_accounts := Some normalized;
                   b_feeds := None;
                   b_limit := limit (w_args w);
                   b_fetched := length items;
                   b_items := limited;
                   b_errors := errors;
                   b_notice := notice_for limited |})
  end.

Definition main_accounts (w : world) : outcome :=
  let accounts := _load_accounts (w_accounts_file w) in
  if bool_decide (accounts = [])
  then Exit 2 (OutError
                 (str "Account list is empty. Add handles to references/accounts.txt.")
                 NoDetails)
  else
    let normalized := map _normalize_account accounts in
    let normalized := List.filter (fun a => negb (is_empty a)) normalized in
    if bool_decide (normalized = [])
    then Exit 2 (OutError (str "Account list contains no valid handles.")
                          NoDetails)
    else
      let st := foldl (accounts_step w) ([], []) normalized in
      accounts_finish w normalized st.1 st.2.

(** The state of the loop of the feeds branch. *)
Record feeds_state := {
  fs_items : list item;
  fs_errors : list (pystr * pystr);
  fs_used_labels : list pystr
}.

Definition feeds_step (w : world) (st : feeds_state) (f : feed) : feeds_state :=
  let url := f_url f in
  if is_empty url then st
  else
    match _fetch_feed w f (feed_timeout (w_args w)) with
    | Ok (feed_items, label) =>
        {| fs_items := fs_items st ++ feed_items;
           fs_errors := fs_errors st;
           fs_used_labels := fs_used_labels st ++ [label] |}
    | Raise exc =>
        {| fs_items := fs_items st;
           fs_errors := fs_errors st ++ [(url, exn_str exc)];
           fs_used_labels := fs_used_labels st |}
    end.

(** The tail of the feeds branch, from the gathered items on. *)
Definition feeds_finish (w : world) (st : feeds_state) : outcome :=
  let exclude_keywords := _load_exclude_keywords (w_exclude_keywords_file w) in
  let items := _filter_excluded (fs_items st) exclude_keywords in
  match _filter_since (w_now w) items (since_hours (w_args w)) with
  | Raise e => Uncaught e
  | Ok items =>
      let items := _dedupe items in
      let items := sort_desc feeds_key pair_ltb items in
      let limited := truncate items (limit (w_args w)) in
      Exit 0 (OutBatch
                {| b_mode := str "feeds";
                   b_query := None;
                   b_start_time := None;
                   b_accounts := None;
                   b_feeds := Some (fs_used_labels st);
                   b_limit := limit (w_args w);
                   b_fetched := length items;
                   b_items := limited;
                   b_errors := fs_errors st;
                   b_notice := notice_for limited |})
  end.

Definition main_feeds (w : world) : outcome :=
  let feeds := _load_feeds (w_feeds_file w) in
  if bool_decide (feeds = [])
  then Exit 2 (OutError
                 (str "Feed list is empty. Add RSS/Atom feeds to references/feeds.txt.")
                 NoDetails)
  else
    let feeds :=
      if negb (max_feeds (w_args w) =? 0) && (0 <? max_feeds (w_args w))
      then slice_to feeds (max_feeds (w_args w))
      else feeds in
    feeds_finish w
      (foldl (feeds_step w)
             {| fs_items := []; fs_errors := []; fs_used_labels := [] |}
             feeds).

(** [main]: the keywords branch when the mode is [auto] or [keywords] and
    the token is set, else the accounts branch for the accounts mode, else
    the feeds branch. *)
Definition main (w : world) : outcome :=
  let mode := arg_mode (w_args w) in
  if match mode with Auto | Keywords => true | _ => false end
     && truthy (w_token w)
  then
    let keywords := _load_keywords (w_keywords_file w) in
    let query := _build_query keywords in
    if is_empty query
    then Exit 2 (OutError
                   (str "Keyword list is empty. Add keywords to references/keywords.txt.")
                   NoDetails)
    else main_keywords w (or_empty (w_token w)) query
  else
    match mode with
    | Accounts => main_accounts w
    | _ => main_feeds w
    end.

End Main.

End Fetcher.

(* ===================================================================== *)
(** * scripts/publish_wechat_article.py: the digest *)
(* ===================================================================== *)

Module Publisher.
Import Py.

(** [html.unescape], provided by the interpreter. *)
Class Html := { unescape : pystr -> pystr }.

(** After a ["<"]: the length of the rest of a match of [<[^>]+>], when
    there is one; [n] counts the characters [[^>]+] has taken. *)
Fixpoint tag_end (s : pystr) (n : nat) : option nat :=
  match s with
  | [] => None
  | c :: rest =>
      if (c =? 62)%N
      then match n with O => None | S _ => Some (S n) end
      else tag_end rest (S n)
  end.

(** [re.sub(r"<[^>]+>", "", html)], scanning from the left; [skip] counts
    the characters of a match still to be passed over. *)
Fixpoint sub_tags (s : pystr) (skip : nat) : pystr :=
  match s with
  | [] => []
  | c :: rest =>
      match skip with
      | S k => sub_tags rest k
      | O =>
          if (c =? 60)%N
          then match tag_end rest O with
               | Some n => sub_tags rest n
               | None => c :: sub_tags rest O
               end
          else c :: sub_tags rest O
      end
  end.

Definition _strip_tags `{Html} (html : pystr) : pystr :=
  let text := sub_tags html O in
  strip (unescape text).

(** The ellipsis character U+2026. *)
Definition ellipsis : pystr := [8230%N].

Definition _build_digest `{Html} (html : pystr) (max_len : Z) : pystr :=
  let text := _strip_tags html in
  if Z.of_nat (length text) <=? max_len then text
  else slice_to text (max_len - 1) ++ ellipsis.

(** The [digest] entry [_draft_add] submits. *)
Definition draft_digest `{Html} (html : pystr) : pystr :=
  _build_digest html 80.

End Publisher.

(* ===================================================================== *)
(** * A runtime for the examples *)
(* ===================================================================== *)

(** The library functions on the inputs the examples use: [str.lower] on
    ASCII text, [datetime.fromisoformat] on [YYYY-MM-DDTHH:MM:SS] with an
    optional [+HH:MM] or [-HH:MM] offset, and [datetime.isoformat] of a UTC
    instant.  The theorems do not depend on them. *)
Module Sample.
Import Py Fetcher.

Definition lower_char (c : N) : N :=
  if ((65 <=? c) && (c <=? 90))%N then (c + 32)%N else c.

Definition ascii_lower (s : pystr) : pystr := map lower_char s.

(** The proleptic Gregorian calendar, as [datetime] counts it. *)
Definition is_leap (y : Z) : bool :=
  (y mod 4 =? 0) && (negb (y mod 100 =? 0) || (y mod 400 =? 0)).

Definition days_before_year (y : Z) : Z :=
  (y - 1) * 365 + (y - 1) / 4 - (y - 1) / 100 + (y - 1) / 400.

Definition days_in_month (y m : Z) : Z :=
  if m =? 2 then (if is_leap y then 29 else 28)
  else if (m =? 4) || (m =? 6) || (m =? 9) || (m =? 11) then 30
  else 31.

Definition days_before_month (y m : Z) : Z :=
  foldr (fun k acc => days_in_month y k + acc) 0
        (map Z.of_nat (seq 1 (Z.to_nat (m - 1)))).

(** Days from 0001-01-01 to the given date. *)
Definition days_of_date (y m d : Z) : Z :=
  days_before_year y + days_before_month y m + (d - 1).

(** The date of a day counted from 0001-01-01. *)
Definition date_of_days (days : Z) : Z * Z * Z :=
  let z := days + 306 in
  let era := z / 146097 in
  let doe := z - era * 146097 in
  let yoe := (doe - doe / 1460 + doe / 36524 - doe / 146096) / 365 in
  let doy := doe - (365 * yoe + yoe / 4 - yoe / 100) in
  let mp := (5 * doy + 2) / 153 in
  let d := doy - (153 * mp + 2) / 5 + 1 in
  let m := if mp <? 10 then mp + 3 else mp - 9 in
  let y := yoe + era * 400 + (if m <=? 2 then 1 else 0) in
  (y, m, d).

Definition digit (c : N) : option Z :=
  if ((48 <=? c) && (c <=? 57))%N then Some (Z.of_N c - 48) else None.

(** [n] decimal digits at the head of [s]: their value and the rest. *)
Fixpoint digits (n : nat) (acc : Z) (s : pystr) : option (Z * pystr) :=
  match n with
  | O => Some (acc, s)
  | S k =>
      match s with
      | [] => None
      | c :: rest =>
          match digit c with
          | Some v => digits k (acc * 10 + v) rest
          | None => None
          end
      end
  end.

(** A character that must come next. *)
Definition expect (c : N) (s : pystr) : option pystr :=
  match s with
  | x :: rest => if (x =? c)%N then Some rest else None
  | [] => None
  end.

(** The offset suffix: nothing (naive), or a sign and [HH:MM]. *)
Definition parse_offset (s : pystr) : option (option Z) :=
  match s with
  | [] => Some None
  | sign :: rest =>
      if (sign =? 43)%N || (sign =? 45)%N then
        '(hh, r1) ← digits 2 0 rest;
        r2 ← expect 58 r1;
        '(mm, r3) ← digits 2 0 r2;
        if is_empty r3 && (hh <? 24) && (mm <? 60)
        then Some (Some ((if (sign =? 43)%N then 1 else -1)
                         * (hh * 3600 + mm * 60) * 1000000))
        else None
      else None
  end.

Definition sample_fromisoformat (s : pystr) : option datetime :=
  '(y, r) ← digits 4 0 s;
  r ← expect 45 r;
  '(m, r) ← digits 2 0 r;
  r ← expect 45 r;
  '(d, r) ← digits 2 0 r;
  r ← expect 84 r;
  '(hh, r) ← digits 2 0 r;
  r ← expect 58 r;
  '(mi, r) ← digits 2 0 r;
  r ← expect 58 r;
  '(ss, r) ← digits 2 0 r;
  off ← parse_offset r;
  if (1 <=? y) && (1 <=? m) && (m <=? 12) && (1 <=? d)
     && (d <=? days_in_month y m) && (hh <? 24) && (mi <? 60) && (ss <? 60)
  then
    let wall :=
      (days_of_date y m d * 86400 + hh * 3600 + mi * 60 + ss) * 1000000 in
    Some match off with
         | Some o => {| dt_us := wall - o; dt_aware := true |}
         | None => {| dt_us := wall; dt_aware := false |}
         end
  else None.

(** An integer in decimal, padded with zeros to [width] digits. *)
Definition padded (width : nat) (n : Z) : pystr :=
  let ds := str_of_int n in
  replicate (width - length ds) 48%N ++ ds.

Definition sample_isoformat (us : Z) : pystr :=
  let secs := us / 1000000 in
  let frac := us mod 1000000 in
  let '(y, m, d) := date_of_days (secs / 86400) in
  let t := secs mod 86400 in
  padded 4 y ++ str "-" ++ padded 2 m ++ str "-" ++ padded 2 d ++ str "T"
  ++ padded 2 (t / 3600) ++ str ":" ++ padded 2 (t mod 3600 / 60) ++ str ":"
  ++ padded 2 (t mod 60)
  ++ (if frac =? 0 then [] else str "." ++ padded 6 frac)
  ++ str "+00:00".

#[export] Instance sample_runtime : Runtime := {|
  lower := ascii_lower;
  fromisoformat := sample_fromisoformat;
  isoformat := sample_isoformat
|}.

(** 2026-11-03T12:00:00 UTC. *)
Definition sample_now : Z :=
  (days_of_date 2026 11 3 * 86400 + 12 * 3600) * 1000000.

(** An item of a feed, as [_parse_rss_items] builds it. *)
Definition feed_item (source link title : pystr) (created_at : option pystr)
  : item :=
  {| i_id := Some (if is_empty link then title else link);
     i_text := Some title;
     i_author := Some source;
     i_username := None;
     i_url := Some link;
     i_created_at := created_at;
     i_metrics := no_metrics;
     i_engagement_score := 0;
     i_source := Some source |}.

(** A tweet with the given like count. *)
Definition sample_tweet (id text created_at : pystr) (likes : Z) : tweet :=
  {| t_id := Some id;
     t_text := Some text;
     t_author_id := Some (str "u1");
     t_created_at := Some created_at;
     t_public_metrics :=
       Some {| like_count := Some likes; retweet_count := Some 0;
               reply_count := Some 0; quote_count := Some 0 |} |}.

Definition sample_payload (tweets : list tweet) : payload :=
  {| p_data := Some tweets;
     p_users := [{| u_id := Some (str "u1");
                    u_username := Some (str "alice");
                    u_name := Some (str "Alice") |}];
     p_errors := [] |}.

(** An invocation whose network and XML layer answers every API request
    with [p] and every feed request with the items [fetched]. *)
Definition sample_world (m : mode) (lim : Z) (token : option pystr)
  (keywords : list pystr) (p : payload) (fetched : list item) : world :=
  {| w_args := {| since_hours := 24; limit := lim; feed_timeout := 8;
                  max_feeds := 0; arg_mode := m |};
     w_token := token;
     w_keywords_file := Some keywords;
     w_accounts_file := Some [str "@karpathy"];
     w_feeds_file := Some [str "Blog|https://example.org/feed.xml"];
     w_exclude_keywords_file := None;
     w_now := sample_now;
     _fetch_recent := fun _ _ _ _ => ApiPayload p;
     _fetch_url := fun _ _ => Ok (str "<rss/>");
     _parse_rss_items := fun _ _ => Ok fetched;
     _parse_feed := fun _ _ => Ok fetched;
     _resolve_youtube_feed := fun url _ => Ok url |}.

(** Three feed items inside the window: two with the same link, one
    without link, title or date. *)
Definition post_a : item :=
  feed_item (str "Blog") (str "https://example.org/a") (str "A")
            (Some (str "2026-11-03T10:00:00+00:00")).

Definition post_a_again : item :=
  feed_item (str "Mirror") (str "https://example.org/a") (str "A (mirror)")
            (Some (str "2026-11-03T11:00:00+00:00")).

Definition post_b : item :=
  feed_item (str "Blog") (str "https://example.org/b") (str "B")
            (Some (str "2026-11-03T09:00:00+00:00")).

Definition post_blank : item :=
  feed_item (str "Blog") [] [] (Some (str "2026-11-03T08:00:00+00:00")).

(** The same tweet twice in one payload. *)
Definition repeated_tweet : tweet :=
  sample_tweet (str "1") (str "hello") (str "2026-11-03T10:00:00.000Z") 3.

(** Three tweets: five likes, and twice ten likes an hour apart. *)
Definition tweet_low : tweet :=
  sample_tweet (str "11") (str "low") (str "2026-11-03T11:00:00.000Z") 5.

Definition tweet_high_old : tweet :=
  sample_tweet (str "12") (str "high") (str "2026-11-03T09:00:00.000Z") 10.

Definition tweet_high_new : tweet :=
  sample_tweet (str "13") (str "high again") (str "2026-11-03T10:00:00.000Z") 10.

Definition ranking_payload : payload :=
  sample_payload [tweet_low; tweet_high_old; tweet_high_new].

(** Two tweets of ten likes: the one stamped 10:00 at the offset +02:00
    was posted at 08:00 UTC, an hour before the one stamped 09:00 UTC. *)
Definition tweet_offset_older : tweet :=
  sample_tweet (str "21") (str "earlier") (str "2026-11-03T10:00:00+02:00") 10.

Definition tweet_utc_newer : tweet :=
  sample_tweet (str "22") (str "later") (str "2026-11-03T09:00:00+00:00") 10.

Definition offset_payload : payload :=
  sample_payload [tweet_utc_newer; tweet_offset_older].

(** The item [_build_items] makes of a tweet of [ranking_payload]. *)
Definition ranked (tw : tweet) : item :=
  build_item (users_by_id (p_users ranking_payload)) tw.

(** Feed items of one date from sources of the four tiers, and one whose
    label names both an organization and the preprint server. *)
Definition from_source (source : pystr) : item :=
  feed_item source (str "https://example.org/" ++ source) source
            (Some (str "2026-11-03T10:00:00+00:00")).

Definition post_karpathy : item := from_source (str "Andrej Karpathy").

Definition post_openai : item := from_source (str "OpenAI News").

Definition post_blog : item := from_source (str "Some Blog").

Definition post_arxiv : item := from_source (str "arXiv cs.CL").

Definition post_google_arxiv : item := from_source (str "Google on arXiv").

(** An item whose timestamp has no offset, one without a timestamp, one
    whose timestamp is no date, and one older than a day at
    [sample_now]. *)
Definition post_naive : item :=
  feed_item (str "Blog") (str "https://example.org/n") (str "N")
            (Some (str "2026-11-03T10:00:00")).

Definition post_undated : item :=
  feed_item (str "Blog") (str "https://example.org/u") (str "U") None.

Definition post_garbled : item :=
  feed_item (str "Blog") (str "https://example.org/g") (str "G")
            (Some (str "yesterday")).

Definition post_stale : item :=
  feed_item (str "Blog") (str "https://example.org/s") (str "S")
            (Some (str "2026-11-02T11:00:00Z")).

End Sample.

(* ===================================================================== *)
(** * Properties *)
(* ===================================================================== *)

Import Py.

(** [x] stands at an earlier position of [l] than [y]. *)
Definition before {A} (x y : A) (l : list A) : Prop :=
  exists l1 l2 l3, l = l1 ++ x :: l2 ++ y :: l3.

(** ** The order of strings and of [(int, str)] keys *)

Lemma str_ltb_asym (a b : pystr) : str_ltb a b = true -> str_ltb b a = false.
Proof.
  revert b. induction a as [| x a IH]; intros [| y b]; simpl; try done.
  intros Hlt. apply orb_true_iff in Hlt as [Hlt | Hlt].
  - apply N.ltb_lt in Hlt. apply orb_false_iff. split.
    + apply N.ltb_ge. lia.
    + apply andb_false_iff. left. apply N.eqb_neq. lia.
  - apply andb_true_iff in Hlt as [Heq Hlt]. apply N.eqb_eq in Heq. subst y.
    rewrite N.ltb_irrefl, N.eqb_refl. simpl. by apply IH.
Qed.

Lemma str_ltb_negtrans (a b c : pystr) :
  str_ltb a c = true -> str_ltb a b = true \/ str_ltb b c = true.
Proof.
  revert b c. induction a as [| x a IH]; intros b [| z c]; simpl; try done.
  - intros _. destruct b; simpl; auto.
  - intros Hlt. destruct b as [| y b]; simpl; [by right |].
    destruct (N.lt_trichotomy x y) as [Hxy | [Hxy | Hxy]].
    + left. apply orb_true_iff. left. by apply N.ltb_lt.
    + subst y. rewrite N.ltb_irrefl, N.eqb_refl in *. simpl in *.
      apply orb_true_iff in Hlt as [Hlt | Hlt].
      * right. by rewrite Hlt.
      * apply andb_true_iff in Hlt as [Heq Hlt]. rewrite Heq.
        destruct (IH b c Hlt) as [Hab | Hbc]; [by left |].
        right. rewrite Hbc. apply orb_true_r.
    + right. apply orb_true_iff. left. apply N.ltb_lt.
      apply orb_true_iff in Hlt as [Hlt | Hlt].
      * apply N.ltb_lt in Hlt. lia.
      * apply andb_true_iff in Hlt as [Heq _]. apply N.eqb_eq in Heq. lia.
Qed.

Lemma pair_ltb_asym (a b : Z * pystr) :
  pair_ltb a b = true -> pair_ltb b a = false.
Proof.
  unfold pair_ltb. destruct a as [m s], b as [n t]; simpl. intros Hlt.
  apply orb_true_iff in Hlt as [Hlt | Hlt].
  - apply Z.ltb_lt in Hlt. apply orb_false_iff. split.
    + apply Z.ltb_ge. lia.
    + apply andb_false_iff. left. apply Z.eqb_neq. lia.
  - apply andb_true_iff in Hlt as [Heq Hlt]. apply Z.eqb_eq in Heq. subst n.
    rewrite Z.ltb_irrefl, Z.eqb_refl. simpl. by apply str_ltb_asym.
Qed.

Lemma pair_ltb_negtrans (a b c : Z * pystr) :
  pair_ltb a c = true -> pair_ltb a b = true \/ pair_ltb b c = true.
Proof.
  unfold pair_ltb. destruct a as [m s], b as [n t], c as [o u]; simpl.
  intros Hlt.
  destruct (Z.lt_trichotomy m n) as [Hmn | [Hmn | Hmn]].
  - left. apply orb_true_iff. left. by apply Z.ltb_lt.
  - subst n. rewrite Z.ltb_irrefl, Z.eqb_refl. simpl.
    apply orb_true_iff in Hlt as [Hlt | Hlt].
    + right. by rewrite Hlt.
    + apply andb_true_iff in Hlt as [Heq Hlt]. rewrite Heq.
      destruct (str_ltb_negtrans s t u Hlt) as [Hst | Htu]; [by left |].
      right. rewrite Htu. apply orb_true_r.
  - right. apply orb_true_iff. left. apply Z.ltb_lt.
    apply orb_true_iff in Hlt as [Hlt | Hlt].
    + apply Z.ltb_lt in Hlt. lia.
    + apply andb_true_iff in Hlt as [Heq _]. apply Z.eqb_eq in Heq. lia.
Qed.

(** ** The stable descending sort *)

Section SortFacts.
Context {A K : Type} (key : A -> K) (ltb : K -> K -> bool).
Hypothesis ltb_asym : forall a b, ltb a b = true -> ltb b a = false.
Hypothesis ltb_negtrans :
  forall a b c, ltb a c = true -> ltb a b = true \/ ltb b c = true.

(** [x] may stand in front of [y]: its key is not smaller. *)
Definition not_below (x y : A) : Prop := ltb (key x) (key y) = false.

Lemma insert_desc_perm (x : A) (l : list A) :
  Permutation (insert_desc key ltb x l) (x :: l).
Proof.
  induction l as [| y l IH]; simpl; [done |].
  destruct (ltb (key x) (key y)); [| done].
  rewrite IH. apply perm_swap.
Qed.

Lemma sort_desc_perm (l : list A) : Permutation (sort_desc key ltb l) l.
Proof.
  induction l as [| x l IH]; simpl; [done |].
  unfold sort_desc in *. simpl. rewrite insert_desc_perm. by constructor.
Qed.

Lemma insert_desc_sorted (x : A) (l : list A) :
  StronglySorted not_below l ->
  StronglySorted not_below (insert_desc key ltb x l).
Proof.
  induction l as [| y l IH]; simpl; intros Hs.
  - repeat constructor.
  - apply StronglySorted_inv in Hs as [Hs Hall].
    destruct (ltb (key x) (key y)) eqn:Hxy.
    + constructor; [by apply IH |].
      rewrite insert_desc_perm. constructor; [| done].
      by apply ltb_asym.
    + constructor; [by constructor |].
      constructor; [done |].
      eapply Forall_impl; [exact Hall |]. intros z Hyz. unfold not_below in *.
      destruct (ltb (key x) (key z)) eqn:Hxz; [| done].
      destruct (ltb_negtrans _ (key y) _ Hxz); congruence.
Qed.

Lemma sort_desc_sorted (l : list A) :
  StronglySorted not_below (sort_desc key ltb l).
Proof.
  induction l as [| x l IH]; [constructor |].
  unfold sort_desc in *. simpl. by apply insert_desc_sorted.
Qed.

Lemma sorted_not_before (l : list A) (x y : A) :
  StronglySorted not_below l ->
  ltb (key y) (key x) = true -> ~ before y x l.
Proof.
  intros Hs Hlt (l1 & l2 & l3 & ->).
  apply StronglySorted_app_1_r, StronglySorted_inv in Hs as [_ Hall].
  rewrite Forall_forall in Hall.
  assert (Hyx : not_below y x) by (apply Hall; set_solver).
  unfold not_below in Hyx. congruence.
Qed.

Lemma sorted_before (l : list A) (x y : A) :
  StronglySorted not_below l -> x ∈ l -> y ∈ l ->
  ltb (key y) (key x) = true -> before x y l.
Proof.
  intros Hs Hx Hy Hlt.
  apply list_elem_of_split in Hx as (l1 & l2 & ->).
  apply elem_of_app in Hy as [Hy | Hy].
  - exfalso. apply (sorted_not_before _ x y Hs Hlt).
    apply list_elem_of_split in Hy as (a & b & ->).
    exists a, b, l2. by rewrite <- app_assoc.
  - apply elem_of_cons in Hy as [-> | Hy].
    + apply ltb_asym in Hlt as Hlt'. congruence.
    + apply list_elem_of_split in Hy as (a & b & ->). by exists l1, a, b.
Qed.

(** The entries whose key is neither below nor above [k]. *)
Definition same_key (k : K) (a : A) : bool :=
  negb (ltb (key a) k) && negb (ltb k (key a)).

Lemma insert_desc_stable (k : K) (x : A) (l : list A) :
  List.filter (same_key k) (insert_desc key ltb x l)
  = List.filter (same_key k) (x :: l).
Proof.
  induction l as [| y l IH]; [done |].
  cbn [insert_desc]. destruct (ltb (key x) (key y)) eqn:Hxy; [| done].
  cbn [List.filter] in *. rewrite IH.
  destruct (same_key k x) eqn:Hx, (same_key k y) eqn:Hy; try done.
  unfold same_key in Hx, Hy.
  apply andb_true_iff in Hx as [Hx _], Hy as [_ Hy].
  apply negb_true_iff in Hx, Hy.
  destruct (ltb_negtrans _ k _ Hxy); congruence.
Qed.

(** The sort is stable: entries with equal keys keep their order. *)
Lemma sort_desc_stable (k : K) (l : list A) :
  List.filter (same_key k) (sort_desc key ltb l) = List.filter (same_key k) l.
Proof.
  induction l as [| x l IH]; [done |].
  unfold sort_desc in *. cbn [foldr]. rewrite insert_desc_stable.
  cbn [List.filter]. by rewrite IH.
Qed.

(** In the sorted list an entry with a greater key stands before one with
    a smaller key, and never after it. *)
Lemma sort_desc_before (l : list A) (x y : A) :
  x ∈ l -> y ∈ l -> ltb (key y) (key x) = true ->
  before x y (sort_desc key ltb l) /\ ~ before y x (sort_desc key ltb l).
Proof.
  intros Hx Hy Hlt. split.
  - apply sorted_before; [apply sort_desc_sorted | | | done].
    + by rewrite sort_desc_perm.
    + by rewrite sort_desc_perm.
  - apply sorted_not_before; [apply sort_desc_sorted | done].
Qed.

End SortFacts.

(** ** Deduplication *)

Section Dedupe.
Import Fetcher.

(** The loop of [_dedupe] as a recursion on the items still to come: what
    it appends when it starts with the set [seen]. *)
Fixpoint dedupe_from (seen : gset (option pystr)) (items : list item)
  : list item :=
  match items with
  | [] => []
  | it :: rest =>
      if negb (truthy (dedupe_key it)) || bool_decide (dedupe_key it ∈ seen)
      then dedupe_from seen rest
      else it :: dedupe_from ({[dedupe_key it]} ∪ seen) rest
  end.

(** The set [seen] after the loop has run over [items]. *)
Definition seen_after (seen : gset (option pystr)) (items : list item)
  : gset (option pystr) :=
  (foldl dedupe_step (seen, []) items).1.

Lemma dedupe_foldl (items : list item) seen acc :
  foldl dedupe_step (seen, acc) items
  = (seen_after seen items, acc ++ dedupe_from seen items).
Proof.
  unfold seen_after. revert seen acc.
  induction items as [| it rest IH]; intros seen acc; simpl.
  - by rewrite app_nil_r.
  - unfold dedupe_step at 2 4. simpl.
    destruct (negb (truthy (dedupe_key it))
              || bool_decide (dedupe_key it ∈ seen)); simpl.
    + rewrite (IH seen acc), (IH seen []). done.
    + rewrite (IH _ (acc ++ [it])), (IH _ [it]). simpl.
      by rewrite <- app_assoc.
Qed.

Lemma dedupe_unfold (items : list item) : _dedupe items = dedupe_from ∅ items.
Proof. unfold _dedupe. by rewrite dedupe_foldl. Qed.

Lemma seen_after_cons (it : item) (rest : list item) seen :
  seen_after seen (it :: rest)
  = if negb (truthy (dedupe_key it)) || bool_decide (dedupe_key it ∈ seen)
    then seen_after seen rest
    else seen_after ({[dedupe_key it]} ∪ seen) rest.
Proof.
  unfold seen_after at 1. simpl. unfold dedupe_step at 2. simpl.
  destruct (negb (truthy (dedupe_key it))
            || bool_decide (dedupe_key it ∈ seen)); [done |].
  by rewrite dedupe_foldl.
Qed.

Lemma seen_after_spec (items : list item) seen k :
  k ∈ seen_after seen items
  <-> k ∈ seen
      \/ (truthy k = true /\ exists it, it ∈ items /\ dedupe_key it = k).
Proof.
  revert seen. induction items as [| it rest IH]; intros seen.
  - unfold seen_after. simpl. set_solver.
  - rewrite seen_after_cons.
    destruct (truthy (dedupe_key it)) eqn:Htr; simpl.
    + case_bool_decide as Hin; rewrite IH.
      * split; [set_solver |].
        intros [? | (? & e & [-> | ?]%elem_of_cons & ?)].
        -- by left.
        -- left. by subst k.
        -- right. eauto.
      * split.
        -- intros [[->%elem_of_singleton | ?]%elem_of_union | (? & e & ? & ?)].
           ++ right. split; [done |]. exists it. set_solver.
           ++ by left.
           ++ right. split; [done |]. exists e. set_solver.
        -- intros [? | (? & e & [-> | ?]%elem_of_cons & ?)].
           ++ left. set_solver.
           ++ left. set_solver.
           ++ right. eauto.
    + rewrite IH. split.
      * intros [? | (? & e & ? & ?)]; [by left |].
        right. split; [done |]. exists e. set_solver.
      * intros [? | (Hk & e & [-> | ?]%elem_of_cons & He)]; [by left | |].
        -- congruence.
        -- right. eauto.
Qed.

Lemma dedupe_from_elem (items : list item) seen it :
  it ∈ dedupe_from seen items ->
  it ∈ items /\ truthy (dedupe_key it) = true /\ dedupe_key it ∉ seen.
Proof.
  revert seen. induction items as [| x rest IH]; intros seen; simpl.
  - by intros ?%elem_of_nil.
  - destruct (truthy (dedupe_key x)) eqn:Htr; simpl.
    + case_bool_decide as Hin.
      * intros (? & ? & ?)%IH. set_solver.
      * intros [-> | (? & ? & ?)%IH]%elem_of_cons; set_solver.
    + intros (? & ? & ?)%IH. set_solver.
Qed.

Lemma dedupe_from_NoDup (items : list item) seen :
  NoDup (dedupe_key <$> dedupe_from seen items).
Proof.
  revert seen. induction items as [| x rest IH]; intros seen; simpl.
  - constructor.
  - destruct (negb (truthy (dedupe_key x))
              || bool_decide (dedupe_key x ∈ seen)); [apply IH |].
    rewrite fmap_cons. constructor; [| apply IH].
    intros (y & Hk & Hy)%list_elem_of_fmap.
    apply dedupe_from_elem in Hy as (_ & _ & Hy). set_solver.
Qed.

Lemma dedupe_from_sublist (items : list item) seen :
  dedupe_from seen items `sublist_of` items.
Proof.
  revert seen. induction items as [| x rest IH]; intros seen; simpl.
  - constructor.
  - destruct (negb (truthy (dedupe_key x))
              || bool_decide (dedupe_key x ∈ seen)).
    + by apply sublist_cons.
    + by apply sublist_skip.
Qed.

(** A list of distinct non-empty keys, none of them seen, is left as it
    is. *)
Lemma dedupe_from_fixed (items : list item) seen :
  NoDup (dedupe_key <$> items) ->
  (forall it, it ∈ items ->
              truthy (dedupe_key it) = true /\ dedupe_key it ∉ seen) ->
  dedupe_from seen items = items.
Proof.
  revert seen. induction items as [| x rest IH]; intros seen Hnd Hall; simpl.
  - done.
  - rewrite fmap_cons in Hnd. apply NoDup_cons in Hnd as [Hx Hnd].
    destruct (Hall x) as [Htr Hns]; [set_solver |].
    rewrite Htr. simpl. rewrite bool_decide_eq_false_2 by done.
    f_equal. apply IH; [done |]. intros it Hit.
    destruct (Hall it) as [Htr' Hns']; [set_solver |].
    split; [done |]. intros [Heq%elem_of_singleton | ?]%elem_of_union.
    + apply Hx. apply list_elem_of_fmap. eauto.
    + done.
Qed.

Lemma dedupe_from_app (l1 l2 : list item) seen :
  dedupe_from seen (l1 ++ l2)
  = dedupe_from seen l1 ++ dedupe_from (seen_after seen l1) l2.
Proof.
  pose proof (dedupe_foldl (l1 ++ l2) seen []) as Hall.
  rewrite foldl_app, (dedupe_foldl l1 seen []) in Hall. simpl in Hall.
  rewrite dedupe_foldl in Hall. by inversion Hall.
Qed.

(** An item has an empty key exactly when its [url], [id] and [text] are
    all missing or empty. *)
Lemma dedupe_key_empty (it : item) :
  truthy (dedupe_key it) = false
  <-> truthy (i_url it) = false /\ truthy (i_id it) = false
      /\ truthy (i_text it) = false.
Proof.
  unfold dedupe_key, py_or.
  destruct (i_url it) as [[| ? ?] |], (i_id it) as [[| ? ?] |],
    (i_text it) as [[| ? ?] |]; simpl; naive_solver.
Qed.

End Dedupe.

(** [items[: max(limit, 0)]] is the first [limit] items, none for a
    negative [limit]. *)
Lemma truncate_take (items : list Fetcher.item) (limit : Z) :
  Fetcher.truncate items limit = take (Z.to_nat limit) items.
Proof.
  unfold Fetcher.truncate, slice_to.
  destruct (Z.leb_spec 0 (Z.max limit 0)); [| lia].
  f_equal. lia.
Qed.

Section DedupeClaims.
Import Fetcher Sample.

(** C5. Deduplicating a deduplicated list changes nothing:
    [_dedupe (_dedupe xs) = _dedupe xs] for every list of items. *)
Theorem dedupe_idempotent (xs : list item) : _dedupe (_dedupe xs) = _dedupe xs.
Proof.
  rewrite !dedupe_unfold. apply dedupe_from_fixed.
  - apply dedupe_from_NoDup.
  - intros it (_ & Htr & _)%dedupe_from_elem. split; [done | set_solver].
Qed.

(** C10. Deduplication removes every item whose [url], [id] and [text] are
    all missing or empty, whether or not it repeats another item; the
    result is a sublist of the input (the order is kept), it holds the
    first occurrence of every non-empty key, at its place after what is
    kept of the items in front of it, and no key twice. *)
Theorem dedupe_first_occurrence (items : list item) :
  (forall it, truthy (i_url it) = false -> truthy (i_id it) = false ->
              truthy (i_text it) = false -> it ∉ _dedupe items)
  /\ (_dedupe items `sublist_of` items)
  /\ (forall l1 it l2,
        items = l1 ++ it :: l2 -> truthy (dedupe_key it) = true ->
        dedupe_key it ∉ dedupe_key <$> l1 ->
        exists kept, _dedupe items = _dedupe l1 ++ it :: kept)
  /\ NoDup (dedupe_key <$> _dedupe items).
Proof.
  rewrite dedupe_unfold. repeat split.
  - intros it Hu Hi Ht (_ & Htr & _)%dedupe_from_elem.
    assert (truthy (dedupe_key it) = false) by by apply dedupe_key_empty.
    congruence.
  - apply dedupe_from_sublist.
  - intros l1 it l2 -> Htr Hfirst. rewrite dedupe_unfold, dedupe_from_app.
    simpl. rewrite Htr. simpl. rewrite bool_decide_eq_false_2; [eauto |].
    rewrite seen_after_spec. intros [? | (_ & e & He & Hk)]; [set_solver |].
    apply Hfirst. apply list_elem_of_fmap. eauto.
  - apply dedupe_from_NoDup.
Qed.

Lemma dedupe_first_occurrence_witness :
  (post_blank ∉ _dedupe [post_a; post_blank; post_a_again; post_b])
  /\ exists kept,
       _dedupe [post_a; post_blank; post_a_again; post_b]
       = _dedupe [post_a; post_blank; post_a_again] ++ post_b :: kept.
Proof.
  destruct (dedupe_first_occurrence [post_a; post_blank; post_a_again; post_b])
    as (Hblank & _ & Hfirst & _).
  split.
  - apply Hblank; reflexivity.
  - apply (Hfirst [post_a; post_blank; post_a_again] post_b []).
    + reflexivity.
    + reflexivity.
    + apply (bool_decide_unpack _). vm_compute. exact I.
Defined.

(** Sorting and truncating keep the keys distinct. *)
Lemma ranked_keys_unique {K} (key : item -> K) (ltb : K -> K -> bool)
  (items : list item) (limit : Z) :
  NoDup (dedupe_key <$> items) ->
  NoDup (dedupe_key <$> truncate (sort_desc key ltb items) limit).
Proof.
  intros Hnd. rewrite truncate_take.
  apply (sublist_NoDup _ (dedupe_key <$> sort_desc key ltb items)).
  - by rewrite sort_desc_perm.
  - apply fmap_sublist, sublist_take.
Qed.

(** C1, as the code has it. In a batch of the accounts or the feeds mode
    no two items share a deduplication key ([url], else [id], else
    [text]).  The keywords branch does not deduplicate. *)
Theorem batch_keys_unique `{Runtime} (w : world) (code : Z) (b : batch) :
  main w = Exit code (OutBatch b) ->
  b_mode b <> str "keywords" ->
  NoDup (dedupe_key <$> b_items b).
Proof.
  unfold main. intros Hmain Hmode.
  destruct (_ && truthy (w_token w)).
  - destruct (is_empty _); [discriminate |].
    unfold main_keywords in Hmain.
    destruct (_start_time_iso _ _) as [start_time | e]; [| discriminate].
    unfold keywords_finish in Hmain.
    destruct (_fetch_recent _ _ _ _ _) as [p | | | |]; try discriminate.
    destruct (negb _); [discriminate |].
    injection Hmain as _ <-. by destruct Hmode.
  - assert (Haccounts : main_accounts w = Exit code (OutBatch b) ->
                        NoDup (dedupe_key <$> b_items b)).
    { unfold main_accounts, accounts_finish.
      repeat case_bool_decide; try discriminate.
      destruct (_filter_since _ _ _) as [items | e]; [| discriminate].
      intros [= _ <-]. simpl.
      apply ranked_keys_unique. rewrite dedupe_unfold.
      apply dedupe_from_NoDup. }
    assert (Hfeeds : main_feeds w = Exit code (OutBatch b) ->
                     NoDup (dedupe_key <$> b_items b)).
    { unfold main_feeds, feeds_finish.
      case_bool_decide; try discriminate.
      destruct (_filter_since _ _ _) as [items | e]; [| discriminate].
      intros [= _ <-]. simpl.
      apply ranked_keys_unique. rewrite dedupe_unfold.
      apply dedupe_from_NoDup. }
    destruct (arg_mode (w_args w)); auto.
Qed.

(** A feeds run over four fetched items, two of them with the same link. *)
Lemma batch_keys_unique_witness :
  exists b,
    main (sample_world Feeds 10 None [] (sample_payload [])
            [post_a; post_blank; post_a_again; post_b])
    = Exit 0 (OutBatch b)
    /\ b_mode b <> str "keywords"
    /\ length (b_items b) = 2%nat
    /\ NoDup (dedupe_key <$> b_items b).
Proof.
  eexists. split; [vm_compute; reflexivity |].
  split; [discriminate |]. split; [reflexivity |].
  eapply (batch_keys_unique
            (sample_world Feeds 10 None [] (sample_payload [])
               [post_a; post_blank; post_a_again; post_b]) 0).
  - vm_compute. reflexivity.
  - discriminate.
Defined.

(** C1 as stated fails in the keywords mode: when the API payload holds a
    tweet twice, both copies are in the batch, with the same key. *)
Lemma keywords_batch_repeats_key :
  exists b,
    main (sample_world Keywords 10 (Some (str "token")) [str "LLM"]
            (sample_payload [repeated_tweet; repeated_tweet]) [])
    = Exit 0 (OutBatch b)
    /\ b_mode b = str "keywords"
    /\ ~ NoDup (dedupe_key <$> b_items b).
Proof.
  eexists. split; [vm_compute; reflexivity |]. split; [reflexivity |].
  intros Hnd. apply NoDup_cons in Hnd as [Hnotin _].
  apply Hnotin. vm_compute. left.
Qed.

End DedupeClaims.

(** ** Ranking *)

Section Ranking.
Import Fetcher.
Context `{Runtime}.

(** The lower-cased source label [_source_weight] looks at. *)
Definition source_label (it : item) : pystr :=
  lower (or_empty (py_or (i_source it) (i_author it))).

(** The label names one of the official organizations. *)
Definition names_official (label : pystr) : bool :=
  existsb (fun key => contains key label) official_keywords.

(** C2, as the code has it. In the keywords mode, of two items built from
    the payload the one with the strictly higher engagement score stands
    earlier in the sorted list whatever the timestamps, and of two items
    with equal scores the one whose [created_at] is the greater as a
    string stands earlier; the batch holds the first [limit] items of the
    sorted list. *)
Theorem keywords_ranking (w : world) (query start_time : pystr) (p : payload) :
  p_errors p = [] ->
  (forall x y,
      x ∈ built_items p -> y ∈ built_items p ->
      i_engagement_score y < i_engagement_score x
      \/ (i_engagement_score x = i_engagement_score y
          /\ str_ltb (or_empty (i_created_at y)) (or_empty (i_created_at x))
             = true) ->
      before x y (_build_items p) /\ ~ before y x (_build_items p))
  /\ exists b,
      keywords_finish w query start_time (ApiPayload p) = Exit 0 (OutBatch b)
      /\ b_items b = take (Z.to_nat (limit (w_args w))) (_build_items p).
Proof.
  intros Herr. split.
  - intros x y Hx Hy Hkey. unfold _build_items.
    apply sort_desc_before; try done.
    + apply pair_ltb_asym.
    + apply pair_ltb_negtrans.
    + unfold pair_ltb, keywords_key. simpl.
      destruct Hkey as [Hlt | [-> Hlt]].
      * apply orb_true_iff. left. by apply Z.ltb_lt.
      * rewrite Hlt, Z.eqb_refl. apply orb_true_r.
  - unfold keywords_finish. rewrite Herr. simpl.
    eexists. split; [done |]. simpl. apply truncate_take.
Qed.

(** C3, as the code has it. The source weight is decided by the first rule
    that applies to the lower-cased source label: 3 when it contains
    "karpathy", else 2 when it contains an official-organization keyword,
    else 0 when it contains "arxiv", else 1.  The feeds mode sorts by
    [(source_weight, created_at)] descending: an item of greater weight
    stands before one of smaller weight, and of two items of equal weight
    the one with the greater [created_at] stands first; the batch holds
    the first [limit] items of the deduplicated items sorted this way. *)
Theorem feeds_ranking (items : list item) :
  (forall it,
      (contains (str "karpathy") (source_label it) = true ->
       _source_weight it = 3)
      /\ (contains (str "karpathy") (source_label it) = false ->
          names_official (source_label it) = true ->
          _source_weight it = 2)
      /\ (contains (str "karpathy") (source_label it) = false ->
          names_official (source_label it) = false ->
          contains (str "arxiv") (source_label it) = true ->
          _source_weight it = 0)
      /\ (contains (str "karpathy") (source_label it) = false ->
          names_official (source_label it) = false ->
          contains (str "arxiv") (source_label it) = false ->
          _source_weight it = 1))
  /\ (forall x y,
        x ∈ items -> y ∈ items ->
        _source_weight y < _source_weight x
        \/ (_source_weight x = _source_weight y
            /\ str_ltb (or_empty (i_created_at y)) (or_empty (i_created_at x))
               = true) ->
        before x y (sort_desc feeds_key pair_ltb items)
        /\ ~ before y x (sort_desc feeds_key pair_ltb items))
  /\ (forall w st kept,
        _filter_since (w_now w)
          (_filter_excluded (fs_items st)
             (_load_exclude_keywords (w_exclude_keywords_file w)))
          (since_hours (w_args w)) = Ok kept ->
        exists b,
          feeds_finish w st = Exit 0 (OutBatch b)
          /\ b_items b
             = take (Z.to_nat (limit (w_args w)))
                    (sort_desc feeds_key pair_ltb (_dedupe kept))).
Proof.
  split; [| split].
  - intros it. unfold _source_weight, source_label, names_official.
    repeat split; intros; repeat match goal with
                                 | Heq : _ = _ |- _ => rewrite Heq
                                 end; reflexivity.
  - intros x y Hx Hy Hkey.
    apply sort_desc_before; try done.
    + apply pair_ltb_asym.
    + apply pair_ltb_negtrans.
    + unfold pair_ltb, feeds_key. simpl.
      destruct Hkey as [Hlt | [-> Hlt]].
      * apply orb_true_iff. left. by apply Z.ltb_lt.
      * rewrite Hlt, Z.eqb_refl. apply orb_true_r.
  - intros w st kept Hkept. unfold feeds_finish. rewrite Hkept.
    eexists. split; [reflexivity |]. simpl. apply truncate_take.
Qed.

End Ranking.

Section RankingExamples.
Import Fetcher Sample.

Lemma keywords_ranking_witness :
  before (ranked tweet_high_old) (ranked tweet_low)
         (_build_items ranking_payload)
  /\ before (ranked tweet_high_new) (ranked tweet_high_old)
            (_build_items ranking_payload)
  /\ exists b,
      keywords_finish
        (sample_world Keywords 2 (Some (str "token")) [str "LLM"]
                      ranking_payload [])
        (str "q") (str "t") (ApiPayload ranking_payload)
      = Exit 0 (OutBatch b)
      /\ b_items b = take 2 (_build_items ranking_payload).
Proof.
  destruct (keywords_ranking
              (sample_world Keywords 2 (Some (str "token")) [str "LLM"]
                            ranking_payload [])
              (str "q") (str "t") ranking_payload eq_refl) as [Hrank Hbatch].
  split; [| split].
  - apply Hrank.
    + apply list_elem_of_In. simpl. auto.
    + apply list_elem_of_In. simpl. auto.
    + left. reflexivity.
  - apply Hrank.
    + apply list_elem_of_In. simpl. auto.
    + apply list_elem_of_In. simpl. auto.
    + right. split; reflexivity.
  - exact Hbatch.
Defined.

Lemma feeds_ranking_witness :
  _source_weight post_karpathy = 3 /\ _source_weight post_openai = 2
  /\ _source_weight post_blog = 1 /\ _source_weight post_arxiv = 0
  /\ before post_karpathy post_openai
        (sort_desc feeds_key pair_ltb
           [post_arxiv; post_blog; post_openai; post_karpathy])
  /\ before post_openai post_blog
        (sort_desc feeds_key pair_ltb
           [post_arxiv; post_blog; post_openai; post_karpathy])
  /\ before post_blog post_arxiv
        (sort_desc feeds_key pair_ltb
           [post_arxiv; post_blog; post_openai; post_karpathy]).
Proof.
  destruct (feeds_ranking [post_arxiv; post_blog; post_openai; post_karpathy])
    as (Hweight & Hrank & _).
  refine (conj _ (conj _ (conj _ (conj _ (conj _ (conj _ _)))))).
  - destruct (Hweight post_karpathy) as (Hw & _). apply Hw. reflexivity.
  - destruct (Hweight post_openai) as (_ & Hw & _). apply Hw; reflexivity.
  - destruct (Hweight post_blog) as (_ & _ & _ & Hw). apply Hw; reflexivity.
  - destruct (Hweight post_arxiv) as (_ & _ & Hw & _). apply Hw; reflexivity.
  - apply Hrank.
    + apply list_elem_of_In. simpl. auto.
    + apply list_elem_of_In. simpl. auto.
    + left. reflexivity.
  - apply Hrank.
    + apply list_elem_of_In. simpl. auto.
    + apply list_elem_of_In. simpl. auto.
    + left. reflexivity.
  - apply Hrank.
    + apply list_elem_of_In. simpl. auto.
    + apply list_elem_of_In. simpl. auto.
    + left. reflexivity.
Defined.

(** C3 as stated fails for a label that meets two rules: a source whose
    label contains "arxiv" and also names an official organization has
    weight 2, and sorts before an item no rule applies to, at equal
    [created_at]. *)
Lemma arxiv_label_outranks_unweighted :
  contains (str "arxiv") (source_label post_google_arxiv) = true
  /\ _source_weight post_google_arxiv = 2
  /\ contains (str "karpathy") (source_label post_blog) = false
  /\ names_official (source_label post_blog) = false
  /\ contains (str "arxiv") (source_label post_blog) = false
  /\ _source_weight post_blog = 1
  /\ i_created_at post_blog = i_created_at post_google_arxiv
  /\ sort_desc feeds_key pair_ltb [post_blog; post_google_arxiv]
     = [post_google_arxiv; post_blog].
Proof. repeat split; vm_compute; reflexivity. Qed.

End RankingExamples.

(** ** The time window *)

Section TimeWindow.
Import Fetcher.
Context `{Runtime}.

(** What [_filter_since] makes of the [created_at] of an item: [None] when
    it is missing, empty or rejected by [fromisoformat]. *)
Definition parsed_created_at (it : item) : option datetime :=
  if truthy (i_created_at it)
  then fromisoformat
         (replace (str "Z") (str "+00:00") (or_empty (i_created_at it)))
  else None.

(** The timestamp of the item parses and is at or after the cutoff. *)
Definition in_window (cutoff : Z) (it : item) : bool :=
  match parsed_created_at it with
  | Some dt => cutoff <=? dt_us dt
  | None => false
  end.

(** Every timestamp that parses carries an offset. *)
Definition all_aware (items : list item) : Prop :=
  Forall (fun it => forall dt, parsed_created_at it = Some dt ->
                               dt_aware dt = true) items.

Lemma filter_since_loop_aware (cutoff : Z) (items : list item) :
  all_aware items ->
  filter_since_loop cutoff items = Ok (List.filter (in_window cutoff) items).
Proof.
  unfold all_aware. induction 1 as [| it rest Hit Hrest IH]; simpl; [done |].
  unfold in_window, parsed_created_at in *.
  destruct (truthy (i_created_at it)); simpl; [| done].
  destruct (fromisoformat _) as [dt |]; [| done].
  unfold dt_ge_aware. rewrite (Hit dt eq_refl). simpl. rewrite IH. simpl.
  by destruct (cutoff <=? dt_us dt).
Qed.

(** C4, as the code has it. When the cutoff [now - since_hours] is a
    [datetime] and every [created_at] that parses carries an offset, the
    time-window filter returns the items, in their order, whose
    [created_at] parses to a timestamp at or after the cutoff: an item
    whose [created_at] is missing, empty or unparseable is excluded, and
    one with a parseable [created_at] is retained exactly when its
    timestamp is at or after the cutoff. *)
Theorem filter_since_window (now since_hours : Z) (items : list item) :
  let cutoff := now - since_hours * 3600000000 in
  0 <= cutoff < MAX_US ->
  all_aware items ->
  exists kept,
    _filter_since now items since_hours = Ok kept
    /\ kept = List.filter (in_window cutoff) items
    /\ (forall it, parsed_created_at it = None -> it ∉ kept)
    /\ (forall it dt, it ∈ items -> parsed_created_at it = Some dt ->
                      (it ∈ kept <-> cutoff <= dt_us dt)).
Proof.
  intros cutoff Hrange Haware. exists (List.filter (in_window cutoff) items).
  split; [| split; [done | split]].
  - unfold _filter_since, utc_minus_hours. fold cutoff.
    destruct (Z.leb_spec 0 cutoff); [| lia].
    destruct (Z.ltb_spec cutoff MAX_US); [| lia].
    simpl. by apply filter_since_loop_aware.
  - intros it Hnone [_ Hin]%list_elem_of_In%filter_In.
    unfold in_window in Hin. by rewrite Hnone in Hin.
  - intros it dt Hit Hdt. rewrite list_elem_of_In, filter_In.
    rewrite <- list_elem_of_In. unfold in_window. rewrite Hdt.
    rewrite Z.leb_le. tauto.
Qed.

End TimeWindow.

Section TimeWindowExamples.
Import Fetcher Sample.

Lemma filter_since_window_witness :
  exists kept,
    _filter_since sample_now
      [post_a; post_undated; post_garbled; post_stale; post_b] 24
    = Ok kept
    /\ kept = [post_a; post_b]
    /\ (post_undated ∉ kept) /\ (post_garbled ∉ kept)
    /\ (post_stale ∉ kept).
Proof.
  destruct (filter_since_window sample_now 24
              [post_a; post_undated; post_garbled; post_stale; post_b])
    as (kept & Hrun & Hkept & Hnone & Hsome).
  - vm_compute. split; [discriminate | reflexivity].
  - repeat constructor; intros dt [= <-]; reflexivity.
  - exists kept. split; [exact Hrun |]. split; [exact Hkept |].
    split; [| split].
    + apply Hnone. reflexivity.
    + apply Hnone. reflexivity.
    + intros Hin.
      apply (Hsome post_stale
               {| dt_us := 63929214000000000; dt_aware := true |}) in Hin.
      * vm_compute in Hin. by apply Hin.
      * apply list_elem_of_In. simpl. auto 6.
      * reflexivity.
Defined.

(** C4 as stated fails on a timestamp without offset, which parses but
    cannot be compared with the cutoff, and on a window that reaches
    before year 1: the filter raises and returns no list. *)
Lemma filter_since_raises :
  parsed_created_at post_naive
  = Some {| dt_us := 63929296800000000; dt_aware := false |}
  /\ sample_now - 24 * 3600000000 <= 63929296800000000
  /\ _filter_since sample_now [post_naive] 24
     = Raise (Exn TypeError
                (str "can't compare offset-naive and offset-aware datetimes"))
  /\ _filter_since sample_now [post_undated] 100000000
     = Raise (Exn OverflowError (str "date value out of range")).
Proof.
  refine (conj _ (conj _ (conj _ _))); vm_compute;
    reflexivity || discriminate.
Qed.

(** C2 as stated fails when timestamps carry different offsets: of two
    tweets with the same engagement score the older one, whose
    [created_at] is the greater string, stands first. *)
Lemma older_stamp_outranks_newer :
  i_engagement_score (ranked tweet_offset_older)
  = i_engagement_score (ranked tweet_utc_newer)
  /\ (exists older newer,
        parsed_created_at (ranked tweet_offset_older) = Some older
        /\ parsed_created_at (ranked tweet_utc_newer) = Some newer
        /\ dt_aware older = true /\ dt_aware newer = true
        /\ dt_us older + 3600000000 = dt_us newer)
  /\ _build_items offset_payload
     = [ranked tweet_offset_older; ranked tweet_utc_newer]
  /\ exists b,
       main (sample_world Keywords 1 (Some (str "token")) [str "LLM"]
               offset_payload [])
       = Exit 0 (OutBatch b)
       /\ b_items b = [ranked tweet_offset_older].
Proof.
  split; [reflexivity |]. split.
  - eexists _, _. split; [vm_compute; reflexivity |].
    split; [vm_compute; reflexivity |]. split; [reflexivity |].
    split; reflexivity.
  - split; [vm_compute; reflexivity |].
    eexists. split; vm_compute; reflexivity.
Qed.

End TimeWindowExamples.

(** ** The control flow of [main] *)

Section MainFlow.
Import Fetcher.
Context `{Runtime}.

(** The keywords branch runs: the mode is [auto] or [keywords] and the
    token is set. *)
Definition keywords_branch (w : world) : Prop :=
  (arg_mode (w_args w) = Auto \/ arg_mode (w_args w) = Keywords)
  /\ truthy (w_token w) = true.

Lemma keywords_branch_main (w : world) :
  keywords_branch w ->
  main w
  = let query := _build_query (_load_keywords (w_keywords_file w)) in
    if is_empty query
    then Exit 2 (OutError
                   (str "Keyword list is empty. Add keywords to references/keywords.txt.")
                   NoDetails)
    else main_keywords w (or_empty (w_token w)) query.
Proof.
  intros [Hmode Htoken]. unfold main. rewrite Htoken.
  by destruct Hmode as [-> | ->].
Qed.

(** No keyword that quotes to a non-empty string: no query. *)
Lemma build_query_empty (keywords : list pystr) :
  (forall k, k ∈ keywords -> _quote_keyword k = []) ->
  _build_query keywords = [].
Proof.
  intros Hall. unfold _build_query.
  assert (Hnone : List.filter (fun q => negb (is_empty q))
                    (map _quote_keyword
                       (List.filter (fun k => negb (is_empty (strip k)))
                                    keywords)) = []).
  { induction keywords as [| k rest IH]; simpl; [done |].
    assert (Hrest : forall k', k' ∈ rest -> _quote_keyword k' = [])
      by (intros; apply Hall; set_solver).
    destruct (negb (is_empty (strip k))); simpl; [| by apply IH].
    rewrite (Hall k) by set_solver. simpl. by apply IH. }
  rewrite Hnone. done.
Qed.

(** C6. With the token set and the mode [keywords] or [auto], a keywords
    file that is empty, or none of whose entries quotes to a non-empty
    keyword, makes the tool exit with code 2 and print an error object
    that mentions the empty keyword list; no batch is printed. *)
Theorem empty_keyword_list_exit (w : world) :
  keywords_branch w ->
  (forall k, k ∈ _load_keywords (w_keywords_file w) -> _quote_keyword k = []) ->
  exists error,
    main w = Exit 2 (OutError error NoDetails)
    /\ contains (str "Keyword list is empty") error = true.
Proof.
  intros Hbranch Hnone. rewrite keywords_branch_main by done.
  rewrite build_query_empty by done. simpl.
  eexists. split; [reflexivity |]. vm_compute. reflexivity.
Qed.

(** C7. In the keywords mode the API is asked for
    [min(100, max(50, limit*5))] candidates, whatever the integer [limit];
    the number is between 50 and 100. *)
Theorem candidates_requested (w : world) (start_time : pystr) :
  let query := _build_query (_load_keywords (w_keywords_file w)) in
  let n := Z.min 100 (Z.max 50 (limit (w_args w) * 5)) in
  keywords_branch w ->
  is_empty query = false ->
  _start_time_iso (w_now w) (since_hours (w_args w)) = Ok start_time ->
  main w
  = keywords_finish w query start_time
      (_fetch_recent w query start_time (or_empty (w_token w)) n)
  /\ 50 <= n <= 100.
Proof.
  intros query n Hbranch Hquery Hstart. split; [| lia].
  rewrite keywords_branch_main by done. simpl. fold query.
  rewrite Hquery. unfold main_keywords. by rewrite Hstart.
Qed.

(** C9. With a negative [--limit] the slice bound is [max(limit, 0) = 0]:
    truncation yields the empty list instead of raising or of counting
    from the end.  In each of the three branches, once the items are
    gathered, the batch is printed with an empty items list; and every
    batch [main] prints, in whichever mode, has no items (and carries the
    notice). *)
Theorem negative_limit_empty_batch (w : world) :
  limit (w_args w) < 0 ->
  (forall items, truncate items (limit (w_args w)) = [])
  /\ (forall query start_time p,
        p_errors p = [] ->
        exists b,
          keywords_finish w query start_time (ApiPayload p)
          = Exit 0 (OutBatch b)
          /\ b_items b = [])
  /\ (forall normalized items errors kept,
        _filter_since (w_now w)
          (_filter_excluded items
             (_load_exclude_keywords (w_exclude_keywords_file w)))
          (since_hours (w_args w)) = Ok kept ->
        exists b,
          accounts_finish w normalized items errors = Exit 0 (OutBatch b)
          /\ b_items b = [])
  /\ (forall st kept,
        _filter_since (w_now w)
          (_filter_excluded (fs_items st)
             (_load_exclude_keywords (w_exclude_keywords_file w)))
          (since_hours (w_args w)) = Ok kept ->
        exists b,
          feeds_finish w st = Exit 0 (OutBatch b) /\ b_items b = [])
  /\ (forall code b,
        main w = Exit code (OutBatch b) ->
        code = 0 /\ b_items b = [] /\ b_notice b = notice_for []).
Proof.
  intros Hneg.
  assert (Htrunc : forall items, truncate items (limit (w_args w)) = []).
  { intros items. rewrite truncate_take.
    replace (Z.to_nat (limit (w_args w))) with 0%nat by lia. done. }
  split; [done |]. split; [| split; [| split]].
  - intros query start_time p Herr. unfold keywords_finish. rewrite Herr.
    simpl. eexists. split; [reflexivity |]. simpl. apply Htrunc.
  - intros normalized items errors kept Hkept. unfold accounts_finish.
    rewrite Hkept. eexists. split; [reflexivity |]. simpl. apply Htrunc.
  - intros st kept Hkept. unfold feeds_finish.
    rewrite Hkept. eexists. split; [reflexivity |]. simpl. apply Htrunc.
  - intros code b. unfold main.
    destruct (_ && truthy (w_token w)).
    + destruct (is_empty _); [discriminate |].
      unfold main_keywords.
      destruct (_start_time_iso _ _) as [start_time | e]; [| discriminate].
      unfold keywords_finish.
      destruct (_fetch_recent _ _ _ _ _) as [p | | | |]; try discriminate.
      destruct (negb _); [discriminate |].
      intros [= <- <-]. simpl. by rewrite Htrunc.
    + assert (Haccounts : main_accounts w = Exit code (OutBatch b) ->
                          code = 0 /\ b_items b = []
                          /\ b_notice b = notice_for []).
      { unfold main_accounts, accounts_finish.
        repeat case_bool_decide; try discriminate.
        destruct (_filter_since _ _ _) as [items | e]; [| discriminate].
        intros [= <- <-]. simpl. by rewrite Htrunc. }
      assert (Hfeeds : main_feeds w = Exit code (OutBatch b) ->
                       code = 0 /\ b_items b = []
                       /\ b_notice b = notice_for []).
      { unfold main_feeds, feeds_finish.
        case_bool_decide; try discriminate.
        destruct (_filter_since _ _ _) as [items | e]; [| discriminate].
        intros [= <- <-]. simpl. by rewrite Htrunc. }
      destruct (arg_mode (w_args w)); auto.
Qed.

End MainFlow.

Section MainFlowExamples.
Import Fetcher Sample.

(** A keywords file with a comment, a blank line and a pair of quotes. *)
Definition unusable_keywords : list pystr :=
  [str "# keywords" ++ [10%N]; str "   " ++ [10%N]; [34%N; 34%N; 10%N]].

Lemma empty_keyword_list_exit_witness :
  exists error,
    main (sample_world Keywords 10 (Some (str "token")) unusable_keywords
            (sample_payload [tweet_low]) [])
    = Exit 2 (OutError error NoDetails)
    /\ contains (str "Keyword list is empty") error = true.
Proof.
  apply (empty_keyword_list_exit
           (sample_world Keywords 10 (Some (str "token")) unusable_keywords
              (sample_payload [tweet_low]) [])).
  - split; [right |]; reflexivity.
  - intros k Hk. apply list_elem_of_In in Hk. simpl in Hk.
    destruct Hk as [<- | []]. reflexivity.
Defined.

Lemma candidates_requested_witness :
  main (sample_world Keywords 12 (Some (str "token")) [str "LLM"]
          ranking_payload [])
  = keywords_finish
      (sample_world Keywords 12 (Some (str "token")) [str "LLM"]
         ranking_payload [])
      ([40%N; 34%N] ++ str "LLM" ++ [34%N] ++ str ") -is:retweet -is:reply")
      (str "2026-11-02T12:00:00Z")
      (ApiPayload ranking_payload)
  /\ 50 <= Z.min 100 (Z.max 50 (12 * 5)) <= 100.
Proof.
  apply (candidates_requested
           (sample_world Keywords 12 (Some (str "token")) [str "LLM"]
              ranking_payload [])
           (str "2026-11-02T12:00:00Z")).
  - split; [right |]; reflexivity.
  - reflexivity.
  - vm_compute. reflexivity.
Defined.

Lemma negative_limit_empty_batch_witness :
  (exists b,
      main (sample_world Keywords (-1) (Some (str "token")) [str "LLM"]
              ranking_payload [])
      = Exit 0 (OutBatch b)
      /\ b_fetched b = 3%nat /\ b_items b = [])
  /\ (exists b,
        main (sample_world Accounts (-1) None [] ranking_payload
                [post_a; post_b])
        = Exit 0 (OutBatch b)
        /\ b_fetched b = 2%nat /\ b_items b = [])
  /\ (exists b,
        main (sample_world Feeds (-3) None [] ranking_payload
                [post_a; post_b])
        = Exit 0 (OutBatch b)
        /\ b_fetched b = 2%nat /\ b_items b = []).
Proof.
  refine (conj _ (conj _ _)).
  - eexists. split; [vm_compute; reflexivity |]. split; [reflexivity |].
    destruct (negative_limit_empty_batch
                (sample_world Keywords (-1) (Some (str "token")) [str "LLM"]
                   ranking_payload []) eq_refl) as (_ & _ & _ & _ & Hmain).
    eapply Hmain. vm_compute. reflexivity.
  - eexists. split; [vm_compute; reflexivity |]. split; [reflexivity |].
    destruct (negative_limit_empty_batch
                (sample_world Accounts (-1) None [] ranking_payload
                   [post_a; post_b]) eq_refl) as (_ & _ & _ & _ & Hmain).
    eapply Hmain. vm_compute. reflexivity.
  - eexists. split; [vm_compute; reflexivity |]. split; [reflexivity |].
    destruct (negative_limit_empty_batch
                (sample_world Feeds (-3) None [] ranking_payload
                   [post_a; post_b]) eq_refl) as (_ & _ & _ & _ & Hmain).
    eapply Hmain. vm_compute. reflexivity.
Defined.

End MainFlowExamples.

(** ** Worked examples *)

Section Examples.
Import Fetcher Sample Publisher.

(** [html.unescape] on text without ["&"], which it returns unchanged. *)
Definition sample_html : Html := {| unescape := fun s => s |}.

Example overflow_message_example :
  overflow_message 100000000 = str "date value out of range"
  /\ overflow_message 24000000000
     = str "days=1000000000; must have magnitude <= 999999999"
  /\ overflow_message (-51539607553)
     = str "Python int too large to convert to C int".
Proof. repeat split; vm_compute; reflexivity. Qed.

Example load_feeds_example :
  _load_feeds (Some [str "A|http://x"; str "http://y"])
  = [{| f_label := str "A"; f_url := str "http://x" |};
     {| f_label := []; f_url := str "http://y" |}].
Proof. reflexivity. Qed.

Example build_query_example :
  _build_query [str "LLM"; str "  "; [34%N] ++ str "ai agents" ++ [34%N]]
  = str "(" ++ [34%N] ++ str "LLM" ++ [34%N] ++ str " OR "
    ++ [34%N] ++ str "ai agents" ++ [34%N] ++ str ") -is:retweet -is:reply".
Proof. reflexivity. Qed.

Example normalize_account_example :
  _normalize_account (str " @@kar pathy ") = str "karpathy".
Proof. reflexivity. Qed.

Example start_time_example :
  _start_time_iso (sample_now + 123456) 24 = Ok (str "2026-11-02T12:00:00Z").
Proof. vm_compute. reflexivity. Qed.

(** With [--since-hours 24], an item of 23 hours ago stays and one of 25
    hours ago goes. *)
Example filter_since_example :
  let recent := feed_item (str "Blog") (str "https://example.org/r") (str "R")
                          (Some (str "2026-11-02T13:00:00+00:00")) in
  let old := feed_item (str "Blog") (str "https://example.org/o") (str "O")
                       (Some (str "2026-11-02T11:00:00+00:00")) in
  _filter_since sample_now [old; recent] 24 = Ok [recent].
Proof. vm_compute. reflexivity. Qed.

(** The accounts mode orders by the [created_at] string, a missing one
    last; entries with equal keys keep their order. *)
Example sort_example :
  sort_desc accounts_key str_ltb [post_b; post_undated; post_a; post_garbled]
  = [post_garbled; post_a; post_b; post_undated]
  /\ sort_desc feeds_key pair_ltb [post_blog; post_a; post_b]
     = [post_blog; post_a; post_b].
Proof. split; vm_compute; reflexivity. Qed.

Example strip_tags_example :
  @_strip_tags sample_html (str " <p>Hello <b>world</b></p> <> ")
  = str "Hello world <>".
Proof. reflexivity. Qed.

Example build_digest_example :
  @_build_digest sample_html (str "<h1>AI daily</h1> twelve") 10
  = str "AI daily " ++ ellipsis
  /\ @_build_digest sample_html (str "<h1>AI daily</h1>") 10 = str "AI daily".
Proof. split; reflexivity. Qed.

End Examples.

(* ===================================================================== *)
(** * Further properties of the trend fetcher *)
(* ===================================================================== *)

(** ** Strings *)

Section StringFacts.

Lemma drop_while_split (p : N -> bool) (s : pystr) :
  exists pre, s = pre ++ drop_while p s /\ Forall (fun c => p c = true) pre.
Proof.
  induction s as [| c s (pre & Hs & Hpre)]; simpl.
  - by exists [].
  - destruct (p c) eqn:Hc.
    + exists (c :: pre). split; [simpl; congruence | by constructor].
    + by exists [].
Qed.

Lemma drop_while_head (p : N -> bool) (s : pystr) c t :
  drop_while p s = c :: t -> p c = false.
Proof.
  induction s as [| x s IH]; simpl; [done |].
  destruct (p x) eqn:Hx; [done |]. by intros [= <- _].
Qed.

Lemma drop_while_fixed (p : N -> bool) (s : pystr) :
  match s with [] => True | c :: _ => p c = false end ->
  drop_while p s = s.
Proof. destruct s as [| c s]; simpl; [done |]. by intros ->. Qed.

Lemma drop_while_idem (p : N -> bool) (s : pystr) :
  drop_while p (drop_while p s) = drop_while p s.
Proof.
  apply drop_while_fixed. destruct (drop_while p s) eqn:Hd; [done |].
  by eapply drop_while_head.
Qed.

Lemma drop_while_all (p : N -> bool) (s : pystr) :
  drop_while p s = [] <-> Forall (fun c => p c = true) s.
Proof.
  induction s as [| c s IH]; simpl; [by split |].
  destruct (p c) eqn:Hc.
  - rewrite IH. split; [by constructor | by inversion 1].
  - split; [done |]. inversion 1. congruence.
Qed.

Lemma drop_while_sublist (p : N -> bool) (s : pystr) :
  drop_while p s `sublist_of` s.
Proof.
  induction s as [| c s IH]; simpl; [done |].
  destruct (p c); [by apply sublist_cons | done].
Qed.

(** [strip] yields the empty string exactly on strings of white space. *)
Lemma strip_empty (s : pystr) :
  strip s = [] <-> Forall (fun c => isspace c = true) s.
Proof.
  unfold strip, rstrip, lstrip.
  destruct (drop_while_split isspace s) as (pre & Hs & Hpre).
  split.
  - intros Hnil. apply (f_equal (@rev N)) in Hnil. rewrite rev_involutive in Hnil.
    simpl in Hnil. apply drop_while_all in Hnil.
    rewrite Hs. apply Forall_app. split; [done |].
    apply Forall_rev in Hnil. by rewrite rev_involutive in Hnil.
  - intros Hall. apply drop_while_all in Hall. rewrite Hall. done.
Qed.

Lemma strip_sublist (s : pystr) : strip s `sublist_of` s.
Proof.
  unfold strip, rstrip, lstrip.
  transitivity (drop_while isspace s); [| apply drop_while_sublist].
  destruct (drop_while_split isspace (rev (drop_while isspace s)))
    as (pre & Ha & _).
  apply (f_equal (@rev N)) in Ha. rewrite rev_involutive, rev_app_distr in Ha.
  rewrite Ha at 2. by apply sublist_inserts_r.
Qed.

(** A stripped string neither begins nor ends with white space. *)
Lemma strip_ends (s : pystr) :
  match strip s with [] => True | c :: _ => isspace c = false end
  /\ match rev (strip s) with [] => True | c :: _ => isspace c = false end.
Proof.
  unfold strip, rstrip, lstrip. rewrite rev_involutive.
  set (a := drop_while isspace s).
  destruct (drop_while_split isspace (rev a)) as (pre & Ha & Hpre).
  set (b := drop_while isspace (rev a)) in *.
  split.
  - assert (Hrev : a = rev b ++ rev pre).
    { rewrite <- rev_app_distr, <- Ha. by rewrite rev_involutive. }
    destruct (rev b) as [| c t] eqn:Hb; [done |].
    apply (drop_while_head isspace s c (t ++ rev pre)). exact Hrev.
  - destruct b as [| c t] eqn:Hb; [done |].
    by apply (drop_while_head isspace (rev a) c t).
Qed.

Lemma strip_idem (s : pystr) : strip (strip s) = strip s.
Proof.
  destruct (strip_ends s) as [Hhead Hlast].
  unfold strip at 1. unfold rstrip, lstrip.
  rewrite (drop_while_fixed isspace (strip s)) by done.
  rewrite (drop_while_fixed isspace (rev (strip s))) by done.
  apply rev_involutive.
Qed.

(** Replacing a character by nothing removes every occurrence of it. *)
Lemma replace_char_none (c : N) (s : pystr) :
  replace [c] [] s = List.filter (fun x => negb (c =? x)%N) s.
Proof.
  unfold replace. induction s as [| x s IH]; simpl; [done |].
  rewrite andb_true_r. destruct (c =? x)%N; simpl; by rewrite IH.
Qed.

End StringFacts.

(** ** Configuration lists and the query *)

Section ConfigFacts.
Import Fetcher.

Lemma load_lines_cons (line : pystr) (rest : list pystr) :
  load_lines (line :: rest)
  = if is_empty (strip line) || startswith (str "#") (strip line)
    then load_lines rest
    else strip line :: load_lines rest.
Proof. reflexivity. Qed.

Lemma load_lines_elem (lines : list pystr) (k : pystr) :
  k ∈ load_lines lines
  <-> exists line, line ∈ lines /\ k = strip line /\ k <> []
                   /\ startswith (str "#") k = false.
Proof.
  induction lines as [| line rest IH].
  - split; [by intros ?%elem_of_nil | by intros (? & ?%elem_of_nil & _)].
  - rewrite load_lines_cons.
    destruct (is_empty (strip line) || startswith (str "#") (strip line))
      eqn:Hskip.
    + rewrite IH. split.
      * intros (l & Hl & Hk). exists l. split; [by right | done].
      * intros (l & [-> | Hl]%elem_of_cons & -> & Hne & Hhash).
        -- apply orb_true_iff in Hskip as [Hskip | Hskip]; [| congruence].
           by destruct (strip line).
        -- exists l. done.
    + apply orb_false_iff in Hskip as [Hne Hhash].
      rewrite elem_of_cons, IH. split.
      * intros [-> | (l & Hl & Hk)].
        -- exists line. split; [by left |]. split; [done |].
           split; [by destruct (strip line) | done].
        -- exists l. split; [by right | done].
      * intros (l & [-> | Hl]%elem_of_cons & Hk).
        -- left. by destruct Hk.
        -- right. by exists l.
Qed.

(** X1. The keyword and account lists hold the stripped lines of the file that
    are neither blank nor comments, and nothing else; a missing file gives
    the empty list.  Every entry is free of surrounding white space. *)
Theorem loaded_entries (file : option (list pystr)) (k : pystr) :
  _load_accounts file = _load_keywords file
  /\ (k ∈ _load_keywords file
      <-> exists lines line,
            file = Some lines /\ line ∈ lines /\ k = strip line /\ k <> []
            /\ startswith (str "#") k = false)
  /\ (k ∈ _load_keywords file -> strip k = k).
Proof.
  assert (Hiff : k ∈ _load_keywords file
                 <-> exists lines line,
                       file = Some lines /\ line ∈ lines /\ k = strip line
                       /\ k <> [] /\ startswith (str "#") k = false).
  { destruct file as [lines |]; simpl.
    - rewrite load_lines_elem. split.
      + intros (line & ?). by exists lines, line.
      + intros (? & line & [= <-] & ?). by exists line.
    - split; [by intros ?%elem_of_nil | by intros (? & ? & ? & _)]. }
  split; [done |]. split; [done |].
  intros (_ & line & _ & _ & -> & _)%Hiff. apply strip_idem.
Qed.

(** A keyword of white space only quotes to nothing, so the first filter of
    [_build_query] loses no keyword. *)
Lemma quote_keyword_blank (k : pystr) :
  strip k = [] -> _quote_keyword k = [].
Proof.
  intros Hblank%strip_empty. unfold _quote_keyword.
  rewrite replace_char_none.
  assert (Hnil : strip (List.filter (fun x => negb (34 =? x)%N) k) = []).
  { apply strip_empty. rewrite Forall_forall in *.
    intros c [Hc _]%list_elem_of_In%filter_In. apply Hblank.
    by apply list_elem_of_In. }
  by rewrite Hnil.
Qed.

(** X2. A quoted keyword is empty or the cleaned keyword between two quotation
    marks: the cleaned keyword is not empty, holds no quotation mark and
    has no surrounding white space. *)
Theorem quote_keyword_shape (keyword : pystr) :
  _quote_keyword keyword = []
  \/ exists cleaned,
       _quote_keyword keyword = [34%N] ++ cleaned ++ [34%N]
       /\ cleaned <> [] /\ (34%N ∉ cleaned) /\ strip cleaned = cleaned.
Proof.
  unfold _quote_keyword.
  set (cleaned := strip (replace [34%N] [] keyword)).
  destruct cleaned as [| c t] eqn:Hc; [by left |].
  right. exists (c :: t). split; [done |]. split; [done |]. split.
  - rewrite <- Hc. subst cleaned. intros Hin.
    apply (fun H => elem_of_sublist _ _ _ H (strip_sublist _)) in Hin.
    rewrite replace_char_none in Hin.
    apply list_elem_of_In, filter_In in Hin as [_ Hin]. done.
  - rewrite <- Hc. apply strip_idem.
Qed.

Lemma quoted_filter (keywords : list pystr) :
  List.filter (fun q => negb (is_empty q))
    (map _quote_keyword
       (List.filter (fun k => negb (is_empty (strip k))) keywords))
  = List.filter (fun q => negb (is_empty q)) (map _quote_keyword keywords).
Proof.
  induction keywords as [| k rest IH]; simpl; [done |].
  destruct (strip k) eqn:Hk; simpl.
  - rewrite (quote_keyword_blank k Hk). simpl. apply IH.
  - by rewrite IH.
Qed.

(** X3. The query is empty exactly when no keyword quotes to a non-empty
    string; otherwise it is the non-empty quoted keywords joined by [OR],
    in the order of the list, between the parenthesis and the filter that
    excludes retweets and replies. *)
Theorem build_query_shape (keywords : list pystr) :
  let quoted :=
    List.filter (fun q => negb (is_empty q)) (map _quote_keyword keywords) in
  (_build_query keywords = []
   <-> forall k, k ∈ keywords -> _quote_keyword k = [])
  /\ (quoted <> [] ->
      _build_query keywords
      = str "(" ++ join (str " OR ") quoted ++ str ") -is:retweet -is:reply").
Proof.
  intros quoted. unfold _build_query. rewrite quoted_filter. fold quoted.
  assert (Hquoted : quoted = [] <-> forall k, k ∈ keywords -> _quote_keyword k = []).
  { subst quoted. induction keywords as [| k rest IH]; simpl.
    - split; [by intros _ ? ?%elem_of_nil | done].
    - destruct (_quote_keyword k) eqn:Hq; simpl.
      + rewrite IH. split.
        * intros Hall k' [-> | ?]%elem_of_cons; auto.
        * intros Hall k' ?. apply Hall. by right.
      + split; [done |]. intros Hall.
        specialize (Hall k (list_elem_of_here _ _)). congruence. }
  split.
  - case_bool_decide as Hq; [by rewrite <- Hquoted |].
    split; [done |]. intros Hall%Hquoted. done.
  - intros Hne. by rewrite bool_decide_eq_false_2.
Qed.

(** X4. A normalized handle holds no space, and a handle without white space
    normalizes to itself whether or not it is written with a leading
    ["@"]. *)
Theorem normalize_account_handle (raw handle : pystr) :
  (32%N ∉ _normalize_account raw)
  /\ (Forall (fun c => isspace c = false) handle ->
      match handle with [] => True | c :: _ => c <> 64%N end ->
      _normalize_account handle = handle
      /\ _normalize_account (64%N :: handle) = handle).
Proof.
  unfold _normalize_account. change (str " ") with [32%N].
  rewrite !replace_char_none. split.
  - intros Hin. apply list_elem_of_In, filter_In in Hin as [_ Hin]. done.
  - intros Hns Hat.
    assert (Hstrip : forall s, Forall (fun c => isspace c = false) s ->
                               strip s = s).
    { intros s Hs. unfold strip, rstrip, lstrip.
      rewrite (drop_while_fixed isspace s) by (by destruct Hs).
      rewrite drop_while_fixed; [apply rev_involutive |].
      apply Forall_rev in Hs. by destruct Hs. }
    assert (Hkeep : List.filter (fun x => negb (32 =? x)%N) handle = handle).
    { clear Hat. induction Hns as [| c s Hc Hs IH]; [done |].
      cbn [List.filter]. destruct (32 =? c)%N eqn:Heq; cbn [negb].
      - apply N.eqb_eq in Heq. by subst c.
      - by rewrite IH. }
    assert (Hlead : lstrip_char 64 handle = handle).
    { unfold lstrip_char. apply drop_while_fixed. destruct handle; [done |].
      apply N.eqb_neq. congruence. }
    split.
    + rewrite Hstrip by done. by rewrite Hlead.
    + rewrite Hstrip by (by constructor).
      change (lstrip_char 64 (64%N :: handle)) with (lstrip_char 64 handle).
      by rewrite Hlead.
Qed.

End ConfigFacts.

(** ** The filters *)

Section FilterFacts.
Import Fetcher.
Context `{Runtime}.

(** The lower-cased text of the item contains one of the keywords. *)
Definition mentions (exclude_keywords : list pystr) (it : item) : bool :=
  existsb (fun k => contains k (lower (or_empty (i_text it)))) exclude_keywords.

Lemma filter_excluded_filter (items : list item) (exclude_keywords : list pystr) :
  _filter_excluded items exclude_keywords
  = List.filter (fun it => negb (mentions exclude_keywords it)) items.
Proof.
  unfold _filter_excluded. case_bool_decide as Hnil; [| done].
  subst exclude_keywords. induction items as [| it rest IH]; [done |].
  cbn [List.filter]. unfold mentions at 1. cbn [existsb negb].
  by f_equal.
Qed.

(** The exclude filter keeps the order, keeps exactly the items that
    mention none of the keywords, leaves the list alone when there is no
    keyword, and filtering twice is filtering once. *)
Theorem filter_excluded_spec (items : list item) (exclude_keywords : list pystr) :
  (_filter_excluded items exclude_keywords `sublist_of` items)
  /\ (forall it, it ∈ _filter_excluded items exclude_keywords
                 <-> it ∈ items /\ mentions exclude_keywords it = false)
  /\ _filter_excluded items [] = items
  /\ _filter_excluded (_filter_excluded items exclude_keywords) exclude_keywords
     = _filter_excluded items exclude_keywords.
Proof.
  pose proof (fun l => filter_excluded_filter l exclude_keywords) as Heq.
  split; [| split; [| split]].
  - rewrite Heq. clear Heq. induction items as [| it rest IH]; [done |].
    cbn [List.filter]. destruct (negb _); by constructor.
  - intros it. rewrite Heq, list_elem_of_In, filter_In, <- list_elem_of_In.
    by rewrite negb_true_iff.
  - done.
  - rewrite !Heq. clear Heq. induction items as [| it rest IH]; [done |].
    cbn [List.filter]. destruct (negb (mentions _ it)) eqn:Hm; [| done].
    cbn [List.filter]. by rewrite Hm, IH.
Qed.

Lemma in_window_mono (c1 c2 : Z) (it : item) :
  c2 <= c1 -> in_window c1 it = true -> in_window c2 it = true.
Proof.
  unfold in_window. destruct (parsed_created_at it); [| done].
  rewrite !Z.leb_le. lia.
Qed.

Lemma filter_sublist_mono {A} (p q : A -> bool) (l : list A) :
  (forall x, p x = true -> q x = true) ->
  List.filter p l `sublist_of` List.filter q l.
Proof.
  intros Hpq. induction l as [| x l IH]; [done |]. cbn [List.filter].
  destruct (p x) eqn:Hp.
  - rewrite (Hpq x Hp). by constructor.
  - destruct (q x); [by constructor | done].
Qed.

(** X5. A longer look-back window keeps everything a shorter one keeps, in
    the same order. *)
Theorem filter_since_monotone (now h1 h2 : Z) (items kept1 kept2 : list item) :
  h1 <= h2 ->
  _filter_since now items h1 = Ok kept1 ->
  _filter_since now items h2 = Ok kept2 ->
  kept1 `sublist_of` kept2.
Proof.
  unfold _filter_since, utc_minus_hours. intros Hle.
  destruct (_ && _); [| discriminate].
  destruct ((0 <=? now - h2 * 3600000000) && _); [| discriminate].
  cbn [mbind result_bind].
  set (c1 := now - h1 * 3600000000). set (c2 := now - h2 * 3600000000).
  assert (Hc : c2 <= c1) by (unfold c1, c2; lia). clearbody c1 c2.
  revert kept1 kept2. induction items as [| it rest IH]; intros kept1 kept2.
  - cbn [filter_since_loop]. by intros [= <-] [= <-].
  - cbn [filter_since_loop].
    destruct (negb (truthy (i_created_at it))); [apply IH |].
    destruct (fromisoformat _) as [dt |]; [| apply IH].
    unfold dt_ge_aware. destruct (dt_aware dt); [| discriminate].
    cbn [mbind result_bind].
    destruct (filter_since_loop c1 rest) as [r1 | e1]; [| discriminate].
    destruct (filter_since_loop c2 rest) as [r2 | e2]; [| discriminate].
    cbn [mbind result_bind]. intros [= <-] [= <-].
    specialize (IH r1 r2 eq_refl eq_refl).
    destruct (c1 <=? dt_us dt) eqn:H1.
    + apply Z.leb_le in H1. rewrite (proj2 (Z.leb_le c2 (dt_us dt))) by lia.
      by constructor.
    + destruct (c2 <=? dt_us dt); [by constructor | done].
Qed.

(** X6. The time filter fails in two ways only: with [OverflowError] when the
    cutoff is not a [datetime], whatever the items, and with [TypeError]
    when the cutoff is one and some [created_at] parses without offset.
    Items without a parseable [created_at] never make it fail. *)
Theorem filter_since_errors (now since_hours : Z) (items : list item) :
  let cutoff := now - since_hours * 3600000000 in
  (~ 0 <= cutoff < MAX_US ->
   exists msg, _filter_since now items since_hours
               = Raise (Exn OverflowError msg))
  /\ (0 <= cutoff < MAX_US ->
      (exists it dt, it ∈ items /\ parsed_created_at it = Some dt
                     /\ dt_aware dt = false) ->
      exists msg, _filter_since now items since_hours
                  = Raise (Exn TypeError msg))
  /\ (0 <= cutoff < MAX_US ->
      Forall (fun it => parsed_created_at it = None) items ->
      _filter_since now items since_hours = Ok []).
Proof.
  intros cutoff. unfold _filter_since, utc_minus_hours. fold cutoff.
  split; [| split].
  - intros Hout.
    destruct (Z.leb_spec 0 cutoff), (Z.ltb_spec cutoff MAX_US);
      try lia; by eexists.
  - intros Hin (it & dt & Hit & Hdt & Hnaive).
    destruct (Z.leb_spec 0 cutoff), (Z.ltb_spec cutoff MAX_US); try lia.
    cbn [andb mbind result_bind]. clear - Hit Hdt Hnaive.
    induction items as [| x rest IH]; [by apply elem_of_nil in Hit |].
    cbn [filter_since_loop].
    apply elem_of_cons in Hit as [<- | Hit].
    + unfold parsed_created_at in Hdt.
      destruct (truthy (i_created_at it)); [| done]. cbn [negb].
      rewrite Hdt. unfold dt_ge_aware. rewrite Hnaive. by eexists.
    + specialize (IH Hit). destruct IH as [msg IH].
      destruct (negb (truthy (i_created_at x))); [by eexists |].
      destruct (fromisoformat _) as [dx |]; [| by eexists].
      unfold dt_ge_aware. destruct (dt_aware dx); [| by eexists].
      cbn [mbind result_bind]. rewrite IH. by eexists.
  - intros Hin Hnone.
    destruct (Z.leb_spec 0 cutoff), (Z.ltb_spec cutoff MAX_US); try lia.
    cbn [andb mbind result_bind].
    induction Hnone as [| x rest Hx Hrest IH]; [done |].
    cbn [filter_since_loop]. unfold parsed_created_at in Hx.
    destruct (truthy (i_created_at x)); [| done]. cbn [negb].
    by rewrite Hx.
Qed.

End FilterFacts.

(** ** More on deduplication *)

Section DedupeFacts.
Import Fetcher.

Lemma dedupe_from_keeps_key (items : list item) seen it :
  it ∈ items -> truthy (dedupe_key it) = true -> dedupe_key it ∉ seen ->
  exists kept, kept ∈ dedupe_from seen items
               /\ dedupe_key kept = dedupe_key it.
Proof.
  revert seen. induction items as [| x rest IH]; intros seen Hit Htr Hns.
  - by apply elem_of_nil in Hit.
  - cbn [dedupe_from].
    destruct (negb (truthy (dedupe_key x))
              || bool_decide (dedupe_key x ∈ seen)) eqn:Hskip.
    + apply elem_of_cons in Hit as [-> | Hit]; [| by apply IH].
      rewrite Htr, bool_decide_eq_false_2 in Hskip by done. done.
    + destruct (decide (dedupe_key x = dedupe_key it)) as [Heq | Hne].
      * exists x. split; [by left | done].
      * apply elem_of_cons in Hit as [-> | Hit]; [done |].
        destruct (IH ({[dedupe_key x]} ∪ seen) Hit Htr) as (kept & Hk & Hkey).
        { set_solver. }
        exists kept. split; [by right | done].
Qed.

(** X7. Deduplication loses no key: the non-empty keys of the result are the
    non-empty keys of the input. *)
Theorem dedupe_keeps_keys (items : list item) (k : option pystr) :
  truthy k = true ->
  (k ∈ dedupe_key <$> _dedupe items <-> k ∈ dedupe_key <$> items).
Proof.
  intros Htr. rewrite dedupe_unfold, !list_elem_of_fmap. split.
  - intros (it & -> & (Hit & _ & _)%dedupe_from_elem). eauto.
  - intros (it & -> & Hit).
    destruct (dedupe_from_keeps_key items ∅ it Hit Htr) as (kept & Hk & Hkey);
      [set_solver |].
    exists kept. split; [done | done].
Qed.

(** X8. The lists deduplication leaves unchanged are exactly those whose keys
    are non-empty and pairwise distinct. *)
Theorem dedupe_fixed_points (items : list item) :
  _dedupe items = items
  <-> NoDup (dedupe_key <$> items)
      /\ Forall (fun it => truthy (dedupe_key it) = true) items.
Proof.
  rewrite dedupe_unfold. split.
  - intros Heq. split.
    + rewrite <- Heq. apply dedupe_from_NoDup.
    + apply Forall_forall. intros it Hit. rewrite <- Heq in Hit.
      by apply dedupe_from_elem in Hit as (_ & ? & _).
  - intros [Hnd Hall]. apply dedupe_from_fixed; [done |].
    rewrite Forall_forall in Hall. intros it Hit.
    split; [by apply Hall | set_solver].
Qed.

(** Deduplication works as a stream: what it keeps of a list is the
    beginning of what it keeps of any extension of the list, and it never
    keeps more items than it is given. *)
Theorem dedupe_streaming (l1 l2 : list item) :
  (_dedupe l1 `prefix_of` _dedupe (l1 ++ l2))
  /\ (length (_dedupe l1) <= length l1)%nat.
Proof.
  rewrite !dedupe_unfold, dedupe_from_app. split.
  - by eexists.
  - apply sublist_length, dedupe_from_sublist.
Qed.

End DedupeFacts.

(** ** The items of the keywords mode *)

Section BuildItemsFacts.
Import Fetcher.

Lemma startswith_app (p s : pystr) : startswith p (p ++ s) = true.
Proof.
  induction p as [| c p IH]; [by destruct s |].
  cbn [app startswith]. by rewrite N.eqb_refl, IH.
Qed.

(** X9. [_build_items] makes one item per tweet of the payload and only
    reorders them.  Every item has a link under [https://x.com/], which is
    therefore its deduplication key, a non-empty author and no source
    label; a payload without [data] gives no item. *)
Theorem build_items_shape (p : payload) :
  Permutation (_build_items p) (built_items p)
  /\ length (_build_items p) = length (default [] (p_data p))
  /\ (forall it, it ∈ _build_items p ->
        exists url,
          i_url it = Some url
          /\ startswith (str "https://x.com/") url = true
          /\ dedupe_key it = Some url
          /\ truthy (i_author it) = true
          /\ i_source it = None)
  /\ (p_data p = None -> _build_items p = []).
Proof.
  assert (Hperm : Permutation (_build_items p) (built_items p))
    by apply sort_desc_perm.
  split; [done |]. split; [| split].
  - rewrite Hperm. unfold built_items. apply length_map.
  - intros it Hit. rewrite Hperm in Hit. unfold built_items in Hit.
    apply list_elem_of_In, in_map_iff in Hit as (tw & <- & _).
    unfold build_item. cbn [i_url i_author i_source].
    set (user := users_by_id (p_users p) !! t_author_id tw).
    destruct (truthy (user ≫= u_username)) eqn:Hname.
    + eexists. split; [reflexivity |]. split; [apply startswith_app |].
      split; [reflexivity |]. split; [| done].
      unfold py_or. destruct (truthy (user ≫= u_name)) eqn:Hn.
      * by rewrite Hn.
      * by rewrite Hname.
    + eexists. split; [reflexivity |]. split; [reflexivity |].
      split; [reflexivity |]. split; [| done].
      unfold py_or. destruct (truthy (user ≫= u_name)) eqn:Hn.
      * by rewrite Hn.
      * by rewrite Hname.
  - intros Hnone. unfold _build_items, built_items. by rewrite Hnone.
Qed.

End BuildItemsFacts.

(** ** The accounts ranking *)

Section AccountsRanking.
Import Fetcher.

(** X10. The accounts mode orders by [created_at] only: the sorted list is a
    rearrangement of the items in which an item with a greater
    [created_at] stands before one with a smaller, an item without
    [created_at] after every dated one, and items with the same
    [created_at] in the order they had. *)
Theorem accounts_ranking (items : list item) :
  let sorted := sort_desc accounts_key str_ltb items in
  Permutation sorted items
  /\ (forall x y, x ∈ items -> y ∈ items ->
        str_ltb (or_empty (i_created_at y)) (or_empty (i_created_at x)) = true ->
        before x y sorted /\ ~ before y x sorted)
  /\ (forall x y, x ∈ items -> y ∈ items ->
        truthy (i_created_at x) = true -> truthy (i_created_at y) = false ->
        before x y sorted)
  /\ (forall stamp,
        List.filter (fun it => bool_decide (accounts_key it = stamp)) sorted
        = List.filter (fun it => bool_decide (accounts_key it = stamp)) items).
Proof.
  intros sorted. split; [apply sort_desc_perm |]. split; [| split].
  - intros x y Hx Hy Hlt.
    apply sort_desc_before; auto using str_ltb_asym, str_ltb_negtrans.
  - intros x y Hx Hy Htx Hty.
    apply sort_desc_before; auto using str_ltb_asym, str_ltb_negtrans.
    unfold accounts_key.
    destruct (i_created_at x) as [[| c s] |]; try done.
    by destruct (i_created_at y) as [[| ? ?] |].
  - intros stamp.
    assert (Hsame : forall it,
               same_key accounts_key str_ltb stamp it
               = bool_decide (accounts_key it = stamp)).
    { intros it. unfold same_key. generalize (accounts_key it). clear.
      intros a. revert stamp. induction a as [| x a IH]; intros [| y b];
        cbn [str_ltb]; try by rewrite bool_decide_eq_false_2.
      - by rewrite bool_decide_eq_true_2.
      - destruct (N.lt_trichotomy x y) as [Hxy | [-> | Hxy]].
        + rewrite (proj2 (N.ltb_lt x y)) by done. cbn.
          rewrite bool_decide_eq_false_2; [done | intros [= -> _]; lia].
        + rewrite N.ltb_irrefl, N.eqb_refl. cbn [orb andb]. rewrite IH.
          apply bool_decide_ext. split; [by intros -> | by intros [= ->]].
        + rewrite (proj2 (N.ltb_lt y x)) by done. cbn [orb negb].
          rewrite andb_false_r.
          rewrite bool_decide_eq_false_2; [done | intros [= -> _]; lia]. }
    subst sorted.
    rewrite <- !(filter_ext _ _ Hsame).
    apply sort_desc_stable. apply str_ltb_negtrans.
Qed.

End AccountsRanking.

(** ** What [main] prints *)

Section MainFacts.
Import Fetcher.
Context `{Runtime}.

(** When the time filter returns, it returns the items in the window. *)
Lemma filter_since_kept (now since_hours : Z) (items kept : list item) :
  _filter_since now items since_hours = Ok kept ->
  kept = List.filter (in_window (now - since_hours * 3600000000)) items.
Proof.
  unfold _filter_since, utc_minus_hours.
  destruct (_ && _); [| discriminate]. cbn [mbind result_bind].
  generalize (now - since_hours * 3600000000). intros cutoff.
  revert kept. induction items as [| it rest IH]; intros kept.
  - cbn. by intros [= <-].
  - cbn [filter_since_loop List.filter]. unfold in_window at 1.
    unfold parsed_created_at.
    destruct (truthy (i_created_at it)); cbn [negb]; [| apply IH].
    destruct (fromisoformat _) as [dt |]; [| apply IH].
    unfold dt_ge_aware. destruct (dt_aware dt); [| discriminate].
    cbn [mbind result_bind].
    destruct (filter_since_loop cutoff rest) as [r | e]; [| discriminate].
    cbn [mbind result_bind]. intros [= <-]. rewrite (IH r eq_refl).
    by destruct (cutoff <=? dt_us dt).
Qed.

(** The branch of [main] that prints a batch. *)
Lemma main_batch_branch (w : world) (code : Z) (b : batch) :
  main w = Exit code (OutBatch b) ->
  (keywords_branch w
   /\ exists query start_time p,
        p_errors p = []
        /\ keywords_finish w query start_time (ApiPayload p)
           = Exit code (OutBatch b))
  \/ (~ keywords_branch w /\ arg_mode (w_args w) = Accounts
      /\ exists normalized items errors,
           accounts_finish w normalized items errors = Exit code (OutBatch b))
  \/ (~ keywords_branch w /\ arg_mode (w_args w) <> Accounts
      /\ exists st, feeds_finish w st = Exit code (OutBatch b)).
Proof.
  unfold main, keywords_branch.
  destruct (truthy (w_token w)) eqn:Htoken;
    destruct (arg_mode (w_args w)) eqn:Hmode; cbn [andb];
    try (destruct (is_empty _); [discriminate |];
         unfold main_keywords;
         destruct (_start_time_iso _ _) as [start_time | e]; [| discriminate];
         destruct (_fetch_recent _ _ _ _ _) as [p | | | |] eqn:Hfetch;
         try discriminate; cbn [keywords_finish];
         case_bool_decide as Herr; [| discriminate];
         intros Hmain; left; split; [by auto |];
         eexists _, start_time, p; split; [done |];
         cbn [keywords_finish]; by rewrite bool_decide_eq_true_2);
    try (unfold main_accounts; repeat case_bool_decide; try discriminate;
         intros Hmain; right; left;
         split; [by intros [[? | ?] ?] |]; split; [done |]; eauto);
    try (unfold main_feeds; case_bool_decide; try discriminate;
         intros Hmain; right; right;
         split; [by intros [[? | ?] ?] |]; split; [done |]; eauto).
Qed.

(** X11. [main] ends with code 0 and a batch, with code 2 and an error object
    without details (an empty list), or with code 3 and an error object
    (the API request failed); code 3 occurs in the keywords branch only. *)
Theorem main_exit_codes (w : world) (code : Z) (out : output) :
  main w = Exit code out ->
  (code = 0 /\ exists b, out = OutBatch b)
  \/ (code = 2 /\ exists error, out = OutError error NoDetails)
  \/ (code = 3 /\ keywords_branch w /\ exists error d, out = OutError error d).
Proof.
  unfold main.
  destruct (_ && truthy (w_token w)) eqn:Hbranch.
  - assert (Hkb : keywords_branch w).
    { apply andb_true_iff in Hbranch as [Hmode Htoken]. split; [| done].
      destruct (arg_mode (w_args w)); auto; discriminate. }
    destruct (is_empty _).
    { intros [= <- <-]. right. left. eauto. }
    unfold main_keywords.
    destruct (_start_time_iso _ _) as [start_time | e]; [| discriminate].
    unfold keywords_finish.
    destruct (_fetch_recent _ _ _ _ _) as [p | | | |]; try discriminate;
      try (intros [= <- <-]; right; right; by eauto).
    destruct (negb _); intros [= <- <-]; [right; right | left]; by eauto.
  - assert (Haccounts : main_accounts w = Exit code out ->
                        (code = 0 /\ exists b, out = OutBatch b)
                        \/ (code = 2 /\ exists error,
                                         out = OutError error NoDetails)
                        \/ (code = 3 /\ keywords_branch w
                            /\ exists error d, out = OutError error d)).
    { unfold main_accounts, accounts_finish.
      repeat case_bool_decide;
        try (intros [= <- <-]; right; left; by eauto).
      destruct (_filter_since _ _ _); [| discriminate].
      intros [= <- <-]. left. eauto. }
    assert (Hfeeds : main_feeds w = Exit code out ->
                     (code = 0 /\ exists b, out = OutBatch b)
                     \/ (code = 2 /\ exists error,
                                      out = OutError error NoDetails)
                     \/ (code = 3 /\ keywords_branch w
                         /\ exists error d, out = OutError error d)).
    { unfold main_feeds, feeds_finish.
      case_bool_decide; try (intros [= <- <-]; right; left; by eauto).
      destruct (_filter_since _ _ _); [| discriminate].
      intros [= <- <-]. left. eauto. }
    destruct (arg_mode (w_args w)); auto.
Qed.

Lemma truncate_length (items : list item) (limit : Z) :
  length (truncate items limit) = Nat.min (Z.to_nat limit) (length items).
Proof. rewrite truncate_take. apply length_take. Qed.

Lemma notice_for_empty (limited : list item) :
  limited = []
  <-> notice_for limited = Some (str "No results returned for this time window.").
Proof. by destruct limited. Qed.

(** X12. Every batch [main] prints repeats the limit, holds the first
    [max(limit, 0)] of the [fetched] ranked items (all of them when there
    are fewer), and carries the notice exactly when it has no item.  Its
    [mode] names the branch that ran: ["keywords"] when the token is set
    and the mode is [auto] or [keywords]; otherwise ["accounts"] for the
    accounts mode and ["feeds"] for every other mode, so that the keywords
    mode without a token runs the feeds pipeline. *)
Theorem batch_shape (w : world) (code : Z) (b : batch) :
  main w = Exit code (OutBatch b) ->
  b_limit b = limit (w_args w)
  /\ length (b_items b) = Nat.min (Z.to_nat (limit (w_args w))) (b_fetched b)
  /\ (b_items b = []
      <-> b_notice b = Some (str "No results returned for this time window."))
  /\ (keywords_branch w -> b_mode b = str "keywords")
  /\ (~ keywords_branch w -> arg_mode (w_args w) = Accounts ->
      b_mode b = str "accounts")
  /\ (~ keywords_branch w -> arg_mode (w_args w) <> Accounts ->
      b_mode b = str "feeds").
Proof.
  intros [(Hkb & q & st & p & Herr & Hfin)
         | [(Hkb & Hmode & n & items & errs & Hfin)
           | (Hkb & Hmode & st & Hfin)]]%main_batch_branch.
  - unfold keywords_finish in Hfin. rewrite Herr in Hfin.
    cbn [bool_decide negb] in Hfin.
    rewrite bool_decide_eq_true_2 in Hfin by done. cbn [negb] in Hfin.
    injection Hfin as _ <-. cbn.
    split; [done |]. split; [apply truncate_length |].
    split; [apply notice_for_empty |]. by repeat split.
  - unfold accounts_finish in Hfin.
    destruct (_filter_since _ _ _); [| discriminate].
    injection Hfin as _ <-. cbn.
    split; [done |]. split; [apply truncate_length |].
    split; [apply notice_for_empty |]. by repeat split.
  - unfold feeds_finish in Hfin.
    destruct (_filter_since _ _ _); [| discriminate].
    injection Hfin as _ <-. cbn.
    split; [done |]. split; [apply truncate_length |].
    split; [apply notice_for_empty |]. by repeat split.
Qed.

(** X13. Every item of a batch of the accounts or the feeds mode has passed the
    filters: its text mentions no exclude keyword, its [created_at] parses
    to a timestamp at or after the cutoff, and its deduplication key is
    not empty. *)
Theorem batch_items_filtered (w : world) (code : Z) (b : batch) (it : item) :
  main w = Exit code (OutBatch b) ->
  b_mode b <> str "keywords" ->
  it ∈ b_items b ->
  mentions (_load_exclude_keywords (w_exclude_keywords_file w)) it = false
  /\ in_window (w_now w - since_hours (w_args w) * 3600000000) it = true
  /\ truthy (dedupe_key it) = true.
Proof.
  intros Hmain Hmode Hit.
  assert (Hfinish : forall {K} (key : item -> K) ltb gathered kept,
             _filter_since (w_now w)
               (_filter_excluded gathered
                  (_load_exclude_keywords (w_exclude_keywords_file w)))
               (since_hours (w_args w)) = Ok kept ->
             it ∈ truncate (sort_desc key ltb (_dedupe kept))
                    (limit (w_args w)) ->
             mentions (_load_exclude_keywords (w_exclude_keywords_file w)) it
             = false
             /\ in_window (w_now w - since_hours (w_args w) * 3600000000) it
                = true
             /\ truthy (dedupe_key it) = true).
  { intros K key ltb gathered kept Hkept Hin.
    rewrite truncate_take in Hin.
    apply (fun Hx => elem_of_sublist _ _ _ Hx (sublist_take _ _)) in Hin.
    rewrite sort_desc_perm, dedupe_unfold in Hin.
    apply dedupe_from_elem in Hin as (Hin & Htr & _).
    apply filter_since_kept in Hkept. subst kept.
    apply list_elem_of_In, filter_In in Hin as [Hin Hwin].
    rewrite filter_excluded_filter in Hin.
    apply filter_In in Hin as [_ Hm]. by apply negb_true_iff in Hm. }
  apply main_batch_branch in Hmain
    as [(Hkb & q & st & p & Herr & Hfin)
       | [(Hkb & _ & n & items & errs & Hfin) | (Hkb & _ & st & Hfin)]].
  - unfold keywords_finish in Hfin. rewrite Herr in Hfin.
    rewrite bool_decide_eq_true_2 in Hfin by done. cbn [negb] in Hfin.
    injection Hfin as _ <-. by destruct Hmode.
  - unfold accounts_finish in Hfin.
    destruct (_filter_since _ _ _) as [kept |] eqn:Hkept; [| discriminate].
    injection Hfin as _ <-. cbn in Hit. by eapply Hfinish.
  - unfold feeds_finish in Hfin.
    destruct (_filter_since _ _ _) as [kept |] eqn:Hkept; [| discriminate].
    injection Hfin as _ <-. cbn in Hit. by eapply Hfinish.
Qed.

End MainFacts.

(** ** Sources that fail *)

Section Gathering.
Import Fetcher.
Context `{Runtime}.

(** What one account contributes to the items and to the errors. *)
Definition account_items (w : world) (handle : pystr) : list item :=
  match _fetch_account_feed w handle (feed_timeout (w_args w)) with
  | Ok fetched => fetched
  | Raise _ => []
  end.

Definition account_failure (w : world) (handle : pystr)
  : list (pystr * pystr) :=
  match _fetch_account_feed w handle (feed_timeout (w_args w)) with
  | Ok _ => []
  | Raise exc => [(handle, exn_str exc)]
  end.

Lemma accounts_gather (w : world) (handles : list pystr) st :
  foldl (accounts_step w) st handles
  = (st.1 ++ flat_map (account_items w) handles,
     st.2 ++ flat_map (account_failure w) handles).
Proof.
  revert st. induction handles as [| h rest IH]; intros [items errors].
  - cbn. by rewrite !app_nil_r.
  - cbn [foldl flat_map]. rewrite IH.
    unfold accounts_step, account_items, account_failure.
    destruct (_fetch_account_feed w h _); cbn [fst snd];
      by rewrite <- ?app_assoc, ?app_nil_r.
Qed.

(** The handles the accounts branch fetches. *)
Definition normalized_accounts (w : world) : list pystr :=
  List.filter (fun a => negb (is_empty a))
              (map _normalize_account (_load_accounts (w_accounts_file w))).

(** Reading the feed of the account [handle] at the address [url] raises
    [exc]: the address cannot be fetched, or what it returns cannot be
    parsed. *)
Definition read_raises (w : world) (url handle : pystr) (exc : exn) : Prop :=
  Fetcher._fetch_url w url (feed_timeout (w_args w)) = Raise exc
  \/ exists body,
       Fetcher._fetch_url w url (feed_timeout (w_args w)) = Ok body
       /\ Fetcher._parse_rss_items w body handle = Raise exc.

Lemma read_raises_run (w : world) (url handle : pystr) (exc : exn) :
  (body ← Fetcher._fetch_url w url (feed_timeout (w_args w));
   Fetcher._parse_rss_items w body handle) = Raise exc
  <-> read_raises w url handle exc.
Proof.
  unfold read_raises. cbv [mbind result_bind].
  destruct (Fetcher._fetch_url w url _) as [body | e].
  - split; [intros Hparse; right; eauto |].
    intros [? | (? & [= <-] & ?)]; done.
  - split; [intros [= <-]; by left |].
    intros [[= <-] | (? & ? & _)]; done.
Qed.

(** An account fails exactly when reading fails at the first address and
    at the fallback; the exception is the one of the fallback. *)
Lemma fetch_account_feed_raises (w : world) (handle : pystr) (exc : exn) :
  _fetch_account_feed w handle (feed_timeout (w_args w)) = Raise exc
  <-> (exists first, read_raises w (NITTER_RSS handle) handle first)
      /\ read_raises w (NITTER_RSS_FALLBACK handle) handle exc.
Proof.
  rewrite <- read_raises_run.
  setoid_rewrite <- read_raises_run. unfold _fetch_account_feed.
  destruct (body ← Fetcher._fetch_url w (NITTER_RSS handle) _;
            Fetcher._parse_rss_items w body handle) as [items | e1].
  - split; [done |]. by intros [[first ?] _].
  - split; [eauto | by intros [_ ?]].
Qed.

Lemma account_failures_spec (w : world) (handles : list pystr)
  (handle msg : pystr) :
  (handle, msg) ∈ flat_map (account_failure w) handles
  <-> handle ∈ handles
      /\ exists exc,
           _fetch_account_feed w handle (feed_timeout (w_args w)) = Raise exc
           /\ msg = exn_str exc.
Proof.
  rewrite list_elem_of_In, in_flat_map. unfold account_failure. split.
  - intros (h & Hin%list_elem_of_In & Hfail).
    destruct (_fetch_account_feed w h _) as [? | exc] eqn:Hrun; [done |].
    destruct Hfail as [[= <- <-] | []]. eauto.
  - intros (Hin & exc & Hrun & ->). exists handle.
    split; [by apply list_elem_of_In |]. rewrite Hrun. by left.
Qed.

Lemma account_failures_sublist (w : world) (handles : list pystr) :
  (flat_map (account_failure w) handles).*1 `sublist_of` handles.
Proof.
  induction handles as [| h rest IH]; [done |]. cbn [flat_map].
  rewrite fmap_app. unfold account_failure at 1.
  destruct (_fetch_account_feed w h _); cbn [fmap list_fmap app fst].
  - by apply sublist_cons.
  - by apply sublist_skip.
Qed.

(** X14. In the accounts mode a failing account never ends the run: as soon as
    one handle is valid and the time filter returns, [main] exits with
    code 0 and the batch lists the handles.  Its errors name, in the
    order of the handles, exactly the accounts whose feed could be read
    neither at the first address nor at the fallback, that is, could not
    be fetched or could not be parsed, each with the message of the
    exception the fallback raised. *)
Theorem accounts_partial_failure (w : world) (kept : list item) :
  ~ keywords_branch w ->
  arg_mode (w_args w) = Accounts ->
  normalized_accounts w <> [] ->
  _filter_since (w_now w)
    (_filter_excluded (flat_map (account_items w) (normalized_accounts w))
       (_load_exclude_keywords (w_exclude_keywords_file w)))
    (since_hours (w_args w)) = Ok kept ->
  exists b,
    main w = Exit 0 (OutBatch b)
    /\ b_accounts b = Some (normalized_accounts w)
    /\ b_errors b = flat_map (account_failure w) (normalized_accounts w)
    /\ b_fetched b = length (_dedupe kept)
    /\ (forall handle msg,
          (handle, msg) ∈ b_errors b
          <-> handle ∈ normalized_accounts w
              /\ (exists first,
                     read_raises w (NITTER_RSS handle) handle first)
              /\ exists last,
                   read_raises w (NITTER_RSS_FALLBACK handle) handle last
                   /\ msg = exn_str last)
    /\ ((b_errors b).*1 `sublist_of` normalized_accounts w).
Proof.
  intros Hkb Hmode Hvalid Hkept.
  assert (Hmain : main w = main_accounts w).
  { unfold main. rewrite Hmode. cbn [andb]. done. }
  rewrite Hmain. unfold main_accounts. fold (normalized_accounts w).
  assert (Hloaded : _load_accounts (w_accounts_file w) <> []).
  { intros Hnil. apply Hvalid. unfold normalized_accounts. by rewrite Hnil. }
  rewrite !bool_decide_eq_false_2 by done.
  rewrite accounts_gather. cbn [fst snd app].
  unfold accounts_finish. rewrite Hkept.
  eexists. split; [reflexivity |]. cbn [b_accounts b_errors b_fetched].
  split; [done |]. split; [done |]. split.
  { apply Permutation_length, sort_desc_perm. }
  split; [| apply account_failures_sublist].
  intros handle msg. rewrite account_failures_spec. split.
  - intros (Hin & exc & (Hfirst & Hlast)%fetch_account_feed_raises & ->).
    eauto.
  - intros (Hin & Hfirst & last & Hlast & ->). split; [done |].
    exists last. split; [| done]. by apply fetch_account_feed_raises.
Qed.

(** The feeds the feeds branch visits: all of them, or the first
    [max_feeds] when that is positive. *)
Definition visited_feeds (w : world) : list feed :=
  let feeds := _load_feeds (w_feeds_file w) in
  if 0 <? max_feeds (w_args w)
  then take (Z.to_nat (max_feeds (w_args w))) feeds
  else feeds.

(** What one feed contributes to the items, the labels and the errors. *)
Definition feed_outcome (w : world) (f : feed) : feeds_state :=
  feeds_step w {| fs_items := []; fs_errors := []; fs_used_labels := [] |} f.

Lemma feeds_gather (w : world) (feeds : list feed) (st : feeds_state) :
  foldl (feeds_step w) st feeds
  = {| fs_items :=
         fs_items st ++ flat_map (fun f => fs_items (feed_outcome w f)) feeds;
       fs_errors :=
         fs_errors st ++ flat_map (fun f => fs_errors (feed_outcome w f)) feeds;
       fs_used_labels :=
         fs_used_labels st
         ++ flat_map (fun f => fs_used_labels (feed_outcome w f)) feeds |}.
Proof.
  revert st. induction feeds as [| f rest IH]; intros [items errors labels].
  - cbn. by rewrite !app_nil_r.
  - cbn [foldl flat_map]. rewrite IH.
    unfold feed_outcome, feeds_step.
    destruct (is_empty (f_url f)); cbn; [done |].
    destruct (_fetch_feed w f _) as [[fetched label] | exc]; cbn;
      by rewrite <- ?app_assoc, ?app_nil_r.
Qed.

(** A feed yields one label or one error or, when its address is empty,
    neither; a label is never empty. *)
Lemma feed_outcome_one (w : world) (f : feed) :
  (length (fs_used_labels (feed_outcome w f))
   + length (fs_errors (feed_outcome w f)) <= 1)%nat
  /\ Forall (fun label => label <> []) (fs_used_labels (feed_outcome w f))
  /\ (is_empty (f_url f) = true ->
      fs_items (feed_outcome w f) = []
      /\ fs_used_labels (feed_outcome w f) = []
      /\ fs_errors (feed_outcome w f) = []).
Proof.
  unfold feed_outcome, feeds_step.
  destruct (is_empty (f_url f)) eqn:Hurl; cbn.
  - split; [lia |]. by split.
  - destruct (_fetch_feed w f _) as [[fetched label] | exc] eqn:Hfetch; cbn.
    + split; [lia |]. split; [| done]. constructor; [| done].
      unfold _fetch_feed in Hfetch. cbv [mbind result_bind] in Hfetch.
      repeat match type of Hfetch with
             | context [match ?r with Ok _ => _ | Raise _ => _ end] =>
                 destruct r; try discriminate
             end.
      injection Hfetch as _ <-.
      destruct (f_label f), (f_url f); done.
    + split; [lia |]. by split.
Qed.

(** The name a feed goes by: its label, or its address when it has no
    label. *)
Definition feed_name (f : feed) : pystr :=
  if is_empty (f_label f) then f_url f else f_label f.

(** The feed has an address and [_fetch_feed] returns for it. *)
Definition feed_read (w : world) (f : feed) : bool :=
  negb (is_empty (f_url f))
  && match _fetch_feed w f (feed_timeout (w_args w)) with
     | Ok _ => true
     | Raise _ => false
     end.

Lemma fetch_feed_label (w : world) (f : feed) (timeout : Z)
  (fetched : list item) (label : pystr) :
  _fetch_feed w f timeout = Ok (fetched, label) -> label = feed_name f.
Proof.
  unfold _fetch_feed. cbv [mbind result_bind]. intros Hfetch.
  repeat match type of Hfetch with
         | context [match ?r with Ok _ => _ | Raise _ => _ end] =>
             destruct r; try discriminate
         end.
  by injection Hfetch as _ <-.
Qed.

Lemma feed_labels_spec (w : world) (feeds : list feed) :
  flat_map (fun f => fs_used_labels (feed_outcome w f)) feeds
  = feed_name <$> List.filter (feed_read w) feeds.
Proof.
  induction feeds as [| f rest IH]; [done |].
  cbn [flat_map List.filter]. rewrite IH.
  unfold feed_outcome at 1, feeds_step, feed_read at 2.
  destruct (is_empty (f_url f)); cbn [negb andb]; [done |].
  destruct (_fetch_feed w f _) as [[fetched label] | exc] eqn:Hfetch;
    cbn [fs_used_labels app]; [| done].
  by rewrite (fetch_feed_label _ _ _ _ _ Hfetch).
Qed.

Lemma feed_errors_spec (w : world) (feeds : list feed) (url msg : pystr) :
  (url, msg) ∈ flat_map (fun f => fs_errors (feed_outcome w f)) feeds
  <-> exists f exc,
        f ∈ feeds /\ f_url f = url /\ url <> []
        /\ _fetch_feed w f (feed_timeout (w_args w)) = Raise exc
        /\ msg = exn_str exc.
Proof.
  rewrite list_elem_of_In, in_flat_map. split.
  - intros (f & Hin%list_elem_of_In & Hfail). revert Hfail.
    unfold feed_outcome, feeds_step.
    destruct (is_empty (f_url f)) eqn:Hurl; cbn [fs_errors]; [done |].
    destruct (_fetch_feed w f _) as [[fetched label] | exc] eqn:Hfetch;
      cbn [fs_errors app]; [done |].
    intros [[= <- <-] | []]. exists f, exc.
    split; [done |]. split; [done |]. split; [| done].
    intros Hnil. by rewrite Hnil in Hurl.
  - intros (f & exc & Hin & <- & Hurl & Hfetch & ->). exists f.
    split; [by apply list_elem_of_In |].
    unfold feed_outcome, feeds_step.
    destruct (f_url f) as [| c u] eqn:Hu; [done |]. cbn [is_empty].
    rewrite <- Hu, Hfetch. by left.
Qed.

(** X15. In the feeds mode a failing feed never ends the run: when the list is
    not empty and the time filter returns, [main] exits with code 0.  The
    batch names, in the order of the list, the feeds that have an address
    and were read, each by its label, or by its address when it has no
    label (never an empty name); it reports exactly the feeds that have an
    address and whose reading raised, each under its address with the
    message of the exception; entries without address are neither named
    nor reported; with a positive [max_feeds] no more than that many
    feeds are named or reported. *)
Theorem feeds_partial_failure (w : world) (kept : list item) :
  ~ keywords_branch w ->
  arg_mode (w_args w) <> Accounts ->
  _load_feeds (w_feeds_file w) <> [] ->
  _filter_since (w_now w)
    (_filter_excluded
       (flat_map (fun f => fs_items (feed_outcome w f)) (visited_feeds w))
       (_load_exclude_keywords (w_exclude_keywords_file w)))
    (since_hours (w_args w)) = Ok kept ->
  exists b labels,
    main w = Exit 0 (OutBatch b)
    /\ b_feeds b = Some labels
    /\ labels
       = flat_map (fun f => fs_used_labels (feed_outcome w f)) (visited_feeds w)
    /\ b_errors b
       = flat_map (fun f => fs_errors (feed_outcome w f)) (visited_feeds w)
    /\ Forall (fun label => label <> []) labels
    /\ (0 < max_feeds (w_args w) ->
        (length labels + length (b_errors b)
         <= Z.to_nat (max_feeds (w_args w)))%nat)
    /\ labels = feed_name <$> List.filter (feed_read w) (visited_feeds w)
    /\ (forall url msg,
          (url, msg) ∈ b_errors b
          <-> exists f exc,
                f ∈ visited_feeds w /\ f_url f = url /\ url <> []
                /\ _fetch_feed w f (feed_timeout (w_args w)) = Raise exc
                /\ msg = exn_str exc).
Proof.
  intros Hkb Hmode Hfeeds Hkept.
  assert (Hmain : main w = main_feeds w).
  { unfold main, keywords_branch in *.
    destruct (arg_mode (w_args w)), (truthy (w_token w)); cbn [andb];
      try done; exfalso; apply Hkb; auto. }
  rewrite Hmain. unfold main_feeds.
  rewrite bool_decide_eq_false_2 by done.
  assert (Hvisited :
            (if negb (max_feeds (w_args w) =? 0) && (0 <? max_feeds (w_args w))
             then slice_to (_load_feeds (w_feeds_file w)) (max_feeds (w_args w))
             else _load_feeds (w_feeds_file w)) = visited_feeds w).
  { unfold visited_feeds, slice_to.
    destruct (Z.ltb_spec 0 (max_feeds (w_args w))).
    - rewrite (proj2 (Z.eqb_neq _ 0)) by lia. cbn [negb andb].
      by rewrite (proj2 (Z.leb_le 0 _)) by lia.
    - by rewrite andb_false_r. }
  rewrite Hvisited, feeds_gather. cbn [fs_items fs_errors fs_used_labels app].
  unfold feeds_finish. cbn [fs_items fs_errors fs_used_labels].
  rewrite Hkept.
  eexists _, _. split; [reflexivity |]. cbn [b_feeds b_errors].
  split; [done |]. split; [done |]. split; [done |]. split.
  { apply Forall_flat_map, Forall_forall. intros f _.
    apply feed_outcome_one. }
  split; [| split; [apply feed_labels_spec | apply feed_errors_spec]].
  intros Hcap. unfold visited_feeds.
  rewrite (proj2 (Z.ltb_lt 0 _)) by done.
  assert (Hcount : forall l : list feed,
             (length (flat_map (fun f => fs_used_labels (feed_outcome w f)) l)
              + length (flat_map (fun f => fs_errors (feed_outcome w f)) l)
              <= length l)%nat).
  { induction l as [| f l IH]; [cbn; lia |].
    cbn [flat_map length]. rewrite !length_app.
    destruct (feed_outcome_one w f) as (Hone & _). lia. }
  etransitivity; [apply Hcount |]. rewrite length_take. lia.
Qed.

End Gathering.

(* ===================================================================== *)
(** * Further properties of the article publisher *)
(* ===================================================================== *)

(** ** Tag removal *)

Section TagFacts.
Import Publisher.

Lemma sub_tags_skip (s : pystr) (n : nat) : sub_tags s n = sub_tags (drop n s) O.
Proof.
  revert n. induction s as [| c s IH]; intros [| n]; try done.
  cbn [sub_tags drop]. apply IH.
Qed.

(** [tag_end] fails when there is no [">"] ahead, or when [">"] comes
    first and nothing has been read. *)
Lemma tag_end_none (s : pystr) (n : nat) :
  tag_end s n = None <-> 62%N ∉ s \/ (n = O /\ exists r, s = 62%N :: r).
Proof.
  revert n. induction s as [| c s IH]; intros n; cbn [tag_end].
  - split; [intros _; left; by intros ?%elem_of_nil | done].
  - destruct (N.eqb_spec c 62) as [-> | Hne].
    + destruct n as [| n].
      * split; [intros _; right; eauto | done].
      * split; [done |]. intros [Hnot | [? _]]; [| done].
        exfalso. apply Hnot. by left.
    + rewrite IH. split.
      * intros [Hnot | [? _]]; [| done]. left.
        intros [Heq | Hin]%elem_of_cons; [by symmetry in Heq | done].
      * intros [Hnot | (_ & r & [= ? _])]; [| done]. left.
        intros ?. apply Hnot. by right.
Qed.

(** [tag_end] succeeds on a body without [">"] that is closed by [">"],
    and reports its length. *)
Lemma tag_end_some (body rest : pystr) (n : nat) :
  62%N ∉ body -> (0 < n + length body)%nat ->
  tag_end (body ++ 62%N :: rest) n = Some (S (n + length body)).
Proof.
  revert n. induction body as [| c body IH]; intros n Hnot Hlen.
  - cbn [app tag_end length]. rewrite N.eqb_refl.
    destruct n; [cbn in Hlen; lia |]. f_equal. lia.
  - cbn [app tag_end length].
    destruct (N.eqb_spec c 62) as [-> | Hne]; [exfalso; apply Hnot; by left |].
    rewrite IH; [f_equal; lia | | lia].
    intros ?. apply Hnot. by right.
Qed.

Lemma sub_tags_sublist_skip (s : pystr) (n : nat) : sub_tags s n `sublist_of` s.
Proof.
  revert n. induction s as [| c s IH]; intros n; [by destruct n |].
  cbn [sub_tags]. destruct n as [| n]; [| by apply sublist_cons].
  destruct (c =? 60)%N; [| by apply sublist_skip].
  destruct (tag_end s O); [by apply sublist_cons | by apply sublist_skip].
Qed.

(** No complete tag begins anywhere in the text. *)
Definition tag_free (s : pystr) : Prop :=
  forall pre rest, s = pre ++ 60%N :: rest -> tag_end rest O = None.

Lemma tag_free_fixed (s : pystr) : tag_free s -> sub_tags s O = s.
Proof.
  induction s as [| c s IH]; intros Hfree; [done |].
  assert (Hs : tag_free s).
  { intros pre rest ->. apply (Hfree (c :: pre) rest). done. }
  cbn [sub_tags]. destruct (N.eqb_spec c 60) as [-> | Hne].
  - rewrite (Hfree [] s eq_refl). by rewrite IH.
  - by rewrite IH.
Qed.

Lemma sub_tags_tag_free (s : pystr) : tag_free (sub_tags s O).
Proof.
  remember (length s) as m eqn:Hm.
  assert (Hle : (length s <= m)%nat) by lia. clear Hm.
  revert s Hle. induction m as [| m IH]; intros s Hle.
  - destruct s; [| cbn in Hle; lia]. by intros [| ? ?] ? ?.
  - destruct s as [| c s]; [by intros [| ? ?] ? ? |].
    cbn [length] in Hle. cbn [sub_tags].
    assert (Hcons : forall x, x <> 60%N \/ tag_end (sub_tags s O) O = None ->
                              tag_free (x :: sub_tags s O)).
    { intros x Hx [| y pre] rest Heq.
      - injection Heq as -> <-. by destruct Hx.
      - injection Heq as _ Heq. by apply (IH s ltac:(lia) pre rest). }
    destruct (N.eqb_spec c 60) as [-> | Hne]; [| apply Hcons; by left].
    destruct (tag_end s O) as [n |] eqn:Hend.
    + rewrite sub_tags_skip. apply IH. rewrite length_drop. lia.
    + apply Hcons. right. apply tag_end_none.
      apply tag_end_none in Hend as [Hnot | (_ & r & ->)].
      * left. intros Hin. apply Hnot.
        by apply (elem_of_sublist _ _ _ Hin (sub_tags_sublist_skip s O)).
      * right. split; [done |]. cbn [sub_tags]. eauto.
Qed.

(** X16. Tag removal only deletes: what is left is a subsequence of the input,
    text without ["<"] is left as it is, and a tag in front of which no
    ["<"] stands is removed whole, the scan going on behind it. *)
Theorem sub_tags_removes (pre body post : pystr) :
  (sub_tags post O `sublist_of` post)
  /\ (60%N ∉ pre -> sub_tags pre O = pre)
  /\ (60%N ∉ pre -> body <> [] -> 62%N ∉ body ->
      sub_tags (pre ++ [60%N] ++ body ++ [62%N] ++ post) O
      = pre ++ sub_tags post O).
Proof.
  split; [apply sub_tags_sublist_skip |].
  assert (Hpre : forall tail, 60%N ∉ pre ->
                              sub_tags (pre ++ tail) O = pre ++ sub_tags tail O).
  { intros tail. induction pre as [| c pre IH]; intros Hnot; [done |].
    cbn [app sub_tags].
    destruct (N.eqb_spec c 60) as [-> | Hne]; [exfalso; apply Hnot; by left |].
    rewrite IH; [done |]. intros ?. apply Hnot. by right. }
  split.
  - intros Hnot. specialize (Hpre [] Hnot). by rewrite !app_nil_r in Hpre.
  - intros Hnot Hbody Hclose. rewrite Hpre by done. f_equal.
    cbn [app sub_tags]. rewrite N.eqb_refl.
    rewrite tag_end_some; [| done | destruct body; [done | cbn; lia]].
    rewrite sub_tags_skip. f_equal.
    change (62%N :: post) with ([62%N] ++ post). rewrite app_assoc.
    apply drop_app_length'. rewrite length_app. cbn [length]. lia.
Qed.

(** X17. After tag removal no tag is left: removing tags again changes
    nothing. *)
Theorem sub_tags_idempotent (html : pystr) :
  tag_free (sub_tags html O)
  /\ sub_tags (sub_tags html O) O = sub_tags html O.
Proof.
  split; [apply sub_tags_tag_free |].
  apply tag_free_fixed, sub_tags_tag_free.
Qed.

End TagFacts.

(** ** The digest for any budget *)

Section DigestFacts.
Import Publisher.
Context `{Html}.

(** X18. For a budget of at least one character the digest never exceeds the
    budget; it is the stripped text itself exactly when that fits, and
    otherwise ends with the ellipsis. *)
Theorem build_digest_budget (html : pystr) (max_len : Z) :
  1 <= max_len ->
  (length (_build_digest html max_len) <= Z.to_nat max_len)%nat
  /\ ((length (_strip_tags html) <= Z.to_nat max_len)%nat ->
      _build_digest html max_len = _strip_tags html)
  /\ ((Z.to_nat max_len < length (_strip_tags html))%nat ->
      _build_digest html max_len
      = take (Z.to_nat max_len - 1) (_strip_tags html) ++ ellipsis).
Proof.
  intros Hmax. unfold _build_digest. set (text := _strip_tags html).
  unfold slice_to.
  destruct (Z.leb_spec (Z.of_nat (length text)) max_len) as [Hfit | Hlong].
  - split; [lia |]. split; [done | lia].
  - rewrite (proj2 (Z.leb_le 0 (max_len - 1))) by lia.
    replace (Z.to_nat (max_len - 1)) with (Z.to_nat max_len - 1)%nat by lia.
    split; [| split; [lia | done]].
    rewrite length_app, length_take. cbn [ellipsis length]. lia.
Qed.

(** Without a budget (zero or negative) a non-empty text is cut from its
    end by one character more than the budget is short and still gains
    the ellipsis: the digest is never empty and exceeds the budget. *)
Theorem build_digest_no_budget (html : pystr) (max_len : Z) :
  max_len <= 0 ->
  _strip_tags html <> [] ->
  _build_digest html max_len
  = take (length (_strip_tags html) - Z.to_nat (1 - max_len))
         (_strip_tags html) ++ ellipsis
  /\ (1 <= length (_build_digest html max_len))%nat.
Proof.
  intros Hmax Htext. unfold _build_digest. set (text := _strip_tags html) in *.
  assert (Hlen : (0 < length text)%nat) by (destruct text; [done | cbn; lia]).
  rewrite (proj2 (Z.leb_gt _ _)) by lia.
  unfold slice_to. rewrite (proj2 (Z.leb_gt 0 (max_len - 1))) by lia.
  replace (- (max_len - 1)) with (1 - max_len) by lia. split; [done |].
  rewrite length_app. cbn [ellipsis length]. lia.
Qed.

End DigestFacts.

(** ** The digest of the draft *)

Section DigestClaim.
Import Publisher.
Context `{Html}.

(** What the claim calls a tag: ["<"], one or more characters other than
    [">"], then [">"]. *)
Definition tag (t : pystr) : Prop :=
  exists body, t = [60%N] ++ body ++ [62%N] /\ body <> [] /\ 62%N ∉ body.

(** What the claim calls the tag-stripped text: [plain] is [html] with its
    tags taken out, reading from the left; a tag at the head is dropped,
    and a character at which no tag begins is kept. *)
Inductive tag_stripped : pystr -> pystr -> Prop :=
  | stripped_nil : tag_stripped [] []
  | stripped_tag t rest plain :
      tag t -> tag_stripped rest plain -> tag_stripped (t ++ rest) plain
  | stripped_char c rest plain :
      (forall t more, tag t -> c :: rest <> t ++ more) ->
      tag_stripped rest plain -> tag_stripped (c :: rest) (c :: plain).

(** What the claim calls the whitespace-trimmed text: [text] is [s] without
    the run of white space at its head and the one at its end. *)
Definition trimmed (s text : pystr) : Prop :=
  (exists lead trail,
      s = lead ++ text ++ trail
      /\ Forall (fun c => isspace c = true) lead
      /\ Forall (fun c => isspace c = true) trail)
  /\ match text with [] => True | c :: _ => isspace c = false end
  /\ match rev text with [] => True | c :: _ => isspace c = false end.

Lemma tag_end_inv (s : pystr) (n m : nat) :
  tag_end s n = Some m ->
  exists body rest,
    s = body ++ 62%N :: rest /\ (62%N ∉ body)
    /\ (0 < n + length body)%nat /\ m = S (n + length body).
Proof.
  revert n. induction s as [| c s IH]; intros n; cbn [tag_end]; [done |].
  destruct (N.eqb_spec c 62) as [-> | Hne].
  - destruct n as [| n]; [done |]. intros [= <-].
    exists [], s. split; [done |]. split; [by intros ?%elem_of_nil |].
    cbn [length]. split; lia.
  - intros (body & rest & -> & Hnot & Hlen & ->)%IH.
    exists (c :: body), rest. split; [done |]. split.
    + intros [Heq | Hin]%elem_of_cons; [by symmetry in Heq | done].
    + cbn [length]. split; lia.
Qed.

(** A tag begins at the head of the text exactly when the scan of the code
    finds its end. *)
Lemma tag_ahead (c : N) (rest : pystr) :
  (exists t more, tag t /\ c :: rest = t ++ more)
  <-> c = 60%N /\ exists m, tag_end rest O = Some m.
Proof.
  split.
  - intros (t & more & (body & -> & Hbody & Hnot) & Heq).
    cbn [app] in Heq. injection Heq as -> ->. split; [done |].
    rewrite <- app_assoc. cbn [app]. rewrite tag_end_some; [eauto | done |].
    destruct body; [done | cbn; lia].
  - intros [-> [m (body & more & -> & Hnot & Hlen & _)%tag_end_inv]].
    exists ([60%N] ++ body ++ [62%N]), more. split.
    + exists body. split; [done |]. split; [| done].
      intros ->. cbn in Hlen. lia.
    + cbn [app]. by rewrite <- app_assoc.
Qed.

Lemma sub_tags_tag (t rest : pystr) :
  tag t -> sub_tags (t ++ rest) O = sub_tags rest O.
Proof.
  intros (body & -> & Hbody & Hnot). cbn [app sub_tags].
  rewrite N.eqb_refl, <- app_assoc. cbn [app].
  rewrite tag_end_some; [| done | destruct body; [done | cbn; lia]].
  rewrite sub_tags_skip. f_equal.
  change (62%N :: rest) with ([62%N] ++ rest). rewrite app_assoc.
  apply drop_app_length'. rewrite length_app. cbn [length]. lia.
Qed.

Lemma sub_tags_char (c : N) (rest : pystr) :
  (forall t more, tag t -> c :: rest <> t ++ more) ->
  sub_tags (c :: rest) O = c :: sub_tags rest O.
Proof.
  intros Hnone. cbn [sub_tags].
  destruct (N.eqb_spec c 60) as [-> | Hne]; [| done].
  destruct (tag_end rest O) as [m |] eqn:Hend; [| done].
  destruct (proj2 (tag_ahead 60 rest)) as (t & more & Htag & Heq); [eauto |].
  by destruct (Hnone t more Htag).
Qed.

Lemma tag_ahead_dec (c : N) (rest : pystr) :
  (exists t more, tag t /\ c :: rest = t ++ more)
  \/ (forall t more, tag t -> c :: rest <> t ++ more).
Proof.
  destruct (N.eqb_spec c 60) as [-> | Hne].
  - destruct (tag_end rest O) as [m |] eqn:Hend.
    + left. apply tag_ahead. eauto.
    + right. intros t more Htag Heq.
      destruct (proj1 (tag_ahead 60 rest)) as [_ [m Hm]]; [eauto |].
      congruence.
  - right. intros t more Htag Heq.
    destruct (proj1 (tag_ahead c rest)) as [Hc _]; [eauto | done].
Qed.

(** The scan of the code takes the tags out. *)
Lemma sub_tags_stripped (html : pystr) : tag_stripped html (sub_tags html O).
Proof.
  remember (length html) as k eqn:Hk.
  assert (Hle : (length html <= k)%nat) by lia. clear Hk.
  revert html Hle. induction k as [| k IH]; intros html Hle.
  - destruct html; [constructor | cbn in Hle; lia].
  - destruct html as [| c rest]; [constructor |]. cbn [length] in Hle.
    destruct (tag_ahead_dec c rest) as [(t & more & Htag & Heq) | Hnone].
    + rewrite Heq, sub_tags_tag by done. apply stripped_tag; [done |].
      apply IH. apply (f_equal length) in Heq.
      rewrite length_app in Heq. cbn [length] in Heq.
      destruct Htag as (body & -> & _). cbn [app length] in Heq. lia.
    + rewrite sub_tags_char by done. apply stripped_char; [done |].
      apply IH. lia.
Qed.

(** Nothing else is the text without its tags. *)
Lemma tag_stripped_unique (html plain : pystr) :
  tag_stripped html plain -> plain = sub_tags html O.
Proof.
  induction 1 as [| t rest plain Htag _ IH | c rest plain Hnone _ IH].
  - done.
  - by rewrite sub_tags_tag.
  - rewrite sub_tags_char by done. by f_equal.
Qed.

(** [strip] trims. *)
Lemma strip_trimmed (s : pystr) : trimmed s (strip s).
Proof.
  split; [| apply strip_ends].
  destruct (drop_while_split isspace s) as (lead & Hs & Hlead).
  destruct (drop_while_split isspace (rev (drop_while isspace s)))
    as (trail & Hrev & Htrail).
  exists lead, (rev trail). split; [| split; [done | by apply Forall_rev]].
  unfold strip, rstrip, lstrip. rewrite <- rev_app_distr, <- Hrev.
  by rewrite rev_involutive.
Qed.

(** C8. The digest of an HTML body is made of the text the claim
    describes: the body with its tags taken out (there is exactly one such
    text), entity-unescaped by [html.unescape], and trimmed of the white
    space at its two ends.  The digest is that text when it has at most
    80 characters, and otherwise its first 79 characters followed by the
    ellipsis character; it never has more than 80 characters. *)
Theorem digest_budget (html : pystr) :
  exists plain,
    tag_stripped html plain
    /\ (forall other, tag_stripped html other -> other = plain)
    /\ let text := strip (unescape plain) in
       trimmed (unescape plain) text
       /\ ((length text <= 80)%nat -> draft_digest html = text)
       /\ ((80 < length text)%nat ->
           draft_digest html = take 79 text ++ [8230%N])
       /\ (length (draft_digest html) <= 80)%nat.
Proof.
  exists (sub_tags html O). split; [apply sub_tags_stripped |].
  split; [apply tag_stripped_unique |].
  intros text. split; [apply strip_trimmed |].
  unfold draft_digest, _build_digest, _strip_tags. cbv zeta. fold text.
  unfold slice_to, ellipsis.
  destruct (Z.leb_spec (Z.of_nat (length text)) 80) as [Hfit | Hlong].
  - split; [done |]. split; lia.
  - change (0 <=? 80 - 1) with true. cbv iota.
    change (Z.to_nat (80 - 1)) with 79%nat.
    split; [lia |]. split; [done |].
    rewrite length_app, length_take. cbn [length]. lia.
Qed.

End DigestClaim.

(* ===================================================================== *)
(** * scripts/publish_wechat_article.py: the run of the publisher *)
(* ===================================================================== *)

Module PublishFlow.
Import Py Publisher.

(** A value of a JSON object of the API: a string or a number. *)
Inductive jval := JStr (s : pystr) | JInt (n : Z).

(** [f"{v}"]. *)
Definition fmt_jval (v : jval) : pystr :=
  match v with
  | JStr s => s
  | JInt n => str_of_int n
  end.

(** The article of a [draft/add] request. *)
Record article := {
  article_type : pystr;
  a_title : pystr;
  a_author : pystr;
  a_digest : pystr;
  a_content : pystr;
  content_source_url : pystr;
  thumb_media_id : pystr;
  need_open_comment : Z;
  only_fans_can_comment : Z
}.

(** The JSON payload of a request. *)
Inductive payload :=
  | Articles (articles : list article)
  | MediaId (media_id : jval).

(** A call of [_request_json]. *)
Record request := {
  rq_url : pystr;
  rq_method : pystr;
  rq_payload : option payload
}.

(** The command line, the HTML file ([None] when it does not exist), the
    two transports of [_request_json] ([urlopen] and the [curl] fallback)
    and the library functions [urllib.parse.urlencode] and [str] of a
    dictionary. *)
Record env := {
  app_id : pystr;
  app_secret : pystr;
  title : pystr;
  author : pystr;
  source_url : pystr;
  thumb : pystr;
  draft_only : bool;
  html_file : option pystr;
  urlopen_json : request -> result (gmap pystr jval);
  curl_json : request -> result (gmap pystr jval);
  urlencode : list (pystr * pystr) -> pystr;
  repr : gmap pystr jval -> pystr
}.

Definition TOKEN_URL : pystr := str "https://api.weixin.qq.com/cgi-bin/token".

Definition DRAFT_ADD_URL : pystr :=
  str "https://api.weixin.qq.com/cgi-bin/draft/add".

Definition PUBLISH_URL : pystr :=
  str "https://api.weixin.qq.com/cgi-bin/freepublish/submit".

(** [_request_json]: the answer of [urlopen], or of [curl] when [urlopen]
    or the decoding of its answer raises. *)
Definition _request_json (e : env) (rq : request) : result (gmap pystr jval) :=
  match urlopen_json e rq with
  | Ok data => Ok data
  | Raise _ => curl_json e rq
  end.

(** The request [_get_access_token] sends. *)
Definition token_request (e : env) : request :=
  {| rq_url :=
       TOKEN_URL ++ str "?"
       ++ urlencode e [(str "grant_type", str "client_credential");
                       (str "appid", app_id e);
                       (str "secret", app_secret e)];
     rq_method := str "GET";
     rq_payload := None |}.

Definition _get_access_token (e : env) : result jval :=
  data ← _request_json e (token_request e);
  match data !! str "access_token" with
  | Some token => Ok token
  | None =>
      Raise (Exn RuntimeError (str "Failed to get access_token: " ++ repr e data))
  end.

(** The request [_draft_add] sends. *)
Definition draft_request `{Html} (e : env) (access_token : jval) (html : pystr)
  : request :=
  {| rq_url := DRAFT_ADD_URL ++ str "?access_token=" ++ fmt_jval access_token;
     rq_method := str "POST";
     rq_payload :=
       Some (Articles
               [{| article_type := str "news";
                   a_title := title e;
                   a_author := if is_empty (author e) then [] else author e;
                   a_digest := _build_digest html 80;
                   a_content := html;
                   content_source_url :=
                     if is_empty (source_url e) then [] else source_url e;
                   thumb_media_id := thumb e;
                   need_open_comment := 0;
                   only_fans_can_comment := 0 |}]) |}.

(** The request [_publish] sends. *)
Definition publish_request (access_token media_id : jval) : request :=
  {| rq_url := PUBLISH_URL ++ str "?access_token=" ++ fmt_jval access_token;
     rq_method := str "POST";
     rq_payload := Some (MediaId media_id) |}.

(** What [main] prints. *)
Inductive output :=
  | OutError (error : pystr) (d : option (gmap pystr jval))
  | OutResult (draft : gmap pystr jval) (publish : option (gmap pystr jval)).

Inductive outcome :=
  | Exit (code : Z) (out : output)
  | Uncaught (e : exn).

(** [main]: how the process ends, and the calls of [_request_json] it has
    made, in order. *)
Definition main `{Html} (e : env) : outcome * list request :=
  match html_file e with
  | None => (Exit 2 (OutError (str "html file not found") None), [])
  | Some content =>
      let html := strip content in
      match _get_access_token e with
      | Raise exc => (Uncaught exc, [token_request e])
      | Ok token =>
          match _request_json e (draft_request e token html) with
          | Raise exc =>
              (Uncaught exc, [token_request e; draft_request e token html])
          | Ok draft =>
              match draft !! str "media_id" with
              | None =>
                  (Exit 3 (OutError (str "draft_add failed") (Some draft)),
                   [token_request e; draft_request e token html])
              | Some media_id =>
                  if draft_only e
                  then (Exit 0 (OutResult draft None),
                        [token_request e; draft_request e token html])
                  else
                    match _request_json e (publish_request token media_id) with
                    | Raise exc =>
                        (Uncaught exc,
                         [token_request e; draft_request e token html;
                          publish_request token media_id])
                    | Ok publish =>
                        (Exit 0 (OutResult draft (Some publish)),
                         [token_request e; draft_request e token html;
                          publish_request token media_id])
                    end
              end
          end
      end
  end.

End PublishFlow.

(** ** The requests of the publisher *)

Section PublishFacts.
Import Publisher PublishFlow.
Context `{Html}.

(** The request goes to the publish endpoint. *)
Definition is_publish (rq : request) : bool := startswith PUBLISH_URL (rq_url rq).

Lemma token_request_not_publish (e : env) : is_publish (token_request e) = false.
Proof. reflexivity. Qed.

Lemma draft_request_not_publish (e : env) token html :
  is_publish (draft_request e token html) = false.
Proof. reflexivity. Qed.

Lemma publish_request_is_publish token media_id :
  is_publish (publish_request token media_id) = true.
Proof. apply startswith_app. Qed.

(** X19. The publisher calls [_request_json] at most three times, in the order
    token, draft, publish.  Without the HTML file it makes no call and
    exits with code 2; when the answer to the token call has no
    [access_token] it stops after that one call with an uncaught
    [RuntimeError]. *)
Theorem publisher_requests (e : env) :
  (exists token html media_id,
      (main e).2 `prefix_of` [token_request e; draft_request e token html;
                              publish_request token media_id])
  /\ (html_file e = None ->
      main e = (Exit 2 (OutError (str "html file not found") None), []))
  /\ (forall content data,
        html_file e = Some content ->
        _request_json e (token_request e) = Ok data ->
        data !! str "access_token" = None ->
        exists msg,
          main e = (Uncaught (Exn RuntimeError msg), [token_request e])).
Proof.
  split; [| split].
  - unfold main. destruct (html_file e) as [content |].
    2: { exists (JInt 0), [], (JInt 0). apply prefix_nil. }
    destruct (_get_access_token e) as [token | exc].
    2: { exists (JInt 0), [], (JInt 0). by eexists. }
    exists token, (strip content).
    destruct (_request_json e (draft_request e token _)) as [draft | exc].
    2: { exists (JInt 0). by eexists. }
    destruct (draft !! str "media_id") as [media_id |].
    2: { exists (JInt 0). by eexists. }
    exists media_id. destruct (draft_only e); [by eexists |].
    destruct (_request_json e (publish_request token media_id));
      by exists [].
  - intros Hfile. unfold main. by rewrite Hfile.
  - intros content data Hfile Hdata Hnone. unfold main, _get_access_token.
    rewrite Hfile, Hdata. cbn [mbind result_bind]. rewrite Hnone.
    by eexists.
Qed.

(** X20. With [--draft-only] nothing is ever sent to the publish endpoint, and
    a successful run prints the draft with [publish] null. *)
Theorem draft_only_never_publishes (e : env) :
  draft_only e = true ->
  Forall (fun rq => is_publish rq = false) (main e).2
  /\ (forall code out, (main e).1 = Exit code out -> code = 0 ->
        exists draft, out = OutResult draft None
                      /\ is_Some (draft !! str "media_id")).
Proof.
  intros Hdraft. unfold main. rewrite Hdraft.
  destruct (html_file e) as [content |].
  2: { split; [constructor | by intros ? ? [= <- <-]]. }
  destruct (_get_access_token e) as [token | exc].
  2: { split; [repeat constructor | by intros ? ? [=]]. }
  destruct (_request_json e (draft_request e token _)) as [draft | exc].
  2: { split; [repeat constructor | by intros ? ? [=]]. }
  destruct (draft !! str "media_id") as [media_id |] eqn:Hmedia.
  2: { split; [repeat constructor | by intros ? ? [= <- <-]]. }
  split; [repeat constructor |].
  intros code out [= <- <-] _. exists draft. by rewrite Hmedia.
Qed.

(** X21. A publish request is sent only after a draft was accepted: the run is
    not draft-only, the token request was answered with the token the
    request carries, and the draft request was answered with the
    [media_id] it submits.  The run exits with code 3 exactly when the
    HTML file exists, the token was obtained and the draft request was
    answered without [media_id]; it then prints that answer as the
    details of the error and has sent nothing to the publish endpoint. *)
Theorem publish_follows_draft (e : env) :
  (forall rq, rq ∈ (main e).2 -> is_publish rq = true ->
      draft_only e = false
      /\ exists content token draft media_id,
           html_file e = Some content
           /\ _get_access_token e = Ok token
           /\ _request_json e (draft_request e token (strip content)) = Ok draft
           /\ draft !! str "media_id" = Some media_id
           /\ rq = publish_request token media_id)
  /\ (forall out,
        (main e).1 = Exit 3 out
        <-> exists content token draft,
              html_file e = Some content
              /\ _get_access_token e = Ok token
              /\ _request_json e (draft_request e token (strip content))
                 = Ok draft
              /\ draft !! str "media_id" = None
              /\ out = OutError (str "draft_add failed") (Some draft))
  /\ (forall out,
        (main e).1 = Exit 3 out ->
        Forall (fun rq => is_publish rq = false) (main e).2).
Proof.
  split; [| split].
  - intros rq. unfold main.
    destruct (html_file e) as [content |]; [| by intros ?%elem_of_nil].
    destruct (_get_access_token e) as [token | exc] eqn:Htoken.
    2: { intros ->%list_elem_of_singleton. done. }
    assert (Hfirst : forall l,
               (rq ∈ l -> is_publish rq = true -> False) ->
               rq ∈ token_request e :: draft_request e token (strip content) :: l ->
               is_publish rq = true -> False).
    { intros l Hl [-> | [-> | Hin]%elem_of_cons]%elem_of_cons.
      - by rewrite token_request_not_publish.
      - by rewrite draft_request_not_publish.
      - auto. }
    destruct (_request_json e (draft_request e token _)) as [draft | exc]
      eqn:Hdraft.
    2: { intros Hin Hpub. exfalso. revert Hin Hpub. apply Hfirst.
         by intros ?%elem_of_nil. }
    destruct (draft !! str "media_id") as [media_id |] eqn:Hmedia.
    2: { intros Hin Hpub. exfalso. revert Hin Hpub. apply Hfirst.
         by intros ?%elem_of_nil. }
    destruct (draft_only e) eqn:Honly.
    { intros Hin Hpub. exfalso. revert Hin Hpub. apply Hfirst.
      by intros ?%elem_of_nil. }
    assert (Hlast : rq ∈ [token_request e; draft_request e token (strip content);
                         publish_request token media_id] ->
                    is_publish rq = true ->
                    rq = publish_request token media_id).
    { intros [-> | [-> | ->%list_elem_of_singleton]%elem_of_cons]%elem_of_cons.
      - by rewrite token_request_not_publish.
      - by rewrite draft_request_not_publish.
      - done. }
    destruct (_request_json e (publish_request token media_id));
      cbn [snd]; intros Hin Hpub; (split; [done |]);
      exists content, token, draft, media_id;
      (split; [done |]); (split; [done |]); (split; [done |]);
      (split; [done |]); by apply Hlast.
  - intros out. split.
    + unfold main.
      destruct (html_file e) as [content |]; [| by intros [=]].
      destruct (_get_access_token e) as [token | exc]; [| by intros [=]].
      destruct (_request_json e (draft_request e token _)) as [draft | exc]
        eqn:Hdraft; [| by intros [=]].
      destruct (draft !! str "media_id") as [media_id |] eqn:Hmedia.
      * destruct (draft_only e); [by intros [=] |].
        by destruct (_request_json e (publish_request token media_id));
          intros [=].
      * intros [= <-]. by exists content, token, draft.
    + intros (content & token & draft & Hfile & Htoken & Hdraft & Hmedia & ->).
      unfold main. by rewrite Hfile, Htoken, Hdraft, Hmedia.
  - intros out. unfold main.
    destruct (html_file e) as [content |]; [| by intros [=]].
    destruct (_get_access_token e) as [token | exc]; [| by intros [=]].
    destruct (_request_json e (draft_request e token _)) as [draft | exc];
      [| by intros [=]].
    destruct (draft !! str "media_id") as [media_id |].
    + destruct (draft_only e); [by intros [=] |].
      by destruct (_request_json e (publish_request token media_id));
        intros [=].
    + intros _. repeat constructor.
Qed.

(** X22. The draft that is submitted holds the stripped content of the HTML
    file as it is, and a digest of at most 80 characters derived from
    it. *)
Theorem draft_article (e : env) (rq : request) (articles : list article) :
  rq ∈ (main e).2 ->
  rq_payload rq = Some (Articles articles) ->
  exists content a,
    html_file e = Some content
    /\ articles = [a]
    /\ a_content a = strip content
    /\ a_digest a = draft_digest (strip content)
    /\ (length (a_digest a) <= 80)%nat
    /\ a_title a = title e
    /\ thumb_media_id a = thumb e.
Proof.
  assert (Hdigest : forall html, (length (_build_digest html 80) <= 80)%nat).
  { intros html. unfold _build_digest, slice_to.
    destruct (Z.leb_spec (Z.of_nat (length (_strip_tags html))) 80); [lia |].
    change (0 <=? 80 - 1) with true. cbv iota.
    rewrite length_app, length_take. cbn [ellipsis length]. lia. }
  unfold main.
  destruct (html_file e) as [content |]; [| by intros ?%elem_of_nil].
  assert (Hreq : forall token l,
             (rq ∈ l -> rq_payload rq = Some (Articles articles) -> False) ->
             rq ∈ token_request e :: draft_request e token (strip content) :: l ->
             rq_payload rq = Some (Articles articles) ->
             exists content' a,
               Some content = Some content' /\ articles = [a]
               /\ a_content a = strip content'
               /\ a_digest a = draft_digest (strip content')
               /\ (length (a_digest a) <= 80)%nat
               /\ a_title a = title e /\ thumb_media_id a = thumb e).
  { intros token l Hl [-> | [-> | Hin]%elem_of_cons]%elem_of_cons Hpay.
    - done.
    - injection Hpay as <-. eexists content, _. repeat split; cbn.
      apply Hdigest.
    - by destruct (Hl Hin Hpay). }
  destruct (_get_access_token e) as [token | exc].
  2: { intros ->%list_elem_of_singleton. done. }
  destruct (_request_json e (draft_request e token _)) as [draft | exc].
  2: { apply Hreq. by intros ?%elem_of_nil. }
  destruct (draft !! str "media_id") as [media_id |].
  2: { apply Hreq. by intros ?%elem_of_nil. }
  destruct (draft_only e).
  { apply Hreq. by intros ?%elem_of_nil. }
  destruct (_request_json e (publish_request token media_id)); cbn [snd];
    apply Hreq; by intros ->%list_elem_of_singleton.
Qed.

End PublishFacts.

(* ===================================================================== *)
(** * scripts/fetch_x_trends.py: the network and XML layer *)
(* ===================================================================== *)

(** The functions that [Fetcher.world] takes as given, on an
    [xml.etree.ElementTree] element tree.  The XML parser itself
    ([ElementTree.fromstring]), the e-mail date parser
    ([parsedate_to_datetime]) and the two transports of [_fetch_url] are
    the environment. *)
Module FeedXml.
Import Py Fetcher.

(** An element: tag, text, attributes, children. *)
#[warnings="-register-all"] Inductive element :=
  | Element (tag : pystr) (text : option pystr) (attrib : gmap pystr pystr)
            (children : list element).

Definition e_tag (e : element) : pystr :=
  match e with Element tag _ _ _ => tag end.

Definition e_text (e : element) : option pystr :=
  match e with Element _ text _ _ => text end.

Definition e_attrib (e : element) : gmap pystr pystr :=
  match e with Element _ _ attrib _ => attrib end.

Definition e_children (e : element) : list element :=
  match e with Element _ _ _ children => children end.

(** [fromstring] raises on text that is not XML; [parsedate_to_datetime]
    raises on what is no e-mail date ([TypeError] or [ValueError]) and on
    an offset too large to read ([OverflowError]); [urlopen] and [curl]
    are the two ways [_fetch_url] reads an address. *)
Class Layer := {
  fromstring : pystr -> result element;
  parsedate_to_datetime : pystr -> result datetime;
  urlopen : pystr -> Z -> result pystr;
  curl : pystr -> Z -> result pystr
}.

(** The text after the first occurrence of [sep], when there is one. *)
Fixpoint after_first (sep s : pystr) : option pystr :=
  if startswith sep s then Some (drop (length sep) s)
  else match s with
       | [] => None
       | _ :: rest => after_first sep rest
       end.

(** [tag.split("}", 1)[-1] if "}" in tag else tag]. *)
Definition _strip_tag (tag : pystr) : pystr :=
  match after_first [125%N] tag with
  | Some name => name
  | None => tag
  end.

Definition _iter_children (parent : element) (name : pystr) : list element :=
  List.filter (fun child => bool_decide (_strip_tag (e_tag child) = name))
              (e_children parent).

(** The loop of [_child_text]: the stripped text of the first child that
    has text. *)
Fixpoint first_text (children : list element) : pystr :=
  match children with
  | [] => []
  | child :: rest =>
      if truthy (e_text child) then strip (or_empty (e_text child))
      else first_text rest
  end.

Definition _child_text (parent : element) (name : pystr) : pystr :=
  first_text (_iter_children parent name).

(** [dt.astimezone(timezone.utc).isoformat()], after a naive [dt] was
    given the UTC zone: [OverflowError] when the UTC instant is no
    [datetime]. *)
Definition utc_isoformat `{Runtime} (dt : datetime) : result pystr :=
  if (0 <=? dt_us dt) && (dt_us dt <? MAX_US) then Ok (isoformat (dt_us dt))
  else Raise (Exn OverflowError (str "date value out of range")).

(** [except (TypeError, ValueError)] catches the exception. *)
Definition caught (e : exn) : bool :=
  match exn_kind e with
  | TypeError | ValueError => true
  | _ => false
  end.

Definition _parse_date `{Runtime} `{Layer} (value : pystr)
  : result (option pystr) :=
  if is_empty value then Ok None
  else
    match (dt ← parsedate_to_datetime value; utc_isoformat dt) with
    | Ok iso => Ok (Some iso)
    | Raise e =>
        if caught e
        then
          match fromisoformat (replace (str "Z") (str "+00:00") value) with
          | Some dt => iso ← utc_isoformat dt; Ok (Some iso)
          | None => Ok None
          end
        else Raise e
    end.

(** The dictionary both parsers build for an entry. *)
Definition entry_item (source_label title link : pystr)
  (created_at : option pystr) : item :=
  {| i_id := Some (if is_empty link then title else link);
     i_text := Some title;
     i_author := Some source_label;
     i_username := None;
     i_url := Some link;
     i_created_at := created_at;
     i_metrics := no_metrics;
     i_engagement_score := 0;
     i_source := Some source_label |}.

(** The body of the loop of [_parse_rss_items]. *)
Definition rss_item `{Runtime} `{Layer} (source_label : pystr) (node : element)
  : result item :=
  let title := _child_text node (str "title") in
  let link := _child_text node (str "link") in
  let pub_date := _child_text node (str "pubDate") in
  created_at ← _parse_date pub_date;
  Ok (entry_item source_label title link created_at).

(** A loop that appends what its body returns and stops when it raises. *)
Fixpoint collect {A B} (body : A -> result B) (l : list A) : result (list B) :=
  match l with
  | [] => Ok []
  | x :: rest =>
      y ← body x;
      ys ← collect body rest;
      Ok (y :: ys)
  end.

Definition _parse_rss_items `{Runtime} `{Layer} (xml_text source_label : pystr)
  : result (list item) :=
  root ← fromstring xml_text;
  match _iter_children root (str "channel") with
  | [] => Ok []
  | channel :: _ =>
      collect (rss_item source_label) (_iter_children channel (str "item"))
  end.

(** The loop over the [link] nodes of an Atom entry, from the link found so
    far. *)
Fixpoint pick_link (link : pystr) (nodes : list element) : pystr :=
  match nodes with
  | [] => link
  | node :: rest =>
      let rel := default (str "alternate") (e_attrib node !! str "rel") in
      let href := default [] (e_attrib node !! str "href") in
      if bool_decide (rel = str "alternate") && negb (is_empty href) then href
      else pick_link (if is_empty link && negb (is_empty href) then href
                      else link) rest
  end.

(** The body of the loop of [_parse_atom_items]. *)
Definition atom_item `{Runtime} `{Layer} (source_label : pystr) (entry : element)
  : result item :=
  let title := _child_text entry (str "title") in
  let link := pick_link [] (_iter_children entry (str "link")) in
  let updated := _child_text entry (str "updated") in
  let published := _child_text entry (str "published") in
  created_at ← _parse_date (if is_empty updated then published else updated);
  Ok (entry_item source_label title link created_at).

Definition _parse_atom_items `{Runtime} `{Layer} (xml_text source_label : pystr)
  : result (list item) :=
  root ← fromstring xml_text;
  collect (atom_item source_label) (_iter_children root (str "entry")).

Definition _parse_feed `{Runtime} `{Layer} (xml_text source_label : pystr)
  : result (list item) :=
  root ← fromstring xml_text;
  let tag := _strip_tag (e_tag root) in
  if bool_decide (tag = str "rss")
     || existsb (fun c => bool_decide (_strip_tag (e_tag c) = str "channel"))
                (e_children root)
  then _parse_rss_items xml_text source_label
  else if bool_decide (tag = str "feed")
  then _parse_atom_items xml_text source_label
  else Ok [].

(** [_fetch_url]: [urlopen], and [curl] when that raises. *)
Definition _fetch_url `{Layer} (url : pystr) (timeout : Z) : result pystr :=
  match urlopen url timeout with
  | Ok body => Ok body
  | Raise _ => curl url timeout
  end.

(** The run of characters up to the next quotation mark, when there is
    one. *)
Fixpoint until_quote (s : pystr) : option pystr :=
  match s with
  | [] => None
  | c :: rest =>
      if (c =? 34)%N then Some []
      else match until_quote rest with
           | Some body => Some (c :: body)
           | None => None
           end
  end.

(** A match, at the head of [s], of the quoted [key], a colon, and a
    quoted value that begins with UC and goes on with one or more
    characters other than the quotation mark: that value. *)
Definition id_at (key s : pystr) : option pystr :=
  let opening := [34%N] ++ key ++ [34%N; 58%N; 34%N] ++ str "UC" in
  if startswith opening s
  then match until_quote (drop (length opening) s) with
       | Some (c :: body) => Some (str "UC" ++ c :: body)
       | _ => None
       end
  else None.

(** [re.search] for that pattern in [html]: the group of the leftmost
    match. *)
Fixpoint search_id (key html : pystr) : option pystr :=
  match id_at key html with
  | Some id => Some id
  | None =>
      match html with
      | [] => None
      | _ :: rest => search_id key rest
      end
  end.

(** The two searches of [_resolve_youtube_feed] in a page. *)
Definition channel_id_in (html : pystr) : option pystr :=
  match search_id (str "channelId") html with
  | Some id => Some id
  | None => search_id (str "browseId") html
  end.

Definition feed_of_channel (channel_id : pystr) : pystr :=
  str "https://www.youtube.com/feeds/videos.xml?channel_id=" ++ channel_id.

(** [target.split(sep, 1)[1].strip()]; [IndexError] when [sep] does not
    occur. *)
Definition second_part (sep target : pystr) : result pystr :=
  match after_first sep target with
  | Some rest => Ok (strip rest)
  | None => Raise (Exn OtherException (str "list index out of range"))
  end.

Definition _resolve_youtube_feed `{Layer} (url : pystr) (timeout : Z)
  : result pystr :=
  let target := strip url in
  target ← (if startswith (str "youtube:") target
            then second_part (str ":") target else Ok target);
  target ← (if startswith (str "yt:") target
            then second_part (str ":") target else Ok target);
  if startswith (str "http") target
     && contains (str "youtube.com/feeds/videos.xml") target
  then Ok target
  else
    target ← (if startswith (str "http") target
                 && contains (str "youtube.com/@") target
              then second_part (str "youtube.com/") target else Ok target);
    if startswith (str "@") target then
      let handle_url := str "https://www.youtube.com/" ++ target in
      html ← _fetch_url handle_url timeout;
      found ← match channel_id_in html with
              | Some id => Ok (Some id)
              | None =>
                  let mirror_url :=
                    str "https://r.jina.ai/http://r.jina.ai/" ++ handle_url in
                  html ← _fetch_url mirror_url timeout;
                  Ok (channel_id_in html)
              end;
      match found with
      | Some channel_id => Ok (feed_of_channel channel_id)
      | None =>
          Raise (Exn ValueError
                   (str "Unable to resolve YouTube channel id from handle."))
      end
    else if startswith (str "UC") target then Ok (feed_of_channel target)
    else Raise (Exn ValueError (str "Unsupported YouTube feed format.")).

End FeedXml.

(** ** Feed parsing *)

Section FeedXmlFacts.
Import Fetcher FeedXml.
Context `{Runtime} `{Layer}.

Lemma after_first_char (c : N) (pre rest : pystr) :
  c ∉ pre -> after_first [c] (pre ++ c :: rest) = Some rest.
Proof.
  induction pre as [| x pre IH]; intros Hnot.
  - cbn [app after_first startswith]. rewrite N.eqb_refl. by destruct rest.
  - cbn [app after_first startswith].
    destruct (N.eqb_spec c x) as [-> | Hne]; [exfalso; apply Hnot; by left |].
    cbn [andb]. apply IH. intros ?. apply Hnot. by right.
Qed.

Lemma after_first_char_none (c : N) (s : pystr) :
  c ∉ s -> after_first [c] s = None.
Proof.
  induction s as [| x s IH]; intros Hnot; [done |].
  cbn [after_first startswith].
  destruct (N.eqb_spec c x) as [-> | Hne]; [exfalso; apply Hnot; by left |].
  cbn [andb]. apply IH. intros ?. apply Hnot. by right.
Qed.

(** [_strip_tag] undoes the namespace notation of ElementTree: a tag
    written as the namespace in braces followed by the name is reduced to
    the name, and a tag without closing brace is left as it is. *)
Theorem strip_tag_namespace (ns name tag : pystr) :
  (125%N ∉ ns -> _strip_tag ([123%N] ++ ns ++ [125%N] ++ name) = name)
  /\ (125%N ∉ tag -> _strip_tag tag = tag).
Proof.
  unfold _strip_tag. split.
  - intros Hns.
    change ([123%N] ++ ns ++ [125%N] ++ name)
      with ((123%N :: ns) ++ 125%N :: name).
    rewrite after_first_char; [done |].
    intros [? | ?]%elem_of_cons; done.
  - intros Htag. by rewrite after_first_char_none.
Qed.

Lemma first_text_stripped (children : list element) :
  strip (first_text children) = first_text children.
Proof.
  induction children as [| c rest IH]; [done |]. cbn [first_text].
  destruct (truthy (e_text c)); [apply strip_idem | done].
Qed.

(** What [_parse_date] returns is a normalized timestamp. *)
Definition normalized (created_at : option pystr) : Prop :=
  created_at = None
  \/ exists us, 0 <= us < MAX_US /\ created_at = Some (isoformat us).

Lemma utc_isoformat_ok (dt : datetime) (iso : pystr) :
  utc_isoformat dt = Ok iso ->
  0 <= dt_us dt < MAX_US /\ iso = isoformat (dt_us dt).
Proof.
  unfold utc_isoformat.
  destruct (Z.leb_spec 0 (dt_us dt)), (Z.ltb_spec (dt_us dt) MAX_US);
    cbn [andb]; try discriminate.
  intros [= <-]. split; [lia | done].
Qed.

Lemma utc_isoformat_run (dt : datetime) :
  (0 <= dt_us dt < MAX_US -> utc_isoformat dt = Ok (isoformat (dt_us dt)))
  /\ (~ 0 <= dt_us dt < MAX_US ->
      exists msg, utc_isoformat dt = Raise (Exn OverflowError msg)).
Proof.
  unfold utc_isoformat.
  destruct (Z.leb_spec 0 (dt_us dt)), (Z.ltb_spec (dt_us dt) MAX_US);
    cbn [andb]; split; try lia; eauto.
Qed.

(** X23. [_parse_date] gives nothing for an empty value.  For any other value
    it asks the e-mail date parser first: an instant it returns is
    rendered in UTC in ISO format, and an exception it raises other than
    [TypeError] and [ValueError] escapes.  When the e-mail parser raises
    one of these two, the value with [Z] read as [+00:00] goes to
    [fromisoformat]: nothing is returned when that rejects it, and an
    instant it returns is rendered in the same way.  Rendering an instant
    outside the years 1..9999 raises [OverflowError], from either
    parser. *)
Theorem parse_date_spec (value : pystr) :
  _parse_date [] = Ok None
  /\ (value <> [] ->
      let rendered dt :=
        (0 <= dt_us dt < MAX_US ->
         _parse_date value = Ok (Some (isoformat (dt_us dt))))
        /\ (~ 0 <= dt_us dt < MAX_US ->
            exists msg, _parse_date value = Raise (Exn OverflowError msg)) in
      (forall dt, parsedate_to_datetime value = Ok dt -> rendered dt)
      /\ (forall e,
            parsedate_to_datetime value = Raise e ->
            exn_kind e <> TypeError -> exn_kind e <> ValueError ->
            _parse_date value = Raise e)
      /\ (forall e,
            parsedate_to_datetime value = Raise e ->
            exn_kind e = TypeError \/ exn_kind e = ValueError ->
            (fromisoformat (replace (str "Z") (str "+00:00") value) = None ->
             _parse_date value = Ok None)
            /\ (forall dt,
                  fromisoformat (replace (str "Z") (str "+00:00") value)
                  = Some dt ->
                  rendered dt))).
Proof.
  split; [done |]. intros Hvalue rendered. subst rendered. cbv beta.
  unfold _parse_date. destruct value as [| c value]; [done |].
  cbn [is_empty]. set (v := c :: value). split; [| split].
  - intros dt ->. cbn [mbind result_bind].
    destruct (utc_isoformat_run dt) as [Hin Hout]. split.
    + intros Hrange. by rewrite (Hin Hrange).
    + intros Hrange. destruct (Hout Hrange) as [msg ->]. cbn [caught exn_kind].
      eauto.
  - intros e -> Htype Hvalue'. cbn [mbind result_bind]. unfold caught.
    by destruct (exn_kind e).
  - intros e -> Hkind. cbn [mbind result_bind].
    assert (Hcaught : caught e = true).
    { unfold caught. by destruct Hkind as [-> | ->]. }
    rewrite Hcaught. split.
    + by intros ->.
    + intros dt ->. cbn [mbind result_bind].
      destruct (utc_isoformat_run dt) as [Hin Hout]. split.
      * intros Hrange. by rewrite (Hin Hrange).
      * intros Hrange. destruct (Hout Hrange) as [msg ->]. eauto.
Qed.

Lemma parse_date_normalized (value : pystr) (created_at : option pystr) :
  _parse_date value = Ok created_at -> normalized created_at.
Proof.
  unfold _parse_date. destruct (is_empty value); [intros [= <-]; by left |].
  assert (Hiso : forall dt iso,
    utc_isoformat dt = Ok iso -> normalized (Some iso)).
  { intros dt iso Hiso. apply utc_isoformat_ok in Hiso as [? ->].
    right. eauto. }
  destruct (parsedate_to_datetime value) as [dt | e]; cbn [mbind result_bind].
  - destruct (utc_isoformat dt) as [iso | e] eqn:Hrender.
    + intros [= <-]. eauto.
    + unfold utc_isoformat in Hrender. destruct (_ && _); [done |].
      injection Hrender as <-. done.
  - destruct (caught e); [| done].
    destruct (fromisoformat _) as [dt |]; [| intros [= <-]; by left].
    cbn [mbind result_bind].
    destruct (utc_isoformat dt) as [iso | e'] eqn:Hrender; [| done].
    intros [= <-]. eauto.
Qed.

(** An item as the feed parsers build it from a label. *)
Definition feed_entry (source_label : pystr) (it : item) : Prop :=
  exists title link,
    it = entry_item source_label title link (i_created_at it)
    /\ strip title = title
    /\ normalized (i_created_at it).

Lemma collect_Forall {A B} (body : A -> result B) (P : B -> Prop)
  (l : list A) (out : list B) :
  (forall x y, body x = Ok y -> P y) ->
  collect body l = Ok out -> Forall P out.
Proof.
  intros Hbody. revert out. induction l as [| x rest IH]; intros out.
  - cbn. by intros [= <-].
  - cbn [collect]. destruct (body x) as [y |] eqn:Hy; [| discriminate].
    cbn [mbind result_bind].
    destruct (collect body rest) as [ys |]; [| discriminate].
    cbn [mbind result_bind]. intros [= <-].
    constructor; [by eapply Hbody | by apply IH].
Qed.

Lemma collect_length {A B} (body : A -> result B) (l : list A) (out : list B) :
  collect body l = Ok out -> length out = length l.
Proof.
  revert out. induction l as [| x rest IH]; intros out.
  - cbn. by intros [= <-].
  - cbn [collect]. destruct (body x) as [y |]; [| discriminate].
    cbn [mbind result_bind].
    destruct (collect body rest) as [ys |]; [| discriminate].
    cbn [mbind result_bind]. intros [= <-]. cbn. f_equal. by apply IH.
Qed.

Lemma collect_fmap {A B C} (body : A -> result B) (f : B -> C) (g : A -> C)
  (l : list A) (out : list B) :
  (forall x y, body x = Ok y -> f y = g x) ->
  collect body l = Ok out -> f <$> out = g <$> l.
Proof.
  intros Hbody. revert out. induction l as [| x rest IH]; intros out.
  - cbn. by intros [= <-].
  - cbn [collect]. destruct (body x) as [y |] eqn:Hy; [| discriminate].
    cbn [mbind result_bind].
    destruct (collect body rest) as [ys |]; [| discriminate].
    cbn [mbind result_bind]. intros [= <-].
    rewrite !fmap_cons. f_equal; [by apply Hbody | by apply IH].
Qed.

Lemma rss_item_entry (label : pystr) (node : element) (it : item) :
  rss_item label node = Ok it -> feed_entry label it.
Proof.
  unfold rss_item.
  destruct (_parse_date _) as [created_at |] eqn:Hdate; [| discriminate].
  cbn [mbind result_bind]. intros [= <-].
  eexists _, _. split; [reflexivity |].
  split; [apply first_text_stripped | by eapply parse_date_normalized].
Qed.

Lemma atom_item_entry (label : pystr) (node : element) (it : item) :
  atom_item label node = Ok it -> feed_entry label it.
Proof.
  unfold atom_item.
  destruct (_parse_date _) as [created_at |] eqn:Hdate; [| discriminate].
  cbn [mbind result_bind]. intros [= <-].
  eexists _, _. split; [reflexivity |].
  split; [apply first_text_stripped | by eapply parse_date_normalized].
Qed.

Lemma parse_rss_entries (xml label : pystr) (items : list item) :
  FeedXml._parse_rss_items xml label = Ok items ->
  Forall (feed_entry label) items.
Proof.
  unfold FeedXml._parse_rss_items.
  destruct (fromstring xml) as [root |]; [| discriminate].
  cbn [mbind result_bind].
  destruct (_iter_children root _) as [| channel ?]; [by intros [= <-] |].
  apply collect_Forall. apply rss_item_entry.
Qed.

Lemma parse_atom_entries (xml label : pystr) (items : list item) :
  _parse_atom_items xml label = Ok items ->
  Forall (feed_entry label) items.
Proof.
  unfold _parse_atom_items.
  destruct (fromstring xml) as [root |]; [| discriminate].
  cbn [mbind result_bind]. apply collect_Forall. apply atom_item_entry.
Qed.

Lemma parse_feed_entries (xml label : pystr) (items : list item) :
  FeedXml._parse_feed xml label = Ok items ->
  Forall (feed_entry label) items.
Proof.
  unfold FeedXml._parse_feed.
  destruct (fromstring xml) as [root |]; [| discriminate].
  cbn [mbind result_bind].
  destruct (_ || _); [apply parse_rss_entries |].
  destruct (bool_decide _); [apply parse_atom_entries |].
  by intros [= <-].
Qed.

(** X24. Every item a feed parser returns carries the label of its feed as
    source and as author, no user name, no metrics and an engagement score
    of zero; its title is stripped; its [created_at] is missing or a
    normalized UTC timestamp; and its deduplication key is its [id]: the
    link, or the title when there is no link. *)
Theorem parsed_items_shape (xml label : pystr) (items : list item) (it : item) :
  FeedXml._parse_rss_items xml label = Ok items
  \/ _parse_atom_items xml label = Ok items
  \/ FeedXml._parse_feed xml label = Ok items ->
  it ∈ items ->
  i_source it = Some label /\ i_author it = Some label
  /\ i_username it = None /\ i_metrics it = no_metrics
  /\ i_engagement_score it = 0
  /\ (exists title, i_text it = Some title /\ strip title = title)
  /\ normalized (i_created_at it)
  /\ dedupe_key it = i_id it.
Proof.
  intros Hparse Hit.
  assert (Hall : Forall (feed_entry label) items).
  { destruct Hparse as [Hp | [Hp | Hp]];
      eauto using parse_rss_entries, parse_atom_entries, parse_feed_entries. }
  rewrite Forall_forall in Hall.
  destruct (Hall it Hit) as (title & link & Heq & Htitle & Hnorm).
  rewrite Heq. cbn. repeat split; eauto.
  unfold dedupe_key, py_or. cbn.
  by destruct link, title.
Qed.

(** All items of one feed have the same source weight, the weight of the
    label of the feed, so the feeds ranking never separates the items of a
    feed by weight. *)
Theorem parsed_items_one_weight (xml label : pystr) (items : list item)
  (it : item) :
  FeedXml._parse_feed xml label = Ok items ->
  it ∈ items ->
  _source_weight it = _source_weight (entry_item label [] [] None).
Proof.
  intros Hparse Hit. apply parse_feed_entries in Hparse.
  rewrite Forall_forall in Hparse.
  destruct (Hparse it Hit) as (title & link & -> & _). done.
Qed.

(** X25. The RSS parser returns one item for each [item] element of the first
    [channel] of the root, in document order, with its title; a root
    without [channel] gives no item, and text that is not XML makes it
    raise what the XML parser raises. *)
Theorem parse_rss_items_count (xml label : pystr) :
  (forall e, fromstring xml = Raise e ->
             FeedXml._parse_rss_items xml label = Raise e)
  /\ (forall root, fromstring xml = Ok root ->
        _iter_children root (str "channel") = [] ->
        FeedXml._parse_rss_items xml label = Ok [])
  /\ (forall root channel more items,
        fromstring xml = Ok root ->
        _iter_children root (str "channel") = channel :: more ->
        FeedXml._parse_rss_items xml label = Ok items ->
        i_text <$> items
        = (fun node => Some (_child_text node (str "title")))
            <$> _iter_children channel (str "item")).
Proof.
  unfold FeedXml._parse_rss_items. split; [| split].
  - by intros e ->.
  - intros root -> Hnone. cbn [mbind result_bind]. by rewrite Hnone.
  - intros root channel more items -> Hchannel. cbn [mbind result_bind].
    rewrite Hchannel. apply collect_fmap. intros node it. unfold rss_item.
    destruct (_parse_date _) as [created_at |]; cbn [mbind result_bind];
      [| discriminate].
    by intros [= <-].
Qed.

(** [_parse_feed] reads a root named [rss], or any root with a [channel]
    child, as RSS, and otherwise a root named [feed] as Atom; any other
    root gives no item and no error. *)
Theorem parse_feed_dispatch (xml label : pystr) (root : element) :
  fromstring xml = Ok root ->
  let has_channel :=
    existsb (fun c => bool_decide (_strip_tag (e_tag c) = str "channel"))
            (e_children root) in
  (_strip_tag (e_tag root) = str "rss" \/ has_channel = true ->
   FeedXml._parse_feed xml label = FeedXml._parse_rss_items xml label)
  /\ (_strip_tag (e_tag root) = str "feed" -> has_channel = false ->
      FeedXml._parse_feed xml label = _parse_atom_items xml label)
  /\ (_strip_tag (e_tag root) <> str "rss" ->
      _strip_tag (e_tag root) <> str "feed" -> has_channel = false ->
      FeedXml._parse_feed xml label = Ok []).
Proof.
  intros Hroot has_channel. unfold FeedXml._parse_feed. rewrite Hroot.
  cbn [mbind result_bind]. fold has_channel. split; [| split].
  - intros [Hrss | Hch].
    + by rewrite bool_decide_eq_true_2.
    + by rewrite Hch, orb_true_r.
  - intros Hfeed Hch. rewrite Hch, Hfeed.
    rewrite bool_decide_eq_false_2 by done.
    by rewrite bool_decide_eq_true_2.
  - intros Hrss Hfeed Hch. rewrite Hch.
    by rewrite !bool_decide_eq_false_2.
Qed.

(** A [link] node that an Atom entry prefers: its [rel] is [alternate] or
    missing and it has a non-empty [href]. *)
Definition preferred (node : element) : bool :=
  bool_decide (default (str "alternate") (e_attrib node !! str "rel")
               = str "alternate")
  && negb (is_empty (default [] (e_attrib node !! str "href"))).

(** X26. The link of an Atom entry is the [href] of its first preferred [link]
    node; without a preferred node it is the first non-empty [href], and
    empty when no node has one. *)
Theorem pick_link_preference (before_ after_ : list element) (node : element) :
  (Forall (fun n => preferred n = false) before_ ->
   preferred node = true ->
   pick_link [] (before_ ++ node :: after_)
   = default [] (e_attrib node !! str "href"))
  /\ (Forall (fun n => preferred n = false) before_ ->
      Forall (fun n => is_empty (default [] (e_attrib n !! str "href")) = true)
             before_ ->
      preferred node = false ->
      is_empty (default [] (e_attrib node !! str "href")) = false ->
      Forall (fun n => preferred n = false) after_ ->
      pick_link [] (before_ ++ node :: after_)
      = default [] (e_attrib node !! str "href"))
  /\ (Forall (fun n => is_empty (default [] (e_attrib n !! str "href")) = true)
             before_ ->
      pick_link [] before_ = []).
Proof.
  assert (Hkeep : forall link nodes,
             Forall (fun n => preferred n = false) nodes ->
             link <> [] -> pick_link link nodes = link).
  { intros link nodes Hall Hlink.
    induction Hall as [| n rest Hn Hrest IH]; [done |].
    cbn [pick_link]. unfold preferred in Hn. rewrite Hn.
    by destruct link. }
  split; [| split].
  - intros Hbefore Hnode.
    assert (Hgen : forall link,
               pick_link link (before_ ++ node :: after_)
               = default [] (e_attrib node !! str "href")); [| apply Hgen].
    induction Hbefore as [| n rest Hn Hrest IH]; intros link.
    + cbn [app pick_link]. unfold preferred in Hnode. by rewrite Hnode.
    + cbn [app pick_link]. unfold preferred in Hn. rewrite Hn. apply IH.
  - intros Hbefore Hempty Hnode Hhref Hafter.
    induction Hbefore as [| n rest Hn Hrest IH].
    + cbn [app pick_link]. unfold preferred in Hnode. rewrite Hnode, Hhref.
      cbn [is_empty andb negb]. apply Hkeep; [done |].
      by destruct (default [] _).
    + apply Forall_cons in Hempty as [Hn0 Hempty].
      cbn [app pick_link]. unfold preferred in Hn. rewrite Hn, Hn0.
      cbn [is_empty andb negb]. by apply IH.
  - intros Hempty. induction Hempty as [| n rest Hn Hrest IH]; [done |].
    cbn [pick_link]. rewrite Hn. cbn [negb]. by rewrite !andb_false_r.
Qed.

End FeedXmlFacts.

(** ** YouTube feed addresses *)

Section YoutubeFacts.
Import Fetcher FeedXml.
Context `{Layer}.

Lemma startswith_inv (p s : pystr) :
  startswith p s = true -> s = p ++ drop (length p) s.
Proof.
  revert s. induction p as [| c p IH]; intros [| x s]; cbn; try done.
  intros [->%N.eqb_eq Hp]%andb_true_iff. f_equal. by apply IH.
Qed.

Lemma startswith_app_both (p q s : pystr) :
  startswith q s = true -> startswith (p ++ q) (p ++ s) = true.
Proof.
  intros Hq. induction p as [| c p IH]; [done |].
  cbn [app startswith]. by rewrite N.eqb_refl, IH.
Qed.

Lemma contains_here (needle hay : pystr) :
  startswith needle hay = true -> contains needle hay = true.
Proof. intros Hs. destruct hay; cbn [contains]; by rewrite Hs. Qed.

Lemma contains_later (needle : pystr) (c : N) (hay : pystr) :
  contains needle hay = true -> contains needle (c :: hay) = true.
Proof. intros Hc. cbn [contains]. rewrite Hc. apply orb_true_r. Qed.

Lemma until_quote_spec (s body : pystr) :
  until_quote s = Some body ->
  (34%N ∉ body) /\ startswith (body ++ [34%N]) s = true.
Proof.
  revert body. induction s as [| c s IH]; intros body; [done |].
  cbn [until_quote]. destruct (N.eqb_spec c 34) as [-> | Hne].
  - intros [= <-]. split; [by intros ?%elem_of_nil | done].
  - destruct (until_quote s) as [b |]; [| done]. intros [= <-].
    destruct (IH b eq_refl) as [Hnot Hstart]. split.
    + intros [? | ?]%elem_of_cons; [by subst | done].
    + cbn [app startswith]. by rewrite N.eqb_refl.
Qed.

(** The quoted [key], a colon and the quoted [value], as the page holds
    them. *)
Definition quoted_pair (key value : pystr) : pystr :=
  [34%N] ++ key ++ [34%N; 58%N; 34%N] ++ value ++ [34%N].

Lemma id_at_spec (key s id : pystr) :
  id_at key s = Some id ->
  startswith (str "UC") id = true /\ (3 <= length id)%nat /\ (34%N ∉ id)
  /\ startswith (quoted_pair key id) s = true.
Proof.
  unfold id_at. set (opening := [34%N] ++ key ++ [34%N; 58%N; 34%N] ++ str "UC").
  destruct (startswith opening s) eqn:Hopen; [| done].
  destruct (until_quote _) as [[| c body] |] eqn:Hbody; try done.
  intros Heq. assert (Hid : id = str "UC" ++ c :: body) by congruence.
  clear Heq. apply until_quote_spec in Hbody as [Hnot Hrest].
  assert (Hpair : quoted_pair key id = opening ++ (c :: body) ++ [34%N]).
  { rewrite Hid. unfold quoted_pair, opening. by rewrite <- !app_assoc. }
  rewrite Hpair, Hid.
  split; [done |]. split; [cbn; lia |]. split.
  - intros [? | [? | ?]%elem_of_cons]%elem_of_cons; done.
  - rewrite (startswith_inv _ _ Hopen).
    by apply (startswith_app_both opening).
Qed.

Lemma search_id_spec (key html id : pystr) :
  search_id key html = Some id ->
  startswith (str "UC") id = true /\ (3 <= length id)%nat /\ (34%N ∉ id)
  /\ contains (quoted_pair key id) html = true.
Proof.
  induction html as [| c html IH]; cbn [search_id].
  - destruct (id_at key []) eqn:Hat; [| done]. intros [= ->].
    apply id_at_spec in Hat as (? & ? & ? & ?).
    auto using contains_here.
  - destruct (id_at key (c :: html)) eqn:Hat.
    + intros [= ->]. apply id_at_spec in Hat as (? & ? & ? & ?).
      auto using contains_here.
    + intros (? & ? & ? & ?)%IH. auto using contains_later.
Qed.

Lemma channel_id_in_spec (html id : pystr) :
  channel_id_in html = Some id ->
  startswith (str "UC") id = true /\ (3 <= length id)%nat /\ (34%N ∉ id)
  /\ (contains (quoted_pair (str "channelId") id) html = true
      \/ contains (quoted_pair (str "browseId") id) html = true).
Proof.
  unfold channel_id_in.
  destruct (search_id (str "channelId") html) as [found |] eqn:Hfirst.
  - intros [= ->]. apply search_id_spec in Hfirst as (? & ? & ? & ?). auto.
  - intros (? & ? & ? & ?)%search_id_spec. auto.
Qed.

(** The address of the video feed of a channel. *)
Definition is_channel_feed (url : pystr) : bool :=
  startswith (str "https://www.youtube.com/feeds/videos.xml?channel_id=UC") url.

Lemma feed_of_channel_is_feed (id : pystr) :
  startswith (str "UC") id = true -> is_channel_feed (feed_of_channel id) = true.
Proof.
  intros Hid. unfold is_channel_feed, feed_of_channel.
  by apply (startswith_app_both
              (str "https://www.youtube.com/feeds/videos.xml?channel_id=")).
Qed.

(** An exception is not a result. *)
Ltac raised := let Hraise := fresh in intros Hraise; discriminate Hraise.

(** X27. Whatever the resolver returns is a feed address: an [http] address
    that names a video feed, or the video feed of a channel id that begins
    with UC. *)
Theorem resolve_youtube_feed_shape (url feed_url : pystr) (timeout : Z) :
  FeedXml._resolve_youtube_feed url timeout = Ok feed_url ->
  (startswith (str "http") feed_url = true
   /\ contains (str "youtube.com/feeds/videos.xml") feed_url = true)
  \/ is_channel_feed feed_url = true.
Proof.
  unfold FeedXml._resolve_youtube_feed. cbv zeta.
  destruct (if startswith (str "youtube:") (strip url)
            then second_part (str ":") (strip url) else Ok (strip url))
    as [t1 |]; cbn [mbind result_bind]; [| raised].
  destruct (if startswith (str "yt:") t1
            then second_part (str ":") t1 else Ok t1)
    as [t2 |]; cbn [mbind result_bind]; [| raised].
  destruct (startswith (str "http") t2
            && contains (str "youtube.com/feeds/videos.xml") t2) eqn:Hfeed.
  { intros [= <-]. left. by apply andb_true_iff in Hfeed. }
  destruct (if startswith (str "http") t2
               && contains (str "youtube.com/@") t2
            then second_part (str "youtube.com/") t2 else Ok t2)
    as [t3 |]; cbn [mbind result_bind]; [| raised].
  destruct (startswith (str "@") t3).
  - destruct (FeedXml._fetch_url (str "https://www.youtube.com/" ++ t3) timeout)
      as [html |]; cbn [mbind result_bind]; [| raised].
    destruct (channel_id_in html) as [id |] eqn:Hid.
    + cbn [mbind result_bind]. intros [= <-]. right.
      apply channel_id_in_spec in Hid as (Huc & _).
      by apply feed_of_channel_is_feed.
    + destruct (FeedXml._fetch_url _ timeout) as [mirror |];
        cbn [mbind result_bind]; [| raised].
      destruct (channel_id_in mirror) as [id |] eqn:Hmirror; [| raised].
      intros [= <-]. right.
      apply channel_id_in_spec in Hmirror as (Huc & _).
      by apply feed_of_channel_is_feed.
  - destruct (startswith (str "UC") t3) eqn:Huc; [| raised].
    intros [= <-]. right. by apply feed_of_channel_is_feed.
Qed.

Lemma strip_fixed (s : pystr) :
  match s with [] => True | c :: _ => isspace c = false end ->
  match rev s with [] => True | c :: _ => isspace c = false end ->
  strip s = s.
Proof.
  intros Hhead Hlast. unfold strip, rstrip, lstrip.
  rewrite (drop_while_fixed isspace s) by done.
  rewrite (drop_while_fixed isspace (rev s)) by done.
  apply rev_involutive.
Qed.

(** X28. A channel id is resolved whatever the network answers, whether it
    is written bare or behind the shortcut [youtube:] or [yt:]: the result
    is the video feed of the channel. *)
Theorem resolve_channel_id (channel_id : pystr) (timeout : Z) :
  startswith (str "UC") channel_id = true ->
  strip channel_id = channel_id ->
  FeedXml._resolve_youtube_feed channel_id timeout
  = Ok (feed_of_channel channel_id)
  /\ FeedXml._resolve_youtube_feed (str "youtube:" ++ channel_id) timeout
     = Ok (feed_of_channel channel_id)
  /\ FeedXml._resolve_youtube_feed (str "yt:" ++ channel_id) timeout
     = Ok (feed_of_channel channel_id).
Proof.
  intros Huc Hstrip.
  destruct channel_id as [| u [| c rest]]; [done | |].
  { apply andb_true_iff in Huc as [_ Huc]. done. }
  apply andb_true_iff in Huc as [Hu%N.eqb_eq Huc].
  apply andb_true_iff in Huc as [Hc%N.eqb_eq _].
  change (N_of_ascii "U") with 85%N in Hu. change (N_of_ascii "C") with 67%N in Hc.
  subst u c. set (id := 85%N :: 67%N :: rest) in *.
  assert (Hlast : match rev id with [] => True | x :: _ => isspace x = false end).
  { rewrite <- Hstrip. apply strip_ends. }
  assert (Hprefixed : forall p,
             match p with [] => True | x :: _ => isspace x = false end ->
             strip (p ++ id) = p ++ id).
  { intros p Hp. apply strip_fixed.
    - by destruct p.
    - rewrite rev_app_distr. destruct (rev id) eqn:Hrev; [| done].
      apply (f_equal (@rev N)) in Hrev. by rewrite rev_involutive in Hrev. }
  assert (Hbare : forall target,
             target = id ->
             (target ← Ok target;
              target ← (if startswith (str "yt:") target
                        then second_part (str ":") target else Ok target);
              if startswith (str "http") target
                 && contains (str "youtube.com/feeds/videos.xml") target
              then Ok target
              else
                target ← (if startswith (str "http") target
                             && contains (str "youtube.com/@") target
                          then second_part (str "youtube.com/") target
                          else Ok target);
                if startswith (str "@") target then
                  let handle_url := str "https://www.youtube.com/" ++ target in
                  html ← FeedXml._fetch_url handle_url timeout;
                  found ← match channel_id_in html with
                          | Some id => Ok (Some id)
                          | None =>
                              let mirror_url :=
                                str "https://r.jina.ai/http://r.jina.ai/"
                                ++ handle_url in
                              html ← FeedXml._fetch_url mirror_url timeout;
                              Ok (channel_id_in html)
                          end;
                  match found with
                  | Some channel_id => Ok (feed_of_channel channel_id)
                  | None =>
                      Raise (Exn ValueError
                               (str "Unable to resolve YouTube channel id from handle."))
                  end
                else if startswith (str "UC") target
                     then Ok (feed_of_channel target)
                     else Raise (Exn ValueError
                                   (str "Unsupported YouTube feed format.")))
             = Ok (feed_of_channel id)).
  { by intros target ->. }
  split; [| split].
  - unfold FeedXml._resolve_youtube_feed. rewrite Hstrip.
    change (startswith (str "youtube:") id) with false. cbv iota.
    by apply Hbare.
  - unfold FeedXml._resolve_youtube_feed. rewrite (Hprefixed (str "youtube:") eq_refl).
    change (startswith (str "youtube:") (str "youtube:" ++ id)) with true.
    cbv iota.
    change (second_part (str ":") (str "youtube:" ++ id)) with (Ok (strip id)).
    rewrite Hstrip. by apply Hbare.
  - unfold FeedXml._resolve_youtube_feed. rewrite (Hprefixed (str "yt:") eq_refl).
    change (startswith (str "youtube:") (str "yt:" ++ id)) with false.
    cbv iota. cbn [mbind result_bind].
    change (startswith (str "yt:") (str "yt:" ++ id)) with true. cbv iota.
    change (second_part (str ":") (str "yt:" ++ id)) with (Ok (strip id)).
    rewrite Hstrip. cbn [mbind result_bind].
    change (startswith (str "http") id) with false. cbn [andb mbind result_bind].
    reflexivity.
Qed.

(** X29. An address that, stripped of surrounding white space, is a handle
    (it starts with ["@"]) is resolved from the channel page of the
    handle: the channel id is a value that the page gives for [channelId]
    or [browseId], and it holds no quotation mark.  The mirror counts
    only when the page holds no such value, and when the mirror holds
    none either the resolver raises [ValueError]; a page that cannot be
    read makes it raise what the transport raises. *)
Theorem resolve_handle (url page : pystr) (timeout : Z) :
  startswith (str "@") (strip url) = true ->
  let handle_url := str "https://www.youtube.com/" ++ strip url in
  let mirror_url := str "https://r.jina.ai/http://r.jina.ai/" ++ handle_url in
  (forall e, FeedXml._fetch_url handle_url timeout = Raise e ->
             FeedXml._resolve_youtube_feed url timeout = Raise e)
  /\ (forall id,
        FeedXml._fetch_url handle_url timeout = Ok page ->
        channel_id_in page = Some id ->
        FeedXml._resolve_youtube_feed url timeout = Ok (feed_of_channel id)
        /\ (34%N ∉ id)
        /\ (contains (quoted_pair (str "channelId") id) page = true
            \/ contains (quoted_pair (str "browseId") id) page = true))
  /\ (forall mirror,
        FeedXml._fetch_url handle_url timeout = Ok page ->
        channel_id_in page = None ->
        FeedXml._fetch_url mirror_url timeout = Ok mirror ->
        FeedXml._resolve_youtube_feed url timeout
        = match channel_id_in mirror with
          | Some id => Ok (feed_of_channel id)
          | None =>
              Raise (Exn ValueError
                       (str "Unable to resolve YouTube channel id from handle."))
          end).
Proof.
  intros Hat handle_url mirror_url.
  assert (Hrun : FeedXml._resolve_youtube_feed url timeout
                 = (html ← FeedXml._fetch_url handle_url timeout;
                    found ← match channel_id_in html with
                            | Some id => Ok (Some id)
                            | None =>
                                html ← FeedXml._fetch_url mirror_url timeout;
                                Ok (channel_id_in html)
                            end;
                    match found with
                    | Some channel_id => Ok (feed_of_channel channel_id)
                    | None =>
                        Raise (Exn ValueError
                                 (str "Unable to resolve YouTube channel id from handle."))
                    end)).
  { unfold FeedXml._resolve_youtube_feed. subst handle_url mirror_url.
    destruct (strip url) as [| a rest]; [done |].
    apply andb_true_iff in Hat as [Ha%N.eqb_eq _].
    change (N_of_ascii "@") with 64%N in Ha. subst a. reflexivity. }
  rewrite Hrun. split; [| split].
  - by intros e ->.
  - intros id -> Hid. cbn [mbind result_bind]. rewrite Hid.
    split; [done |]. by apply channel_id_in_spec in Hid as (_ & _ & ? & ?).
  - intros mirror -> Hnone ->. cbn [mbind result_bind]. rewrite Hnone.
    cbn [mbind result_bind]. by destruct (channel_id_in mirror).
Qed.

End YoutubeFacts.

(** ** The pipeline over the layer *)

Section Layered.
Import Fetcher FeedXml.
Context `{Runtime} `{Layer}.

(** The network and XML layer of the invocation is the one of the
    source. *)
Definition layered (w : world) : Prop :=
  (forall url timeout, Fetcher._fetch_url w url timeout
                       = FeedXml._fetch_url url timeout)
  /\ (forall xml label, Fetcher._parse_rss_items w xml label
                        = FeedXml._parse_rss_items xml label)
  /\ (forall xml label, Fetcher._parse_feed w xml label
                        = FeedXml._parse_feed xml label)
  /\ (forall url timeout, Fetcher._resolve_youtube_feed w url timeout
                          = FeedXml._resolve_youtube_feed url timeout).

Lemma account_items_entries (w : world) (handle : pystr) (it : item) :
  layered w -> it ∈ account_items w handle -> feed_entry handle it.
Proof.
  intros (_ & Hrss & _) Hit. unfold account_items, _fetch_account_feed in Hit.
  assert (Hparse : forall body items,
             Fetcher._parse_rss_items w body handle = Ok items ->
             it ∈ items -> feed_entry handle it).
  { intros body items Hitems Hin. rewrite Hrss in Hitems.
    apply parse_rss_entries in Hitems. rewrite Forall_forall in Hitems. auto. }
  destruct (Fetcher._fetch_url w (NITTER_RSS handle) _) as [body |];
    cbn [mbind result_bind] in Hit.
  - destruct (Fetcher._parse_rss_items w body handle) as [items |] eqn:Hitems;
      [by eapply Hparse |].
    destruct (Fetcher._fetch_url w (NITTER_RSS_FALLBACK handle) _) as [body2 |];
      cbn [mbind result_bind] in Hit; [| by apply elem_of_nil in Hit].
    destruct (Fetcher._parse_rss_items w body2 handle) as [items |] eqn:Hitems2;
      [by eapply Hparse | by apply elem_of_nil in Hit].
  - destruct (Fetcher._fetch_url w (NITTER_RSS_FALLBACK handle) _) as [body2 |];
      cbn [mbind result_bind] in Hit; [| by apply elem_of_nil in Hit].
    destruct (Fetcher._parse_rss_items w body2 handle) as [items |] eqn:Hitems2;
      [by eapply Hparse | by apply elem_of_nil in Hit].
Qed.

Lemma feed_outcome_entries (w : world) (f : feed) (it : item) :
  layered w -> it ∈ fs_items (feed_outcome w f) ->
  exists label, label <> [] /\ feed_entry label it.
Proof.
  intros (_ & _ & Hfeed & _) Hit. unfold feed_outcome, feeds_step in Hit.
  destruct (is_empty (f_url f)) eqn:Hurl; [by apply elem_of_nil in Hit |].
  destruct (_fetch_feed w f _) as [[items label] |] eqn:Hfetch;
    cbn in Hit; [| by apply elem_of_nil in Hit].
  unfold _fetch_feed in Hfetch. cbv [mbind result_bind] in Hfetch.
  repeat match type of Hfetch with
         | context [match ?r with Ok _ => _ | Raise _ => _ end] =>
             destruct r eqn:?; try discriminate
         end.
  injection Hfetch as <- <-.
  match goal with
  | Hp : Fetcher._parse_feed w _ _ = Ok _ |- _ =>
      rewrite Hfeed in Hp; apply parse_feed_entries in Hp;
      rewrite Forall_forall in Hp
  end.
  eexists. split; [| eauto].
  destruct (f_label f), (f_url f); done.
Qed.

(** What a batch of the accounts or feeds branch holds was gathered from
    the accounts or from the feeds. *)
Lemma batch_items_gathered (w : world) (code : Z) (b : batch) (it : item) :
  main w = Exit code (OutBatch b) ->
  b_mode b <> str "keywords" ->
  it ∈ b_items b ->
  (exists handle, handle <> [] /\ it ∈ account_items w handle)
  \/ (exists f, it ∈ fs_items (feed_outcome w f)).
Proof.
  intros Hmain Hmode Hit.
  assert (Hfinish : forall {K} (key : item -> K) ltb gathered kept,
             _filter_since (w_now w)
               (_filter_excluded gathered
                  (_load_exclude_keywords (w_exclude_keywords_file w)))
               (since_hours (w_args w)) = Ok kept ->
             it ∈ truncate (sort_desc key ltb (_dedupe kept))
                    (limit (w_args w)) ->
             it ∈ gathered).
  { intros K key ltb gathered kept Hkept Hin.
    rewrite truncate_take in Hin.
    apply (fun Hx => elem_of_sublist _ _ _ Hx (sublist_take _ _)) in Hin.
    rewrite sort_desc_perm, dedupe_unfold in Hin.
    apply dedupe_from_elem in Hin as (Hin & _).
    apply filter_since_kept in Hkept. subst kept.
    apply list_elem_of_In, filter_In in Hin as [Hin _].
    rewrite filter_excluded_filter in Hin.
    apply filter_In in Hin as [Hin _]. by apply list_elem_of_In. }
  unfold main in Hmain.
  destruct (_ && truthy (w_token w)).
  - destruct (is_empty _); [discriminate |]. unfold main_keywords in Hmain.
    destruct (_start_time_iso _ _); [| discriminate].
    unfold keywords_finish in Hmain.
    destruct (_fetch_recent _ _ _ _ _); try discriminate.
    destruct (negb _); [discriminate |].
    injection Hmain as _ <-. by destruct Hmode.
  - assert (Haccounts : main_accounts w = Exit code (OutBatch b) ->
                        exists handle, handle <> []
                                       /\ it ∈ account_items w handle).
    { unfold main_accounts. repeat case_bool_decide; try discriminate.
      rewrite accounts_gather. cbn [fst snd app]. unfold accounts_finish.
      destruct (_filter_since _ _ _) as [kept |] eqn:Hkept; [| discriminate].
      intros [= _ <-]. cbn in Hit.
      apply (Hfinish _ _ _ _ _ Hkept) in Hit.
      apply list_elem_of_In, in_flat_map in Hit as (handle & Hh & Hin).
      exists handle. split; [| by apply list_elem_of_In].
      apply filter_In in Hh as [_ Hne]. by destruct handle. }
    assert (Hfeeds : main_feeds w = Exit code (OutBatch b) ->
                     exists f, it ∈ fs_items (feed_outcome w f)).
    { unfold main_feeds. case_bool_decide; try discriminate.
      rewrite feeds_gather. cbn [fs_items fs_errors fs_used_labels app].
      unfold feeds_finish. cbn [fs_items fs_errors fs_used_labels].
      destruct (_filter_since _ _ _) as [kept |] eqn:Hkept; [| discriminate].
      intros [= _ <-]. cbn in Hit.
      apply (Hfinish _ _ _ _ _ Hkept) in Hit.
      apply list_elem_of_In, in_flat_map in Hit as (f & _ & Hin).
      exists f. by apply list_elem_of_In. }
    destruct (arg_mode (w_args w)); auto.
Qed.

(** X30. From end to end: every item of a batch of the accounts or feeds mode
    is a feed entry.  Its source and author are the non-empty label of its
    account or feed, it has no user name and an engagement score of zero,
    its [created_at] is a normalized UTC timestamp (never missing, since it
    passed the time filter), and its deduplication key is its [id]. *)
Theorem layered_batch_items (w : world) (code : Z) (b : batch) (it : item) :
  layered w ->
  main w = Exit code (OutBatch b) ->
  b_mode b <> str "keywords" ->
  it ∈ b_items b ->
  (exists label, label <> [] /\ i_source it = Some label
                 /\ i_author it = Some label)
  /\ i_username it = None
  /\ i_engagement_score it = 0
  /\ (exists us, 0 <= us < MAX_US /\ i_created_at it = Some (isoformat us))
  /\ dedupe_key it = i_id it.
Proof.
  intros Hlayer Hmain Hmode Hit.
  assert (Hentry : exists label, label <> [] /\ feed_entry label it).
  { destruct (batch_items_gathered w code b it Hmain Hmode Hit)
      as [(handle & Hne & Hin) | (f & Hin)].
    - exists handle. split; [done |]. by eapply account_items_entries.
    - by eapply feed_outcome_entries. }
  assert (Hdated : truthy (i_created_at it) = true).
  { assert (Hwin : in_window (w_now w - since_hours (w_args w) * 3600000000) it
                   = true).
    { clear Hentry. revert Hmain Hmode Hit. clear. intros Hmain Hmode Hit.
      apply main_batch_branch in Hmain
        as [(Hkb & q & st & p & Herr & Hfin)
           | [(Hkb & _ & n & items & errs & Hfin) | (Hkb & _ & st & Hfin)]].
      - unfold keywords_finish in Hfin. rewrite Herr in Hfin.
        rewrite bool_decide_eq_true_2 in Hfin by done. cbn [negb] in Hfin.
        injection Hfin as _ <-. by destruct Hmode.
      - unfold accounts_finish in Hfin.
        destruct (_filter_since _ _ _) as [kept |] eqn:Hkept; [| discriminate].
        injection Hfin as _ <-. cbn in Hit. rewrite truncate_take in Hit.
        apply (fun Hx => elem_of_sublist _ _ _ Hx (sublist_take _ _)) in Hit.
        rewrite sort_desc_perm, dedupe_unfold in Hit.
        apply dedupe_from_elem in Hit as (Hit & _).
        apply filter_since_kept in Hkept. subst kept.
        by apply list_elem_of_In, filter_In in Hit as [_ ?].
      - unfold feeds_finish in Hfin.
        destruct (_filter_since _ _ _) as [kept |] eqn:Hkept; [| discriminate].
        injection Hfin as _ <-. cbn in Hit. rewrite truncate_take in Hit.
        apply (fun Hx => elem_of_sublist _ _ _ Hx (sublist_take _ _)) in Hit.
        rewrite sort_desc_perm, dedupe_unfold in Hit.
        apply dedupe_from_elem in Hit as (Hit & _).
        apply filter_since_kept in Hkept. subst kept.
        by apply list_elem_of_In, filter_In in Hit as [_ ?]. }
    unfold in_window, parsed_created_at in Hwin.
    by destruct (truthy (i_created_at it)). }
  destruct Hentry as (label & Hne & title & link & Heq & _ & Hnorm).
  split; [exists label; by rewrite Heq |].
  split; [by rewrite Heq |]. split; [by rewrite Heq |]. split.
  - destruct Hnorm as [Hnone | Hsome]; [| done].
    rewrite Hnone in Hdated. done.
  - rewrite Heq. unfold dedupe_key, py_or. cbn. by destruct link, title.
Qed.

End Layered.

(* ===================================================================== *)
(** * Sample inputs for the further properties *)
(* ===================================================================== *)

Module Inputs.
Import Py Fetcher Sample.

(** An invocation without network: every address fails to load. *)
Definition offline_world (m : mode) (cap : Z) : world :=
  {| w_args := {| since_hours := 24; limit := 10; feed_timeout := 8;
                  max_feeds := cap; arg_mode := m |};
     w_token := None;
     w_keywords_file := None;
     w_accounts_file := Some [str "@karpathy"; str "# more later"];
     w_feeds_file :=
       Some [str "Blog|https://example.org/feed.xml";
             str "https://example.org/other.xml";
             str "Empty|"];
     w_exclude_keywords_file := Some [str "Giveaway"];
     w_now := sample_now;
     _fetch_recent := fun _ _ _ _ => TimeoutError;
     _fetch_url :=
       fun _ _ => Raise (Exn RuntimeError (str "curl failed with code 6"));
     _parse_rss_items := fun _ _ => Ok [];
     _parse_feed := fun _ _ => Ok [];
     _resolve_youtube_feed := fun url _ => Ok url |}.

(** The invocation [w] with the given lines in the exclude file. *)
Definition excluding (words : list pystr) (w : world) : world :=
  {| w_args := w_args w;
     w_token := w_token w;
     w_keywords_file := w_keywords_file w;
     w_accounts_file := w_accounts_file w;
     w_feeds_file := w_feeds_file w;
     w_exclude_keywords_file := Some words;
     w_now := w_now w;
     _fetch_recent := _fetch_recent w;
     _fetch_url := _fetch_url w;
     _parse_rss_items := _parse_rss_items w;
     _parse_feed := _parse_feed w;
     _resolve_youtube_feed := _resolve_youtube_feed w |}.

(** A feed item that announces a giveaway. *)
Definition post_giveaway : item :=
  feed_item (str "Blog") (str "https://example.org/win") (str "GPU GIVEAWAY today")
            (Some (str "2026-11-03T10:30:00+00:00")).

(** An element without attributes. *)
Definition node (tag : pystr) (text : option pystr) (children : list FeedXml.element)
  : FeedXml.element :=
  FeedXml.Element tag text ∅ children.

Definition leaf (tag text : pystr) : FeedXml.element := node tag (Some text) [].

(** An RSS document with two items, the second without link. *)
Definition rss_channel : FeedXml.element :=
  node (str "channel") None
    [leaf (str "title") (str "Blog");
     node (str "item") None
       [leaf (str "title") (str " First post ");
        leaf (str "link") (str "https://example.org/1");
        leaf (str "pubDate") (str "2026-11-03T10:00:00Z")];
     node (str "item") None
       [leaf (str "title") (str "Second post");
        leaf (str "pubDate") (str "not a date")]].

Definition rss_root : FeedXml.element := node (str "rss") None [rss_channel].

(** The two items of that document under a label. *)
Definition first_entry (label : pystr) : item :=
  FeedXml.entry_item label (str "First post") (str "https://example.org/1")
                     (Some (str "2026-11-03T10:00:00+00:00")).

Definition second_entry (label : pystr) : item :=
  FeedXml.entry_item label (str "Second post") [] None.

(** An invocation in which some addresses answer and others do not: the
    first address of every account fails, the fallback answers for
    [karpathy] and fails for [openai]; of the feeds, the one at
    [down.example.org] fails. *)
Definition flaky_world (m : mode) : world :=
  {| w_args := {| since_hours := 24; limit := 10; feed_timeout := 8;
                  max_feeds := 0; arg_mode := m |};
     w_token := None;
     w_keywords_file := None;
     w_accounts_file := Some [str "@karpathy"; str "@openai"];
     w_feeds_file :=
       Some [str "Blog|https://example.org/feed.xml";
             str "https://example.org/other.xml";
             str "Empty|";
             str "Down|https://down.example.org/feed.xml"];
     w_exclude_keywords_file := None;
     w_now := sample_now;
     _fetch_recent := fun _ _ _ _ => TimeoutError;
     _fetch_url :=
       fun url _ =>
         if startswith (str "https://nitter.net/") url
            || contains (str "openai") url || contains (str "down.") url
         then Raise (Exn RuntimeError (str "curl failed with code 6"))
         else Ok (str "<rss/>");
     _parse_rss_items := fun _ label => Ok [first_entry label];
     _parse_feed := fun _ label => Ok [first_entry label];
     _resolve_youtube_feed := fun url _ => Ok url |}.

(** A [link] node of an Atom entry. *)
Definition link_node (rel : option pystr) (href : pystr) : FeedXml.element :=
  FeedXml.Element (str "{http://www.w3.org/2005/Atom}link") None
    (match rel with
     | Some r => <[str "rel" := r]> {[str "href" := href]}
     | None => {[str "href" := href]}
     end) [].

(** A channel page that names its channel id. *)
Definition channel_page : pystr :=
  str "<script>{" ++ quoted_pair (str "channelId") (str "UCabc123")
  ++ str "}</script>".

(** A layer whose XML parser answers every text with [root], whose e-mail
    date parser rejects every value, whose [urlopen] fails and whose
    [curl] answers every address with [page]. *)
Definition sample_layer (root : FeedXml.element) (page : pystr) : FeedXml.Layer :=
  {| FeedXml.fromstring := fun _ => Ok root;
     FeedXml.parsedate_to_datetime :=
       fun _ => Raise (Exn ValueError (str "Invalid date value or format"));
     FeedXml.urlopen := fun _ _ => Raise (Exn OtherException (str "timed out"));
     FeedXml.curl := fun _ _ => Ok page |}.

(** The same layer with an e-mail date parser that answers every value
    with [answer]. *)
Definition mail_layer (answer : result datetime) : FeedXml.Layer :=
  {| FeedXml.fromstring := fun _ => Ok rss_root;
     FeedXml.parsedate_to_datetime := fun _ => answer;
     FeedXml.urlopen := fun _ _ => Raise (Exn OtherException (str "timed out"));
     FeedXml.curl := fun _ _ => Ok channel_page |}.

(** An invocation of the accounts mode over that layer. *)
Definition layered_world (L : FeedXml.Layer) (m : mode) : world :=
  {| w_args := {| since_hours := 24; limit := 10; feed_timeout := 8;
                  max_feeds := 0; arg_mode := m |};
     w_token := None;
     w_keywords_file := None;
     w_accounts_file := Some [str "@karpathy"];
     w_feeds_file := Some [str "Blog|https://example.org/feed.xml"];
     w_exclude_keywords_file := None;
     w_now := sample_now;
     _fetch_recent := fun _ _ _ _ => TimeoutError;
     _fetch_url := @FeedXml._fetch_url L;
     _parse_rss_items := @FeedXml._parse_rss_items sample_runtime L;
     _parse_feed := @FeedXml._parse_feed sample_runtime L;
     _resolve_youtube_feed := @FeedXml._resolve_youtube_feed L |}.

(** A publisher run: the token request is answered with [token_answer],
    the draft request with [draft_answer], the publish request with a
    publish id. *)
Definition sample_env (file : option pystr) (only_draft : bool)
  (token_answer draft_answer : gmap pystr PublishFlow.jval) : PublishFlow.env :=
  {| PublishFlow.app_id := str "wx123";
     PublishFlow.app_secret := str "secret";
     PublishFlow.title := str "AI daily";
     PublishFlow.author := [];
     PublishFlow.source_url := [];
     PublishFlow.thumb := str "THUMB";
     PublishFlow.draft_only := only_draft;
     PublishFlow.html_file := file;
     PublishFlow.urlopen_json :=
       fun rq =>
         if bool_decide (PublishFlow.rq_method rq = str "GET")
         then Ok token_answer
         else if startswith PublishFlow.DRAFT_ADD_URL (PublishFlow.rq_url rq)
         then Ok draft_answer
         else Ok {[str "publish_id" := PublishFlow.JInt 1]};
     PublishFlow.curl_json :=
       fun _ => Raise (Exn RuntimeError (str "curl failed with code 6"));
     PublishFlow.urlencode :=
       fun fields => join (str "&") (map (fun kv => kv.1 ++ str "=" ++ kv.2) fields);
     PublishFlow.repr := fun _ => str "{...}" |}.

Definition granted : gmap pystr PublishFlow.jval :=
  {[str "access_token" := PublishFlow.JStr (str "TOKEN")]}.

Definition refused : gmap pystr PublishFlow.jval :=
  {[str "errcode" := PublishFlow.JInt 40013]}.

Definition drafted : gmap pystr PublishFlow.jval :=
  {[str "media_id" := PublishFlow.JStr (str "MEDIA")]}.

End Inputs.

(* ===================================================================== *)
(** * The further properties on the sample inputs *)
(* ===================================================================== *)

Section FetcherInstances.
Import Fetcher Sample Inputs.

Lemma loaded_entries_witness :
  str "LLM" ∈ _load_keywords (Some [str "  LLM  "; str "# note"; str ""])
  /\ strip (str "LLM") = str "LLM".
Proof.
  destruct (loaded_entries (Some [str "  LLM  "; str "# note"; str ""])
              (str "LLM")) as (_ & Hiff & Hstrip).
  assert (Hin : str "LLM"
                ∈ _load_keywords (Some [str "  LLM  "; str "# note"; str ""])).
  { apply Hiff. exists [str "  LLM  "; str "# note"; str ""], (str "  LLM  ").
    refine (conj eq_refl (conj _ (conj eq_refl (conj _ eq_refl)))).
    - apply list_elem_of_In. left. reflexivity.
    - discriminate. }
  exact (conj Hin (Hstrip Hin)).
Defined.

Lemma build_query_shape_witness :
  _build_query [str "  "; str ""] = []
  /\ _build_query [str "LLM"; str " "; str "AI agents"]
     = str "(" ++ join (str " OR ")
                       [[34%N] ++ str "LLM" ++ [34%N];
                        [34%N] ++ str "AI agents" ++ [34%N]]
       ++ str ") -is:retweet -is:reply".
Proof.
  split.
  - apply (build_query_shape [str "  "; str ""]).
    intros k Hk. apply list_elem_of_In in Hk.
    destruct Hk as [<- | [<- | []]]; reflexivity.
  - apply (build_query_shape [str "LLM"; str " "; str "AI agents"]).
    vm_compute. discriminate.
Defined.

Lemma normalize_account_handle_witness :
  _normalize_account (str "karpathy") = str "karpathy"
  /\ _normalize_account (str "@karpathy") = str "karpathy".
Proof.
  apply (normalize_account_handle [] (str "karpathy")).
  - repeat constructor.
  - discriminate.
Defined.

Lemma filter_since_monotone_witness :
  _filter_since sample_now [post_a; post_stale] 24 = Ok [post_a]
  /\ _filter_since sample_now [post_a; post_stale] 48 = Ok [post_a; post_stale]
  /\ [post_a] `sublist_of` [post_a; post_stale].
Proof.
  assert (Hday : _filter_since sample_now [post_a; post_stale] 24 = Ok [post_a])
    by (vm_compute; reflexivity).
  assert (Hdays : _filter_since sample_now [post_a; post_stale] 48
                  = Ok [post_a; post_stale])
    by (vm_compute; reflexivity).
  refine (conj Hday (conj Hdays _)).
  apply (filter_since_monotone sample_now 24 48 [post_a; post_stale]
           [post_a] [post_a; post_stale]); [lia | exact Hday | exact Hdays].
Defined.

Lemma filter_since_errors_witness :
  (exists msg, _filter_since sample_now [post_a] 1000000000
               = Raise (Exn OverflowError msg))
  /\ (exists msg, _filter_since sample_now [post_a; post_naive] 24
                  = Raise (Exn TypeError msg))
  /\ _filter_since sample_now [post_undated; post_garbled] 24 = Ok [].
Proof.
  refine (conj _ (conj _ _)).
  - apply (filter_since_errors sample_now 1000000000 [post_a]).
    vm_compute. intros [Hlow _]. by apply Hlow.
  - apply (filter_since_errors sample_now 24 [post_a; post_naive]).
    + vm_compute. split; [discriminate | reflexivity].
    + exists post_naive, {| dt_us := 63929296800000000; dt_aware := false |}.
      refine (conj _ (conj _ eq_refl)).
      * apply list_elem_of_In. right. left. reflexivity.
      * vm_compute. reflexivity.
  - apply (filter_since_errors sample_now 24 [post_undated; post_garbled]).
    + vm_compute. split; [discriminate | reflexivity].
    + repeat constructor.
Defined.

Lemma dedupe_keeps_keys_witness :
  Some (str "https://example.org/a")
    ∈ dedupe_key <$> _dedupe [post_a; post_blank; post_a_again]
  <-> Some (str "https://example.org/a")
        ∈ dedupe_key <$> [post_a; post_blank; post_a_again].
Proof.
  apply (dedupe_keeps_keys [post_a; post_blank; post_a_again]).
  reflexivity.
Defined.

Lemma dedupe_fixed_points_witness :
  _dedupe [post_a; post_b] = [post_a; post_b].
Proof.
  apply (dedupe_fixed_points [post_a; post_b]). split.
  - apply (bool_decide_unpack _). vm_compute. exact I.
  - repeat constructor.
Defined.

Lemma build_items_shape_witness :
  exists url,
    i_url (ranked tweet_high_new) = Some url
    /\ startswith (str "https://x.com/") url = true
    /\ dedupe_key (ranked tweet_high_new) = Some url
    /\ truthy (i_author (ranked tweet_high_new)) = true
    /\ i_source (ranked tweet_high_new) = None.
Proof.
  apply (build_items_shape ranking_payload).
  apply list_elem_of_In. vm_compute. left. reflexivity.
Defined.

Lemma accounts_ranking_witness :
  before post_a post_b (sort_desc accounts_key str_ltb [post_b; post_undated; post_a])
  /\ before post_b post_undated
       (sort_desc accounts_key str_ltb [post_b; post_undated; post_a]).
Proof.
  destruct (accounts_ranking [post_b; post_undated; post_a])
    as (_ & Hnewer & Hundated & _).
  split.
  - apply Hnewer.
    + apply list_elem_of_In. right. right. left. reflexivity.
    + apply list_elem_of_In. left. reflexivity.
    + reflexivity.
  - apply Hundated.
    + apply list_elem_of_In. left. reflexivity.
    + apply list_elem_of_In. right. left. reflexivity.
    + reflexivity.
    + reflexivity.
Defined.

Lemma main_exit_codes_witness :
  exists code out,
    main (offline_world Keywords 0) = Exit code out
    /\ ((code = 0 /\ exists b, out = OutBatch b)
        \/ (code = 2 /\ exists error, out = OutError error NoDetails)
        \/ (code = 3 /\ keywords_branch (offline_world Keywords 0)
            /\ exists error d, out = OutError error d)).
Proof.
  eexists _, _. split; [vm_compute; reflexivity |].
  eapply (main_exit_codes (offline_world Keywords 0)).
  vm_compute. reflexivity.
Defined.

Lemma batch_shape_witness :
  exists b,
    main (sample_world Feeds 1 None [] (sample_payload []) [post_a; post_b])
    = Exit 0 (OutBatch b)
    /\ b_limit b = 1
    /\ length (b_items b) = Nat.min (Z.to_nat 1) (b_fetched b)
    /\ b_mode b = str "feeds".
Proof.
  eexists. split; [vm_compute; reflexivity |].
  edestruct (batch_shape
               (sample_world Feeds 1 None [] (sample_payload [])
                  [post_a; post_b]) 0) as (Hlimit & Hlength & _ & _ & _ & Hfeeds).
  - vm_compute. reflexivity.
  - refine (conj Hlimit (conj Hlength (Hfeeds _ _))).
    + intros [_ Htoken]. discriminate Htoken.
    + discriminate.
Defined.

Lemma batch_items_filtered_witness :
  mentions (_load_exclude_keywords (Some [str "Giveaway"])) post_a = false
  /\ in_window (sample_now - 24 * 3600000000) post_a = true
  /\ truthy (dedupe_key post_a) = true.
Proof.
  eapply (batch_items_filtered
            (excluding [str "Giveaway"]
               (sample_world Feeds 10 None [] (sample_payload [])
                  [post_giveaway; post_a; post_blank; post_a_again; post_b])) 0).
  - vm_compute. reflexivity.
  - discriminate.
  - apply list_elem_of_In. left. reflexivity.
Defined.

Lemma accounts_partial_failure_witness :
  exists b,
    main (flaky_world Accounts) = Exit 0 (OutBatch b)
    /\ b_accounts b = Some [str "karpathy"; str "openai"]
    /\ b_errors b = [(str "openai", str "curl failed with code 6")]
    /\ b_items b = [first_entry (str "karpathy")]
    /\ (str "openai", str "curl failed with code 6") ∈ b_errors b.
Proof.
  destruct (accounts_partial_failure (flaky_world Accounts)
              [first_entry (str "karpathy")])
    as (b & Hmain & Haccounts & Herrors & _ & Hfailed & _).
  - intros [_ Htoken]. discriminate Htoken.
  - reflexivity.
  - vm_compute. discriminate.
  - vm_compute. reflexivity.
  - exists b. refine (conj Hmain (conj _ (conj _ (conj _ _)))).
    + rewrite Haccounts. reflexivity.
    + rewrite Herrors. reflexivity.
    + vm_compute in Hmain. injection Hmain as <-. reflexivity.
    + apply Hfailed. split.
      * apply list_elem_of_In. right. left. reflexivity.
      * split.
        -- exists (Exn RuntimeError (str "curl failed with code 6")).
           left. reflexivity.
        -- exists (Exn RuntimeError (str "curl failed with code 6")).
           split; [left |]; reflexivity.
Defined.

Lemma feeds_partial_failure_witness :
  exists b,
    main (flaky_world Feeds) = Exit 0 (OutBatch b)
    /\ b_feeds b = Some [str "Blog"; str "https://example.org/other.xml"]
    /\ b_errors b
       = [(str "https://down.example.org/feed.xml",
           str "curl failed with code 6")].
Proof.
  destruct (feeds_partial_failure (flaky_world Feeds)
              [first_entry (str "Blog");
               first_entry (str "https://example.org/other.xml")])
    as (b & labels & Hmain & Hfeeds & _ & Herrors & _ & _ & Hlabels & _).
  - intros [_ Htoken]. discriminate Htoken.
  - discriminate.
  - vm_compute. discriminate.
  - vm_compute. reflexivity.
  - exists b. refine (conj Hmain (conj _ _)).
    + rewrite Hfeeds, Hlabels. reflexivity.
    + rewrite Herrors. reflexivity.
Defined.

End FetcherInstances.

Section PublisherInstances.
Import Publisher PublishFlow Inputs.

Lemma sub_tags_removes_witness :
  sub_tags (str "Top " ++ [60%N] ++ str "b" ++ [62%N] ++ str "stories") O
  = str "Top " ++ sub_tags (str "stories") O.
Proof.
  apply (sub_tags_removes (str "Top ") (str "b") (str "stories")).
  - apply (bool_decide_unpack _). vm_compute. exact I.
  - discriminate.
  - apply (bool_decide_unpack _). vm_compute. exact I.
Defined.

Lemma build_digest_budget_witness :
  (length (@_build_digest sample_html (str "<p>AI daily digest</p>") 5) <= 5)%nat
  /\ @_build_digest sample_html (str "<p>AI daily digest</p>") 5
     = str "AI d" ++ ellipsis.
Proof.
  destruct (@build_digest_budget sample_html (str "<p>AI daily digest</p>") 5)
    as (Hbudget & _ & Hcut); [lia |].
  split; [exact Hbudget |]. rewrite Hcut; [reflexivity |].
  vm_compute. lia.
Defined.

Lemma publisher_requests_witness :
  @main sample_html (sample_env None false granted drafted)
  = (Exit 2 (OutError (str "html file not found") None), [])
  /\ exists msg,
       @main sample_html (sample_env (Some (str "<p>Hi</p>")) false refused drafted)
       = (Uncaught (Exn RuntimeError msg),
          [token_request (sample_env (Some (str "<p>Hi</p>")) false refused drafted)]).
Proof.
  split.
  - apply (@publisher_requests sample_html (sample_env None false granted drafted)).
    reflexivity.
  - eapply (@publisher_requests sample_html
              (sample_env (Some (str "<p>Hi</p>")) false refused drafted)).
    + reflexivity.
    + vm_compute. reflexivity.
    + vm_compute. reflexivity.
Defined.

Lemma draft_only_never_publishes_witness :
  Forall (fun rq => is_publish rq = false)
    (@main sample_html (sample_env (Some (str "<p>Hi</p>")) true granted drafted)).2
  /\ length (@main sample_html
               (sample_env (Some (str "<p>Hi</p>")) true granted drafted)).2
     = 2%nat.
Proof.
  split; [| reflexivity].
  apply (@draft_only_never_publishes sample_html
           (sample_env (Some (str "<p>Hi</p>")) true granted drafted)).
  reflexivity.
Defined.

Lemma publish_follows_draft_witness :
  (exists media_id,
      drafted !! str "media_id" = Some media_id
      /\ publish_request (JStr (str "TOKEN")) (JStr (str "MEDIA"))
         = publish_request (JStr (str "TOKEN")) media_id)
  /\ (@main sample_html (sample_env (Some (str "<p>Hi</p>")) false granted refused)).1
     = Exit 3 (OutError (str "draft_add failed") (Some refused)).
Proof.
  split.
  - destruct (@publish_follows_draft sample_html
                (sample_env (Some (str "<p>Hi</p>")) false granted drafted))
      as [Hpublish _].
    destruct (Hpublish (publish_request (JStr (str "TOKEN")) (JStr (str "MEDIA"))))
      as (_ & content & token & draft & media_id & _ & Htoken & Hdraft & Hid & Hrq).
    + apply list_elem_of_In. right. right. left. reflexivity.
    + vm_compute. reflexivity.
    + injection Htoken as <-.
      assert (Hanswer : draft = drafted).
      { vm_compute in Hdraft. injection Hdraft as <-. reflexivity. }
      subst draft. exists media_id. exact (conj Hid Hrq).
  - destruct (@publish_follows_draft sample_html
                (sample_env (Some (str "<p>Hi</p>")) false granted refused))
      as (_ & Hfailed & _).
    apply Hfailed. exists (str "<p>Hi</p>"), (JStr (str "TOKEN")), refused.
    refine (conj eq_refl (conj _ (conj _ (conj _ eq_refl)))).
    + vm_compute. reflexivity.
    + vm_compute. reflexivity.
    + vm_compute. reflexivity.
Defined.

Lemma draft_article_witness :
  exists a,
    a_content a = str "<p>Hi</p>"
    /\ a_digest a = @draft_digest sample_html (str "<p>Hi</p>")
    /\ (length (a_digest a) <= 80)%nat
    /\ a_title a = str "AI daily"
    /\ thumb_media_id a = str "THUMB".
Proof.
  destruct (@draft_article sample_html
              (sample_env (Some (str " <p>Hi</p> ")) false granted drafted)
              (@draft_request sample_html
                 (sample_env (Some (str " <p>Hi</p> ")) false granted drafted)
                 (JStr (str "TOKEN")) (str "<p>Hi</p>"))
              _ ltac:(apply list_elem_of_In; right; left; reflexivity) eq_refl)
    as (content & a & Hfile & _ & Hcontent & Hdigest & Hlength & Htitle & Hthumb).
  injection Hfile as <-. exists a.
  exact (conj Hcontent (conj Hdigest (conj Hlength (conj Htitle Hthumb)))).
Defined.

End PublisherInstances.

Section FeedInstances.
Import Fetcher FeedXml Sample Inputs.

Lemma strip_tag_namespace_witness :
  _strip_tag ([123%N] ++ str "http://www.w3.org/2005/Atom" ++ [125%N] ++ str "entry")
  = str "entry"
  /\ _strip_tag (str "item") = str "item".
Proof.
  destruct (strip_tag_namespace (str "http://www.w3.org/2005/Atom")
              (str "entry") (str "item")) as [Hqualified Hplain].
  split.
  - apply Hqualified. apply (bool_decide_unpack _). vm_compute. exact I.
  - apply Hplain. apply (bool_decide_unpack _). vm_compute. exact I.
Defined.

Lemma parse_date_spec_witness :
  (exists dt,
      sample_fromisoformat (str "2026-11-03T10:00:00+00:00") = Some dt
      /\ @_parse_date sample_runtime (sample_layer rss_root channel_page)
           (str "2026-11-03T10:00:00Z")
         = Ok (Some (sample_isoformat (dt_us dt))))
  /\ @_parse_date sample_runtime (sample_layer rss_root channel_page)
       (str "not a date") = Ok None
  /\ (exists msg,
        @_parse_date sample_runtime (sample_layer rss_root channel_page)
          (str "0001-01-01T00:00:00+05:00")
        = Raise (Exn OverflowError msg))
  /\ @_parse_date sample_runtime
       (mail_layer
          (Raise (Exn OverflowError
                    (str "Python int too large to convert to C int"))))
       (str "Mon, 01 Jan 2024 00:00:00 +9999999999999999")
     = Raise (Exn OverflowError (str "Python int too large to convert to C int"))
  /\ @_parse_date sample_runtime
       (mail_layer (Ok {| dt_us := sample_now; dt_aware := true |}))
       (str "Tue, 03 Nov 2026 12:00:00 +0000")
     = Ok (Some (sample_isoformat sample_now)).
Proof.
  pose (invalid := Exn ValueError (str "Invalid date value or format")).
  refine (conj _ (conj _ (conj _ (conj _ _)))).
  - destruct (@parse_date_spec sample_runtime
                (sample_layer rss_root channel_page)
                (str "2026-11-03T10:00:00Z")) as (_ & Hspec).
    destruct (Hspec ltac:(discriminate)) as (_ & _ & Hiso).
    destruct (Hiso invalid eq_refl (or_intror eq_refl)) as [_ Hsome].
    eexists. split; [vm_compute; reflexivity |].
    eapply Hsome; [vm_compute; reflexivity |].
    vm_compute. split; [discriminate | reflexivity].
  - destruct (@parse_date_spec sample_runtime
                (sample_layer rss_root channel_page)
                (str "not a date")) as (_ & Hspec).
    destruct (Hspec ltac:(discriminate)) as (_ & _ & Hiso).
    destruct (Hiso invalid eq_refl (or_intror eq_refl)) as [Hnone _].
    apply Hnone. vm_compute. reflexivity.
  - destruct (@parse_date_spec sample_runtime
                (sample_layer rss_root channel_page)
                (str "0001-01-01T00:00:00+05:00")) as (_ & Hspec).
    destruct (Hspec ltac:(discriminate)) as (_ & _ & Hiso).
    destruct (Hiso invalid eq_refl (or_intror eq_refl)) as [_ Hsome].
    eapply Hsome; [vm_compute; reflexivity |].
    vm_compute. intros [Hlow _]. by apply Hlow.
  - destruct (@parse_date_spec sample_runtime
                (mail_layer
                   (Raise (Exn OverflowError
                             (str "Python int too large to convert to C int"))))
                (str "Mon, 01 Jan 2024 00:00:00 +9999999999999999"))
      as (_ & Hspec).
    destruct (Hspec ltac:(discriminate)) as (_ & Hescapes & _).
    apply Hescapes; [reflexivity | discriminate | discriminate].
  - destruct (@parse_date_spec sample_runtime
                (mail_layer (Ok {| dt_us := sample_now; dt_aware := true |}))
                (str "Tue, 03 Nov 2026 12:00:00 +0000")) as (_ & Hspec).
    destruct (Hspec ltac:(discriminate)) as (Hmail & _ & _).
    apply (Hmail {| dt_us := sample_now; dt_aware := true |} eq_refl).
    vm_compute. split; [discriminate | reflexivity].
Defined.

Lemma parsed_items_shape_witness :
  @FeedXml._parse_feed sample_runtime (sample_layer rss_root channel_page)
    (str "<rss/>") (str "Blog")
  = Ok [first_entry (str "Blog"); second_entry (str "Blog")]
  /\ i_source (second_entry (str "Blog")) = Some (str "Blog")
  /\ normalized (i_created_at (first_entry (str "Blog")))
  /\ dedupe_key (second_entry (str "Blog")) = i_id (second_entry (str "Blog")).
Proof.
  set (first := first_entry (str "Blog")).
  set (second := second_entry (str "Blog")).
  assert (Hparsed :
    @FeedXml._parse_feed sample_runtime (sample_layer rss_root channel_page)
      (str "<rss/>") (str "Blog") = Ok [first; second])
    by (vm_compute; reflexivity).
  split; [exact Hparsed |].
  destruct (@parsed_items_shape sample_runtime
              (sample_layer rss_root channel_page)
              (str "<rss/>") (str "Blog") [first; second] second)
    as (Hsource & _ & _ & _ & _ & _ & _ & Hkey).
  { right. right. exact Hparsed. }
  { apply list_elem_of_In. right. left. reflexivity. }
  destruct (@parsed_items_shape sample_runtime
              (sample_layer rss_root channel_page)
              (str "<rss/>") (str "Blog") [first; second] first)
    as (_ & _ & _ & _ & _ & _ & Hdate & _).
  { right. right. exact Hparsed. }
  { apply list_elem_of_In. left. reflexivity. }
  exact (conj Hsource (conj Hdate Hkey)).
Defined.

Lemma parse_rss_items_count_witness :
  exists items,
    @FeedXml._parse_rss_items sample_runtime (sample_layer rss_root channel_page)
      (str "<rss/>") (str "Blog") = Ok items
    /\ i_text <$> items
       = (fun node => Some (_child_text node (str "title")))
           <$> _iter_children rss_channel (str "item").
Proof.
  destruct (@parse_rss_items_count sample_runtime
              (sample_layer rss_root channel_page) (str "<rss/>") (str "Blog"))
    as (_ & _ & Htitles).
  eexists. split; [vm_compute; reflexivity |].
  apply (Htitles rss_root rss_channel []).
  - reflexivity.
  - reflexivity.
  - vm_compute. reflexivity.
Defined.

Lemma pick_link_preference_witness :
  pick_link []
    ([link_node (Some (str "self")) (str "https://example.org/feed")]
     ++ link_node None (str "https://example.org/post")
     :: [link_node (Some (str "alternate")) (str "https://example.org/other")])
  = str "https://example.org/post".
Proof.
  destruct (pick_link_preference
              [link_node (Some (str "self")) (str "https://example.org/feed")]
              [link_node (Some (str "alternate")) (str "https://example.org/other")]
              (link_node None (str "https://example.org/post")))
    as (Hfirst & _ & _).
  rewrite Hfirst.
  - vm_compute. reflexivity.
  - repeat constructor.
  - vm_compute. reflexivity.
Defined.

Lemma resolve_youtube_feed_shape_witness :
  (startswith (str "http") (feed_of_channel (str "UCabc123")) = true
   /\ contains (str "youtube.com/feeds/videos.xml")
        (feed_of_channel (str "UCabc123")) = true)
  \/ is_channel_feed (feed_of_channel (str "UCabc123")) = true.
Proof.
  apply (@resolve_youtube_feed_shape (sample_layer rss_root channel_page)
           (str "https://www.youtube.com/@lexfridman")
           (feed_of_channel (str "UCabc123")) 8).
  vm_compute. reflexivity.
Defined.

Lemma resolve_channel_id_witness :
  @FeedXml._resolve_youtube_feed (sample_layer rss_root channel_page)
    (str "UCabc123") 8 = Ok (feed_of_channel (str "UCabc123"))
  /\ @FeedXml._resolve_youtube_feed (sample_layer rss_root channel_page)
       (str "youtube:" ++ str "UCabc123") 8 = Ok (feed_of_channel (str "UCabc123"))
  /\ @FeedXml._resolve_youtube_feed (sample_layer rss_root channel_page)
       (str "yt:" ++ str "UCabc123") 8 = Ok (feed_of_channel (str "UCabc123")).
Proof.
  apply (@resolve_channel_id (sample_layer rss_root channel_page)
           (str "UCabc123") 8); reflexivity.
Defined.

Lemma resolve_handle_witness :
  @FeedXml._resolve_youtube_feed (sample_layer rss_root channel_page)
    (str "  @lexfridman ") 8 = Ok (feed_of_channel (str "UCabc123"))
  /\ (34%N ∉ str "UCabc123").
Proof.
  destruct (@resolve_handle (sample_layer rss_root channel_page)
              (str "  @lexfridman ") channel_page 8 eq_refl)
    as (_ & Hfound & _).
  destruct (Hfound (str "UCabc123")) as (Hfeed & Hquote & _).
  - vm_compute. reflexivity.
  - vm_compute. reflexivity.
  - exact (conj Hfeed Hquote).
Defined.

Lemma layered_batch_items_witness :
  (exists label, label <> []
                 /\ i_source (first_entry (str "karpathy")) = Some label
                 /\ i_author (first_entry (str "karpathy")) = Some label)
  /\ i_username (first_entry (str "karpathy")) = None
  /\ i_engagement_score (first_entry (str "karpathy")) = 0
  /\ (exists us, 0 <= us < MAX_US
                 /\ i_created_at (first_entry (str "karpathy"))
                    = Some (isoformat us))
  /\ dedupe_key (first_entry (str "karpathy")) = i_id (first_entry (str "karpathy")).
Proof.
  eapply (@layered_batch_items sample_runtime (sample_layer rss_root channel_page)
            (layered_world (sample_layer rss_root channel_page) Accounts) 0).
  - repeat split.
  - vm_compute. reflexivity.
  - discriminate.
  - apply list_elem_of_In. left. reflexivity.
Defined.

End FeedInstances.
